(** * Image-Denoise-Sharpen-Batch-Tool: the filter pipeline, embedded and checked

    A shallow embedding of [src/filters.py], [src/processor.py] and
    [src/utils.py].  Python values are an inductive type, dictionaries are
    [gmap string], Python floats are IEEE binary64 numbers ([spec_float] at
    precision 53), float32 samples are [spec_float] at precision 24, raised
    exceptions are the [Raise] branch of a result, and every call into OpenCV
    and every [print] is recorded, in order, in the log a computation carries.
    OpenCV itself is not part of the repository: it is a record of functions
    ([cv2_lib]) over which the statements quantify.  The standard output is
    a parameter too: [processor.py] is translated once on a stream that takes
    every line, and once more, in module [Stdout], on a stream that can
    refuse a line, as [print] does when the stream cannot encode the text.

    Conventions.  Dictionaries have string keys.  The exceptions are the
    ones that derive from [Exception], which is what the [except] clauses of
    the source catch ([KeyboardInterrupt] and the like are not modelled).
    [os.path] is [posixpath].  An image is a [uint8] array, as [cv2.imread]
    returns it; its shape is the list of its axes. *)

From Stdlib Require Import ZArith String Ascii List Bool Lia.
From Stdlib Require Import Floats.SpecFloat.
From stdpp Require Import gmap strings sorting.

Set Warnings "-register-all".
Local Open Scope Z_scope.

(** ** Python values *)

Inductive pyval : Type :=
| PyNone
| PyBool (b : bool)
| PyInt (z : Z)
| PyFloat (f : spec_float)
| PyStr (s : string)
| PyList (l : list pyval)
| PyTuple (l : list pyval)
| PyDict (d : gmap string pyval).

(** The exceptions the code can meet; all of them derive from [Exception],
    so an [except Exception] clause catches every one of them. *)
Inductive exn : Type :=
| ValueError (msg : string)
| TypeError (msg : string)
| AttributeError (msg : string)
| IndexError (msg : string)
| ZeroDivisionError
| OverflowError
| cv2_error (msg : string).

Inductive result (A : Type) : Type :=
| Ok (a : A)
| Raise (e : exn).
Arguments Ok {A} a.
Arguments Raise {A} e.

(** ** Python floats (binary64) and float32 samples *)

Module F64.
Definition prec : Z := 53.
Definition emax : Z := 1024.
Definition of_Z (z : Z) : spec_float := binary_normalize prec emax z 0 false.
Definition add := SFadd prec emax.
Definition sub := SFsub prec emax.
Definition mul := SFmul prec emax.
Definition div := SFdiv prec emax.
Definition opp := SFopp.

(** An integer as an unrounded operand: [SFdiv] rounds the exact quotient of
    two of them once, which is what Python's [int / int] returns. *)
Definition exact_int (z : Z) : spec_float :=
  match z with
  | Z0 => S754_zero false
  | Zpos p => S754_finite false p 0
  | Zneg p => S754_finite true p 0
  end.

Definition is_nan (f : spec_float) : bool :=
  match f with S754_nan => true | _ => false end.
Definition is_inf (f : spec_float) : bool :=
  match f with S754_infinity _ => true | _ => false end.
Definition is_zero (f : spec_float) : bool :=
  match f with S754_zero _ => true | _ => false end.

(** Truncation toward zero of a finite float. *)
Definition trunc (f : spec_float) : Z :=
  match f with
  | S754_finite s m e =>
      let a := match e with
               | Zneg k => Z.shiftr (Zpos m) (Zpos k)
               | _ => Z.shiftl (Zpos m) e
               end in
      if s then - a else a
  | _ => 0
  end.

(** Exact comparison of an integer with a float (Python compares the two
    values, not their conversions); [None] when the float is a NaN. *)
Definition compare_Z (z : Z) (f : spec_float) : option comparison :=
  match f with
  | S754_nan => None
  | S754_infinity s => Some (if s then Gt else Lt)
  | S754_zero _ => Some (z ?= 0)
  | S754_finite s m e =>
      let v := if s then Zneg m else Zpos m in
      Some (match e with
            | Zneg k => (Z.shiftl z (Zpos k) ?= v)
            | _ => (z ?= Z.shiftl v e)
            end)
  end.
End F64.

Module F32.
Definition prec : Z := 24.
Definition emax : Z := 128.
Definition of_Z (z : Z) : spec_float := binary_normalize prec emax z 0 false.
Definition add := SFadd prec emax.
Definition sub := SFsub prec emax.
Definition mul := SFmul prec emax.
Definition div := SFdiv prec emax.

(** Rounding of a binary64 value to float32. *)
Definition of_f64 (f : spec_float) : spec_float :=
  match f with
  | S754_finite s m e => binary_normalize prec emax (if s then Zneg m else Zpos m) e s
  | _ => f
  end.

(** [np.clip(x, lo, hi)] on one sample: [minimum(maximum(x, lo), hi)], a NaN
    stays a NaN. *)
Definition clip (lo hi x : spec_float) : spec_float :=
  match x with
  | S754_nan => S754_nan
  | _ => let y := if SFltb x lo then lo else x in
         if SFltb hi y then hi else y
  end.

(** The C cast behind [astype(np.uint8)]: truncate, keep the low byte. *)
Definition to_u8 (x : spec_float) : Z := (F64.trunc x) mod 256.
End F32.

(** ** The error monad of plain Python expressions *)

Definition rbind {A B} (r : result A) (f : A -> result B) : result B :=
  match r with
  | Ok a => f a
  | Raise e => Raise e
  end.

(** ** Python numbers and the operators the code applies to them *)

Module Py.
Inductive num : Type :=
| NInt (z : Z)
| NFloat (f : spec_float).

(** [bool] is a subclass of [int]. *)
Definition as_num (v : pyval) : option num :=
  match v with
  | PyBool b => Some (NInt (if b then 1 else 0))
  | PyInt z => Some (NInt z)
  | PyFloat f => Some (NFloat f)
  | _ => None
  end.

Definition expect_num (op : string) (v : pyval) : result num :=
  match as_num v with
  | Some n => Ok n
  | None => Raise (TypeError op)
  end.

(** [float(z)]: too large an integer raises [OverflowError]. *)
Definition int_to_float (z : Z) : result spec_float :=
  let f := F64.of_Z z in
  if F64.is_inf f then Raise OverflowError else Ok f.

Definition to_float (n : num) : result spec_float :=
  match n with
  | NInt z => int_to_float z
  | NFloat f => Ok f
  end.

Definition arith (fz : Z -> Z -> Z) (ff : spec_float -> spec_float -> spec_float)
    (a b : num) : result num :=
  match a, b with
  | NInt x, NInt y => Ok (NInt (fz x y))
  | _, _ =>
      rbind (to_float a) (fun fa =>
      rbind (to_float b) (fun fb =>
      Ok (NFloat (ff fa fb))))
  end.

Definition add := arith Z.add F64.add.
Definition sub := arith Z.sub F64.sub.
Definition mul := arith Z.mul F64.mul.

Definition neg (a : num) : num :=
  match a with
  | NInt x => NInt (- x)
  | NFloat f => NFloat (F64.opp f)
  end.

(** True division [a / b]. *)
Definition truediv (a b : num) : result spec_float :=
  match a, b with
  | NInt x, NInt y =>
      if y =? 0 then Raise ZeroDivisionError
      else let q := F64.div (F64.exact_int x) (F64.exact_int y) in
           if F64.is_inf q then Raise OverflowError else Ok q
  | _, _ =>
      rbind (to_float a) (fun fa =>
      rbind (to_float b) (fun fb =>
      if F64.is_zero fb then Raise ZeroDivisionError else Ok (F64.div fa fb)))
  end.

Definition compare (a b : num) : option comparison :=
  match a, b with
  | NInt x, NInt y => Some (x ?= y)
  | NInt x, NFloat g => F64.compare_Z x g
  | NFloat f, NInt y => option_map CompOpp (F64.compare_Z y f)
  | NFloat f, NFloat g => SFcompare f g
  end.

Definition lt (a b : num) : bool :=
  match compare a b with Some Lt => true | _ => false end.
Definition le (a b : num) : bool :=
  match compare a b with Some Lt | Some Eq => true | _ => false end.
Definition gt (a b : num) : bool := lt b a.

(** [min(a, b)] keeps its first argument unless the second is smaller. *)
Definition min (a b : num) : num := if lt b a then b else a.

(** [int(x)]. *)
Definition int (a : num) : result Z :=
  match a with
  | NInt z => Ok z
  | NFloat f =>
      if F64.is_nan f then Raise (ValueError "cannot convert float NaN to integer")
      else if F64.is_inf f then Raise OverflowError
      else Ok (F64.trunc f)
  end.

(** Truth value of an object in an [if]. *)
Definition truthy (v : pyval) : bool :=
  match v with
  | PyNone => false
  | PyBool b => b
  | PyInt z => negb (z =? 0)
  | PyFloat f => negb (F64.is_zero f)
  | PyStr s => negb (String.eqb s "")
  | PyList l | PyTuple l => match l with [] => false | _ => true end
  | PyDict d => negb (bool_decide (d = ∅))
  end.

(** [v == 'literal']. *)
Definition eq_str (v : pyval) (s : string) : bool :=
  match v with
  | PyStr t => String.eqb t s
  | _ => false
  end.

Fixpoint hashable (v : pyval) : bool :=
  match v with
  | PyList _ | PyDict _ => false
  | PyTuple l => forallb hashable l
  | _ => true
  end.

(** [d.get(key, default)] on a dictionary whose keys are strings. *)
Definition get (d : pyval) (key : pyval) (default : pyval) : result pyval :=
  match d with
  | PyDict m =>
      if hashable key then
        Ok (match key with
            | PyStr k => match m !! k with Some v => v | None => default end
            | _ => default
            end)
      else Raise (TypeError "unhashable type")
  | _ => Raise (AttributeError "get")
  end.

(** [tuple(v)]. *)
Definition tuple (v : pyval) : result pyval :=
  match v with
  | PyList l | PyTuple l => Ok (PyTuple l)
  | PyStr s => Ok (PyTuple (map (fun c => PyStr (String c EmptyString)) (list_ascii_of_string s)))
  | PyDict m => Ok (PyTuple (map (fun kv => PyStr (fst kv)) (map_to_list m)))
  | _ => Raise (TypeError "object is not iterable")
  end.

(** [s.lower()], on ASCII letters. *)
Definition lower_ascii (c : ascii) : ascii :=
  let n := nat_of_ascii c in
  if ((65 <=? n) && (n <=? 90))%nat then ascii_of_nat (n + 32) else c.

Fixpoint lower_string (s : string) : string :=
  match s with
  | EmptyString => EmptyString
  | String c r => String (lower_ascii c) (lower_string r)
  end.

Definition lower (v : pyval) : result string :=
  match v with
  | PyStr s => Ok (lower_string s)
  | _ => Raise (AttributeError "lower")
  end.
End Py.

(** ** numpy arrays *)

(** An array is its shape and its samples in row-major order.  The element
    type stands for the dtype: [Z] for [uint8] (an image as [cv2.imread]
    returns it), [spec_float] for [float32], [bool] for a mask. *)
Record array (A : Type) : Type := mk_array { shape : list nat; data : list A }.
Arguments mk_array {A} shape data.
Arguments shape {A} a.
Arguments data {A} a.

Abbreviation u8array := (array Z).
Abbreviation f32array := (array spec_float).

Module Np.
Definition size (s : list nat) : nat := fold_right Nat.mul 1%nat s.

(** [len(a.shape)]. *)
Definition ndim {A} (a : array A) : nat := length (shape a).

Definition map {A B} (f : A -> B) (a : array A) : array B :=
  mk_array (shape a) (List.map f (data a)).

(** Broadcasting of two shapes, aligned on their last axes. *)
Fixpoint broadcast_rev (r1 r2 : list nat) : option (list nat) :=
  match r1, r2 with
  | [], r | r, [] => Some r
  | d1 :: t1, d2 :: t2 =>
      match broadcast_rev t1 t2 with
      | None => None
      | Some t =>
          if (d1 =? d2)%nat then Some (d1 :: t)
          else if (d1 =? 1)%nat then Some (d2 :: t)
          else if (d2 =? 1)%nat then Some (d1 :: t)
          else None
      end
  end.

Definition broadcast_shapes (s1 s2 : list nat) : option (list nat) :=
  option_map (@rev nat) (broadcast_rev (rev s1) (rev s2)).

(** Position, in an operand of (reversed) shape [rs], of the sample that the
    broadcast result of (reversed) shape [rt] reads at flat position [k]. *)
Fixpoint source_index (rt rs : list nat) (k stride : nat) : nat :=
  match rt, rs with
  | dt :: rt', ds :: rs' =>
      ((if (ds =? 1)%nat then 0 else k mod dt) * stride
       + source_index rt' rs' (k / dt) (stride * ds))%nat
  | _, _ => 0%nat
  end.

Definition broadcast_data {A B C} (f : A -> B -> C) (s : list nat)
    (a : array A) (b : array B) : list C :=
  flat_map (fun k =>
    match nth_error (data a) (source_index (rev s) (rev (shape a)) k 1),
          nth_error (data b) (source_index (rev s) (rev (shape b)) k 1) with
    | Some x, Some y => [f x y]
    | _, _ => []
    end) (seq 0 (size s)).

(** An element-wise binary operation: sample by sample when the shapes
    agree, by broadcasting when they are compatible, [ValueError]
    otherwise. *)
Definition binop {A B C} (f : A -> B -> C) (a : array A) (b : array B)
    : result (array C) :=
  if decide (shape a = shape b)
  then Ok (mk_array (shape a) (zip_with f (data a) (data b)))
  else match broadcast_shapes (shape a) (shape b) with
       | Some s => Ok (mk_array s (broadcast_data f s a b))
       | None => Raise (ValueError "operands could not be broadcast together")
       end.

(** [a.astype(np.float32)] and [a.astype(np.uint8)]. *)
Definition astype_float32 (a : u8array) : f32array := map F32.of_Z a.
Definition astype_uint8 (a : f32array) : u8array := map F32.to_u8 a.

(** A Python number next to a float32 array is first rounded to float32.
    This is numpy on a float and on an integer a double can hold; an integer
    beyond that range raises [OverflowError] in numpy and is rounded to an
    infinity here, so the statements that use it ask for a finite value. *)
Definition scalar_float32 (n : Py.num) : spec_float :=
  match n with
  | Py.NInt z => F32.of_Z z
  | Py.NFloat f => F32.of_f64 f
  end.

(** [uint8] arithmetic wraps around. *)
Definition u8 (z : Z) : Z := z mod 256.
Definition sub_uint8 (a b : u8array) : result u8array :=
  binop (fun x y => u8 (x - y)) a b.

(** [np.abs] of an unsigned array returns the samples as they are. *)
Definition abs_uint8 (a : u8array) : u8array := map (fun x => x) a.

(** [a < t] for a [uint8] array and a Python number. *)
Definition lt_scalar (a : u8array) (t : Py.num) : array bool :=
  map (fun x => Py.lt (Py.NInt x) t) a.

(** [np.where(mask, x, y)]. *)
Definition where_ {A} (mask : array bool) (x y : array A) : result (array A) :=
  rbind (binop pair x y) (fun xy =>
  binop (fun (m : bool) (p : A * A) => if m then fst p else snd p) mask xy).

(** [np.clip(a, 0, 255)] on a float32 array. *)
Definition clip_0_255 (a : f32array) : f32array :=
  map (F32.clip (F32.of_Z 0) (F32.of_Z 255)) a.
End Np.

(** ** What a run does to the outside: OpenCV calls and printed lines *)

Inductive color_code : Type := COLOR_BGR2GRAY | COLOR_GRAY2BGR.

(** One constructor per OpenCV (or numpy conversion) call site of the
    source, with the arguments the source passes. *)
Inductive call : Type :=
| GaussianBlur_call (src : u8array) (ksize sigma : pyval)
| blur_call (src : u8array) (ksize : pyval)
| medianBlur_call (src : u8array) (ksize : pyval)
| bilateralFilter_call (src : u8array) (d sigma_color sigma_space : pyval)
| fastNlMeansDenoisingColored_call (src : u8array) (h h_color template search : pyval)
| fastNlMeansDenoising_call (src : u8array) (h template search : pyval)
| Laplacian_call (src : f32array)
| addWeighted_call (src1 : u8array) (alpha : Py.num) (src2 : u8array) (beta : Py.num) (gamma : Z)
| filter2D_call (src : u8array) (ddepth : Z) (kernel : f32array)
| cvtColor_call (src : u8array) (code : color_code)
| Canny_call (src : u8array) (threshold1 threshold2 : Z)
| dilate_call (src : u8array) (iterations : Z)
| resize_call (src : u8array) (new_w new_h : pyval)
| imread_call (path : string)
| imwrite_call (path : string) (img : u8array) (params : list pyval)
| np_array_call (obj : pyval).

(** One constructor per [print] of the source, with the values it formats. *)
Inductive message : Type :=
| MsgUnreadable (path : string)
| MsgProcessing (path : string) (w h : nat)
| MsgResized (w h : nat) (new_w new_h : pyval)
| MsgDenoiseMode (mode : pyval)
| MsgDenoiseFailed (e : exn)
| MsgSharpenMode (mode : pyval)
| MsgSharpenFailed (e : exn)
| MsgSaved (path : string)
| MsgSaveFailed (path : string)
| MsgWriteFailed (e : exn)
| MsgError (path : string) (e : exn).

Inductive event : Type :=
| Call (c : call)
| Print (m : message).

(** A computation: the events it caused, in order, and how it ended. *)
Definition M (A : Type) : Type := (list event * result A)%type.

Definition ret {A} (a : A) : M A := ([], Ok a).
Definition raise {A} (e : exn) : M A := ([], Raise e).
Definition lift {A} (r : result A) : M A := ([], r).
(** [print] on a stream that takes the line; [Stdout.print] below is
    [print] on any stream. *)
Definition print (m : message) : M unit := ([Print m], Ok tt).
Definition invoke {A} (c : call) (r : result A) : M A := ([Call c], r).

Definition bind {A B} (m : M A) (f : A -> M B) : M B :=
  match m with
  | (l, Ok a) => let (l', r) := f a in (l ++ l', r)
  | (l, Raise e) => (l, Raise e)
  end.

(** [try: m  except Exception as e: h e]. *)
Definition try_except {A} (m : M A) (h : exn -> M A) : M A :=
  match m with
  | (l, Raise e) => let (l', r) := h e in (l ++ l', r)
  | (l, Ok a) => (l, Ok a)
  end.

Definition when (b : bool) (m : M unit) : M unit := if b then m else ret tt.

Definition events {A} (m : M A) : list event := fst m.
Definition outcome {A} (m : M A) : result A := snd m.

Declare Scope py_scope.
Delimit Scope py_scope with py.
Notation "'let*' x ':=' m 'in' k" := (bind m (fun x => k))
  (at level 10, x name, m at level 100, k at level 200) : py_scope.
Local Open Scope py_scope.

(** ** The libraries the code calls *)

(** OpenCV's Python functions, as the source uses them: each takes the
    arguments of its call site and returns an array or raises.  The dtype of
    a result is the one the binding returns for that call (the depth of the
    source, [float32] for [Laplacian(_, CV_32F)]).  [imread] returns [None]
    for a file it cannot decode. *)
Record cv2_lib : Type := {
  cv2_GaussianBlur : u8array -> pyval -> pyval -> result u8array;
  cv2_blur : u8array -> pyval -> result u8array;
  cv2_medianBlur : u8array -> pyval -> result u8array;
  cv2_bilateralFilter : u8array -> pyval -> pyval -> pyval -> result u8array;
  cv2_fastNlMeansDenoisingColored :
    u8array -> pyval -> pyval -> pyval -> pyval -> result u8array;
  cv2_fastNlMeansDenoising : u8array -> pyval -> pyval -> pyval -> result u8array;
  cv2_Laplacian : f32array -> result f32array;
  cv2_addWeighted : u8array -> Py.num -> u8array -> Py.num -> Z -> result u8array;
  cv2_filter2D : u8array -> Z -> f32array -> result u8array;
  cv2_cvtColor : u8array -> color_code -> result u8array;
  cv2_Canny : u8array -> Z -> Z -> result u8array;
  cv2_dilate : u8array -> Z -> result u8array;
  cv2_resize : u8array -> pyval -> pyval -> result u8array;
  cv2_imread : string -> result (option u8array);
  cv2_imwrite : string -> u8array -> list pyval -> result bool;
  (** [np.array(obj, dtype=np.float32)] on a value read from the
      configuration. *)
  np_array_float32 : pyval -> result f32array;
  (** [str(v)], as an f-string formats a value that is not a string. *)
  py_str : pyval -> string
}.

Definition IMWRITE_JPEG_QUALITY : Z := 1.
Definition IMWRITE_PNG_COMPRESSION : Z := 16.
Definition IMWRITE_WEBP_QUALITY : Z := 64.

(** The calls themselves: each one is logged and answers what the library
    answers. *)
Section Calls.
Variable cv : cv2_lib.

Definition GaussianBlur (src : u8array) (ksize sigma : pyval) : M u8array :=
  invoke (GaussianBlur_call src ksize sigma) (cv2_GaussianBlur cv src ksize sigma).
Definition blur (src : u8array) (ksize : pyval) : M u8array :=
  invoke (blur_call src ksize) (cv2_blur cv src ksize).
Definition medianBlur (src : u8array) (ksize : pyval) : M u8array :=
  invoke (medianBlur_call src ksize) (cv2_medianBlur cv src ksize).
Definition bilateralFilter (src : u8array) (d sc ss : pyval) : M u8array :=
  invoke (bilateralFilter_call src d sc ss) (cv2_bilateralFilter cv src d sc ss).
Definition fastNlMeansDenoisingColored (src : u8array) (h hc t s : pyval) : M u8array :=
  invoke (fastNlMeansDenoisingColored_call src h hc t s)
         (cv2_fastNlMeansDenoisingColored cv src h hc t s).
Definition fastNlMeansDenoising (src : u8array) (h t s : pyval) : M u8array :=
  invoke (fastNlMeansDenoising_call src h t s) (cv2_fastNlMeansDenoising cv src h t s).
Definition Laplacian (src : f32array) : M f32array :=
  invoke (Laplacian_call src) (cv2_Laplacian cv src).
Definition addWeighted (src1 : u8array) (alpha : Py.num) (src2 : u8array)
    (beta : Py.num) (gamma : Z) : M u8array :=
  invoke (addWeighted_call src1 alpha src2 beta gamma)
         (cv2_addWeighted cv src1 alpha src2 beta gamma).
Definition filter2D (src : u8array) (ddepth : Z) (kernel : f32array) : M u8array :=
  invoke (filter2D_call src ddepth kernel) (cv2_filter2D cv src ddepth kernel).
Definition cvtColor (src : u8array) (code : color_code) : M u8array :=
  invoke (cvtColor_call src code) (cv2_cvtColor cv src code).
Definition Canny (src : u8array) (t1 t2 : Z) : M u8array :=
  invoke (Canny_call src t1 t2) (cv2_Canny cv src t1 t2).
Definition dilate (src : u8array) (iterations : Z) : M u8array :=
  invoke (dilate_call src iterations) (cv2_dilate cv src iterations).
Definition resize (src : u8array) (new_w new_h : pyval) : M u8array :=
  invoke (resize_call src new_w new_h) (cv2_resize cv src new_w new_h).
Definition imread (path : string) : M (option u8array) :=
  invoke (imread_call path) (cv2_imread cv path).
Definition imwrite (path : string) (img : u8array) (params : list pyval) : M bool :=
  invoke (imwrite_call path img params) (cv2_imwrite cv path img params).
Definition np_array (obj : pyval) : M f32array :=
  invoke (np_array_call obj) (np_array_float32 cv obj).

(** [f"{v}"]. *)
Definition fmt (v : pyval) : string :=
  match v with
  | PyStr s => s
  | _ => py_str cv v
  end.
End Calls.

(** ** filters.py *)

Module DenoiseFilter.
Section Methods.
Variable cv : cv2_lib.

Definition gaussian_denoise (image : u8array) (kernel_size sigma : pyval) : M u8array :=
  GaussianBlur cv image kernel_size sigma.

Definition mean_denoise (image : u8array) (kernel_size : pyval) : M u8array :=
  blur cv image kernel_size.

Definition median_denoise (image : u8array) (kernel_size : pyval) : M u8array :=
  medianBlur cv image kernel_size.

Definition bilateral_denoise (image : u8array) (d sigma_color sigma_space : pyval)
    : M u8array :=
  bilateralFilter cv image d sigma_color sigma_space.

Definition nlmeans_denoise (image : u8array)
    (h template_window_size search_window_size : pyval) : M u8array :=
  if (Np.ndim image =? 3)%nat
  then fastNlMeansDenoisingColored cv image h h
         template_window_size search_window_size
  else fastNlMeansDenoising cv image h template_window_size search_window_size.
End Methods.
End DenoiseFilter.

Module SharpenFilter.
Section Methods.
Variable cv : cv2_lib.

(** [strength] is a number, as annotated ([strength: float]): on anything
    else the product [strength * laplacian] is taken to raise [TypeError]
    (numpy would first try to read a sequence as an array). *)
Definition laplacian_sharpen (image : u8array) (strength : pyval) : M u8array :=
  let img_float := Np.astype_float32 image in
  let* laplacian := Laplacian cv img_float in
  let* s := lift (Py.expect_num "strength * laplacian" strength) in
  let scaled := Np.map (F32.mul (Np.scalar_float32 s)) laplacian in
  let* sharpened := lift (Np.binop F32.sub img_float scaled) in
  ret (Np.astype_uint8 (Np.clip_0_255 sharpened)).

Definition unsharp_mask (image : u8array) (sigma strength threshold : pyval)
    : M u8array :=
  let* blurred := GaussianBlur cv image (PyTuple [PyInt 0; PyInt 0]) sigma in
  let* s := lift (Py.expect_num "1.0 + strength" strength) in
  let* alpha := lift (Py.add (Py.NFloat (F64.of_Z 1)) s) in
  let* sharpened := addWeighted cv image alpha blurred (Py.neg s) 0 in
  let* t := lift (Py.expect_num "threshold > 0" threshold) in
  if Py.gt t (Py.NInt 0) then
    let* diff := lift (Np.sub_uint8 image blurred) in
    let low_contrast_mask := Np.lt_scalar (Np.abs_uint8 diff) t in
    lift (Np.where_ low_contrast_mask image sharpened)
  else ret sharpened.

Definition default_kernel : f32array :=
  mk_array [3; 3]%nat
    (map F32.of_Z [ 0; -1;  0;
                   -1;  5; -1;
                    0; -1;  0]).

Definition custom_kernel_sharpen (image : u8array) (kernel : option f32array)
    : M u8array :=
  let kernel := match kernel with
                | None => default_kernel
                | Some k => k
                end in
  filter2D cv image (-1) kernel.

Definition adaptive_sharpen (image : u8array) (strength : pyval) : M u8array :=
  let* gray := (if (Np.ndim image =? 3)%nat
                then cvtColor cv image COLOR_BGR2GRAY
                else ret image) in
  let* edges := Canny cv gray 50 150 in
  let* edges := dilate cv edges 1 in
  let* sharpened := unsharp_mask image (PyFloat (F64.of_Z 1)) strength (PyInt 0) in
  let* edge_mask := (if (Np.ndim image =? 3)%nat
                     then cvtColor cv edges COLOR_GRAY2BGR
                     else ret edges) in
  let edge_mask :=
    Np.map (fun x => F32.div x (F32.of_Z 255)) (Np.astype_float32 edge_mask) in
  let* on_edges :=
    lift (Np.binop (fun s m => F32.mul (F32.of_Z s) m) sharpened edge_mask) in
  let off_edges_weight := Np.map (fun m => F32.sub (F32.of_Z 1) m) edge_mask in
  let* off_edges :=
    lift (Np.binop (fun i m => F32.mul (F32.of_Z i) m) image off_edges_weight) in
  let* result := lift (Np.binop F32.add on_edges off_edges) in
  ret (Np.astype_uint8 result).
End Methods.
End SharpenFilter.

Section Selectors.
Variable cv : cv2_lib.

(** [params.get('name', default)]. *)
Definition param (params : pyval) (name : string) (default : pyval) : M pyval :=
  lift (Py.get params (PyStr name) default).

Definition apply_denoise (image : u8array) (mode : pyval) (params : pyval)
    : M u8array :=
  if Py.eq_str mode "gaussian" then
    let* kernel_size := param params "kernel_size" (PyList [PyInt 5; PyInt 5]) in
    let* kernel_size := lift (Py.tuple kernel_size) in
    let* sigma := param params "sigma" (PyFloat (F64.of_Z 1)) in
    DenoiseFilter.gaussian_denoise cv image kernel_size sigma
  else if Py.eq_str mode "mean" then
    let* kernel_size := param params "kernel_size" (PyList [PyInt 5; PyInt 5]) in
    let* kernel_size := lift (Py.tuple kernel_size) in
    DenoiseFilter.mean_denoise cv image kernel_size
  else if Py.eq_str mode "median" then
    let* kernel_size := param params "kernel_size" (PyInt 5) in
    DenoiseFilter.median_denoise cv image kernel_size
  else if Py.eq_str mode "bilateral" then
    let* d := param params "d" (PyInt 9) in
    let* sigma_color := param params "sigma_color" (PyInt 75) in
    let* sigma_space := param params "sigma_space" (PyInt 75) in
    DenoiseFilter.bilateral_denoise cv image d sigma_color sigma_space
  else if Py.eq_str mode "nlmeans" then
    let* h := param params "h" (PyInt 10) in
    let* template_window_size := param params "template_window_size" (PyInt 7) in
    let* search_window_size := param params "search_window_size" (PyInt 21) in
    DenoiseFilter.nlmeans_denoise cv image h template_window_size search_window_size
  else
    raise (ValueError (String.append "不支持的降噪模式: " (fmt cv mode))).

(** 0.5, the default strength of the Laplacian sharpen. *)
Definition one_half : spec_float := F64.div (F64.of_Z 1) (F64.of_Z 2).
(** 1.5, the default strength of the unsharp mask. *)
Definition three_halves : spec_float := F64.div (F64.of_Z 3) (F64.of_Z 2).

Definition apply_sharpen (image : u8array) (mode : pyval) (params : pyval)
    : M u8array :=
  if Py.eq_str mode "laplacian" then
    let* strength := param params "strength" (PyFloat one_half) in
    SharpenFilter.laplacian_sharpen cv image strength
  else if Py.eq_str mode "unsharp_mask" then
    let* sigma := param params "sigma" (PyFloat (F64.of_Z 1)) in
    let* strength := param params "strength" (PyFloat three_halves) in
    let* threshold := param params "threshold" (PyInt 0) in
    SharpenFilter.unsharp_mask cv image sigma strength threshold
  else if Py.eq_str mode "custom" then
    let* kernel := param params "kernel" PyNone in
    let* kernel := (match kernel with
                    | PyNone => ret None
                    | _ => let* k := np_array cv kernel in ret (Some k)
                    end) in
    SharpenFilter.custom_kernel_sharpen cv image kernel
  else if Py.eq_str mode "adaptive" then
    let* strength := param params "strength" (PyFloat (F64.of_Z 1)) in
    SharpenFilter.adaptive_sharpen cv image strength
  else
    raise (ValueError (String.append "不支持的锐化模式: " (fmt cv mode))).
End Selectors.

(** ** utils.py *)

(** [os.path] on POSIX ([posixpath]). *)
Module os_path.
(** [s.rfind(c)], counting from position [i] of the first character. *)
Fixpoint rfind (c : ascii) (s : string) (i : nat) : option nat :=
  match s with
  | EmptyString => None
  | String a r =>
      match rfind c r (S i) with
      | Some j => Some j
      | None => if Ascii.eqb a c then Some i else None
      end
  end.

Fixpoint drop (n : nat) (s : string) : string :=
  match n, s with
  | O, _ => s
  | S k, String _ r => drop k r
  | S _, EmptyString => EmptyString
  end.

Fixpoint take (n : nat) (s : string) : string :=
  match n, s with
  | S k, String a r => String a (take k r)
  | _, _ => EmptyString
  end.

Fixpoint all_dots (s : string) : bool :=
  match s with
  | EmptyString => true
  | String a r => Ascii.eqb a "." && all_dots r
  end.

Fixpoint ends_with_slash (s : string) : bool :=
  match s with
  | EmptyString => false
  | String a EmptyString => Ascii.eqb a "/"
  | String _ r => ends_with_slash r
  end.

(** Position just after the last separator. *)
Definition after_sep (p : string) : nat :=
  match rfind "/" p 0 with
  | Some i => S i
  | None => O
  end.

Definition basename (p : string) : string := drop (after_sep p) p.

(** The extension starts at the last dot of the last component, unless
    that component has only dots before it. *)
Definition splitext (p : string) : string * string :=
  match rfind "." p 0 with
  | Some dot =>
      if (after_sep p <=? dot)%nat
         && negb (all_dots (take (dot - after_sep p) (drop (after_sep p) p)))
      then (take dot p, drop dot p)
      else (p, EmptyString)
  | None => (p, EmptyString)
  end.

Definition join (a b : string) : string :=
  match b with
  | String "/" _ => b
  | _ =>
      if String.eqb a "" || ends_with_slash a
      then String.append a b
      else String.append a (String "/" b)
  end.
End os_path.

Section Utils.
Variable cv : cv2_lib.

Definition generate_output_filename (input_path output_dir : string)
    (prefix output_format keep_original_name : pyval) : string :=
  let basename := os_path.basename input_path in
  let name_without_ext := fst (os_path.splitext basename) in
  let output_name :=
    if Py.truthy keep_original_name
    then String.append (fmt cv prefix)
           (String.append name_without_ext
              (String "." (fmt cv output_format)))
    else String.append (fmt cv prefix)
           (String.append (fst (os_path.splitext basename))
              (String "." (fmt cv output_format))) in
  os_path.join output_dir output_name.
End Utils.

(** ** processor.py *)

Record ImageProcessor : Type := {
  config : pyval;
  denoise_config : pyval;
  sharpen_config : pyval;
  output_config : pyval;
  processing_config : pyval;
  verbose : pyval
}.

(** [ImageProcessor.__init__]. *)
Definition init (config : pyval) : result ImageProcessor :=
  rbind (Py.get config (PyStr "denoise") (PyDict ∅)) (fun denoise =>
  rbind (Py.get config (PyStr "sharpen") (PyDict ∅)) (fun sharpen =>
  rbind (Py.get config (PyStr "output") (PyDict ∅)) (fun output =>
  rbind (Py.get config (PyStr "processing") (PyDict ∅)) (fun processing =>
  rbind (Py.get config (PyStr "verbose") (PyBool true)) (fun verbose =>
  Ok {| config := config;
        denoise_config := denoise;
        sharpen_config := sharpen;
        output_config := output;
        processing_config := processing;
        verbose := verbose |}))))).

Section Processor.
Variable cv : cv2_lib.
Variable self : ImageProcessor.

(** [max(0, min(9, int((100 - quality) / 10)))]. *)
Definition png_compression (quality : pyval) : result Z :=
  rbind (Py.expect_num "100 - quality" quality) (fun q =>
  rbind (Py.sub (Py.NInt 100) q) (fun d =>
  rbind (Py.truediv d (Py.NInt 10)) (fun x =>
  rbind (Py.int (Py.NFloat x)) (fun n =>
  Ok (Z.max 0 (Z.min 9 n)))))).

Definition _resize_image (image : u8array) : M u8array :=
  let* max_width := param (processing_config self) "max_width" (PyInt 1920) in
  let* max_height := param (processing_config self) "max_height" (PyInt 1080) in
  let* preserve_aspect :=
    param (processing_config self) "preserve_aspect_ratio" (PyBool true) in
  match shape image with
  | h :: w :: _ =>
      let* mw := lift (Py.expect_num "w <= max_width" max_width) in
      let* within :=
        (if Py.le (Py.NInt (Z.of_nat w)) mw
         then let* mh := lift (Py.expect_num "h <= max_height" max_height) in
              ret (Py.le (Py.NInt (Z.of_nat h)) mh)
         else ret false) in
      if within then ret image
      else
        let* dims :=
          (if Py.truthy preserve_aspect then
             let* sw := lift (Py.truediv mw (Py.NInt (Z.of_nat w))) in
             let* mh := lift (Py.expect_num "max_height / h" max_height) in
             let* sh := lift (Py.truediv mh (Py.NInt (Z.of_nat h))) in
             let scale := Py.min (Py.NFloat sw) (Py.NFloat sh) in
             let* ws := lift (Py.mul (Py.NInt (Z.of_nat w)) scale) in
             let* new_w := lift (Py.int ws) in
             let* hs := lift (Py.mul (Py.NInt (Z.of_nat h)) scale) in
             let* new_h := lift (Py.int hs) in
             ret (PyInt new_w, PyInt new_h)
           else ret (max_width, max_height)) in
        let* resized := resize cv image (fst dims) (snd dims) in
        let* _ := when (Py.truthy (verbose self))
                    (print (MsgResized w h (fst dims) (snd dims))) in
        ret resized
  | _ => raise (ValueError "not enough values to unpack")
  end.

Definition _apply_denoise (image : u8array) : M u8array :=
  let* mode := param (denoise_config self) "mode" (PyStr "bilateral") in
  let* params := lift (Py.get (denoise_config self) mode (PyDict ∅)) in
  let* _ := when (Py.truthy (verbose self)) (print (MsgDenoiseMode mode)) in
  try_except
    (let* denoised := apply_denoise cv image mode params in
     ret denoised)
    (fun e =>
       let* _ := print (MsgDenoiseFailed e) in
       ret image).

Definition _apply_sharpen (image : u8array) : M u8array :=
  let* mode := param (sharpen_config self) "mode" (PyStr "unsharp_mask") in
  let* params := lift (Py.get (sharpen_config self) mode (PyDict ∅)) in
  let* _ := when (Py.truthy (verbose self)) (print (MsgSharpenMode mode)) in
  try_except
    (let* sharpened := apply_sharpen cv image mode params in
     ret sharpened)
    (fun e =>
       let* _ := print (MsgSharpenFailed e) in
       ret image).

Definition _save_image (image : u8array) (output_path : string) : M bool :=
  let* fmt_value := param (output_config self) "format" (PyStr "png") in
  let* output_format := lift (Py.lower fmt_value) in
  let* quality := param (output_config self) "quality" (PyInt 95) in
  let* params :=
    (if String.eqb output_format "jpg" || String.eqb output_format "jpeg" then
       ret [PyInt IMWRITE_JPEG_QUALITY; quality]
     else if String.eqb output_format "png" then
       let* compression := lift (png_compression quality) in
       ret [PyInt IMWRITE_PNG_COMPRESSION; PyInt compression]
     else if String.eqb output_format "webp" then
       ret [PyInt IMWRITE_WEBP_QUALITY; quality]
     else ret []) in
  try_except
    (let* success := imwrite cv output_path image params in
     ret success)
    (fun e =>
       let* _ := print (MsgWriteFailed e) in
       ret false).

Definition process_image (image_path output_dir : string) : M (option string) :=
  try_except
    (let* image := imread cv image_path in
     match image with
     | None =>
         let* _ := print (MsgUnreadable image_path) in
         ret None
     | Some image =>
         let original_shape := shape image in
         let* _ :=
           (if Py.truthy (verbose self) then
              match original_shape with
              | h :: w :: _ => print (MsgProcessing image_path w h)
              | _ => raise (IndexError "tuple index out of range")
              end
            else ret tt) in
         let* do_resize := param (processing_config self) "resize" (PyBool false) in
         let* image := (if Py.truthy do_resize
                        then _resize_image image
                        else ret image) in
         let* image := _apply_denoise image in
         let* enabled := param (sharpen_config self) "enabled" (PyBool true) in
         let* image := (if Py.truthy enabled
                        then _apply_sharpen image
                        else ret image) in
         let* prefix := param (output_config self) "prefix" (PyStr "processed_") in
         let* format := param (output_config self) "format" (PyStr "png") in
         let* keep := param (output_config self) "keep_original_name" (PyBool true) in
         let output_path :=
           generate_output_filename cv image_path output_dir prefix format keep in
         let* success := _save_image image output_path in
         if success then
           let* _ := when (Py.truthy (verbose self)) (print (MsgSaved output_path)) in
           ret (Some output_path)
         else
           let* _ := print (MsgSaveFailed output_path) in
           ret None
     end)
    (fun e =>
       let* _ := print (MsgError image_path e) in
       ret None).
End Processor.

(** ** Notions the statements use *)

Definition denoise_modes : list string :=
  ["gaussian"; "mean"; "median"; "bilateral"; "nlmeans"]%string.
Definition sharpen_modes : list string :=
  ["laplacian"; "unsharp_mask"; "custom"; "adaptive"]%string.

(** The mode is one of the names of the list. *)
Definition supported (modes : list string) (mode : pyval) : bool :=
  existsb (Py.eq_str mode) modes.

(** Channel count of an image: the third axis, one for a 2-D array. *)
Definition channels {A} (a : array A) : nat :=
  match shape a with
  | [_; _; c] => c
  | _ => 1%nat
  end.

(** The images of the data model: a 2-D single-channel array or a
    3-channel array.  The processor gets its images from [cv2.imread], which
    returns no other. *)
Definition is_image {A} (a : array A) : bool :=
  match shape a with
  | [_; _] => true
  | [_; _; c] => (c =? 3)%nat
  | _ => false
  end.

Definition clamp (lo hi x : Z) : Z := Z.max lo (Z.min hi x).

(** A sample is a byte. *)
Definition is_u8 (z : Z) : Prop := 0 <= z < 256.

(** The image of [h] rows and [w] columns whose every pixel is [colour]
    (one sample per channel). *)
Definition uniform (h w : nat) (colour : list Z) : u8array :=
  mk_array [h; w; length colour] (concat (repeat colour (h * w))).

(** The single-channel 2-D image whose every sample is [c]. *)
Definition uniform_gray (h w : nat) (c : Z) : u8array :=
  mk_array [h; w] (concat (repeat [c] (h * w))).

(** What OpenCV documents about the shape of what its functions return, on
    the images of the data model: a filter returns an array of the size of
    its source, [Canny] takes a single-channel image to an edge map of its
    size, [cvtColor] to gray takes a 3-channel image to a 2-D one and
    [cvtColor] from gray a 2-D image to a 3-channel one.  Nothing is asked of
    a call on another source (the binding returns a single-channel result as
    a 2-D array, so that an (h, w, 1) source does not come back with its
    shape). *)
Record shape_contract (cv : cv2_lib) : Prop := {
  sc_GaussianBlur : forall src k s dst,
    is_image src = true ->
    cv2_GaussianBlur cv src k s = Ok dst -> shape dst = shape src;
  sc_blur : forall src k dst,
    is_image src = true -> cv2_blur cv src k = Ok dst -> shape dst = shape src;
  sc_medianBlur : forall src k dst,
    is_image src = true -> cv2_medianBlur cv src k = Ok dst -> shape dst = shape src;
  sc_bilateralFilter : forall src d c s dst,
    is_image src = true ->
    cv2_bilateralFilter cv src d c s = Ok dst -> shape dst = shape src;
  sc_fastNlMeansDenoisingColored : forall src h hc t s dst,
    is_image src = true ->
    cv2_fastNlMeansDenoisingColored cv src h hc t s = Ok dst -> shape dst = shape src;
  sc_fastNlMeansDenoising : forall src h t s dst,
    is_image src = true ->
    cv2_fastNlMeansDenoising cv src h t s = Ok dst -> shape dst = shape src;
  sc_Laplacian : forall src dst,
    is_image src = true -> cv2_Laplacian cv src = Ok dst -> shape dst = shape src;
  sc_addWeighted : forall src1 a src2 b g dst,
    is_image src1 = true ->
    cv2_addWeighted cv src1 a src2 b g = Ok dst -> shape dst = shape src1;
  sc_filter2D : forall src d k dst,
    is_image src = true -> cv2_filter2D cv src d k = Ok dst -> shape dst = shape src;
  sc_Canny : forall src a b dst h w,
    shape src = [h; w] -> cv2_Canny cv src a b = Ok dst -> shape dst = [h; w];
  sc_dilate : forall src n dst,
    is_image src = true -> cv2_dilate cv src n = Ok dst -> shape dst = shape src;
  sc_to_gray : forall src dst h w,
    shape src = [h; w; 3%nat] ->
    cv2_cvtColor cv src COLOR_BGR2GRAY = Ok dst -> shape dst = [h; w];
  sc_from_gray : forall src dst h w,
    shape src = [h; w] ->
    cv2_cvtColor cv src COLOR_GRAY2BGR = Ok dst -> shape dst = [h; w; 3%nat]
}.

(** Lines 53-62 of [process_image]: the stages between decoding and naming. *)
Definition stages (cv : cv2_lib) (self : ImageProcessor) (image : u8array)
    : M u8array :=
  let* do_resize := param (processing_config self) "resize" (PyBool false) in
  let* image := (if Py.truthy do_resize
                 then _resize_image cv self image
                 else ret image) in
  let* image := _apply_denoise cv self image in
  let* enabled := param (sharpen_config self) "enabled" (PyBool true) in
  let* image := (if Py.truthy enabled
                 then _apply_sharpen cv self image
                 else ret image) in
  ret image.

(** Lines 64-82 of [process_image]: naming and saving. *)
Definition finish (cv : cv2_lib) (self : ImageProcessor)
    (image_path output_dir : string) (image : u8array) : M (option string) :=
  let* prefix := param (output_config self) "prefix" (PyStr "processed_") in
  let* format := param (output_config self) "format" (PyStr "png") in
  let* keep := param (output_config self) "keep_original_name" (PyBool true) in
  let output_path :=
    generate_output_filename cv image_path output_dir prefix format keep in
  let* success := _save_image cv self image output_path in
  if success then
    let* _ := when (Py.truthy (verbose self)) (print (MsgSaved output_path)) in
    ret (Some output_path)
  else
    let* _ := print (MsgSaveFailed output_path) in
    ret None.

(** ** A reference OpenCV

    What OpenCV documents for the two functions whose values matter below,
    [filter2D] and [addWeighted], and shape-correct stand-ins for the others.
    It instantiates the statements that quantify over a library. *)

Module Ref.
(** [cvRound]: to the nearest integer, ties to even. *)
Definition round_half_even (f : spec_float) : Z :=
  match f with
  | S754_finite s m e =>
      let a := match e with
               | Zneg k =>
                   let q := Z.shiftr (Zpos m) (Zpos k) in
                   let r := Zpos m - Z.shiftl q (Zpos k) in
                   let half := Z.shiftl 1 (Zpos k - 1) in
                   if (half <? r) || ((r =? half) && Z.odd q) then q + 1 else q
               | _ => Z.shiftl (Zpos m) e
               end in
      if s then - a else a
  | _ => 0
  end.

(** [saturate_cast<uchar>]. *)
Definition saturate_u8 (f : spec_float) : Z := clamp 0 255 (round_half_even f).

(** [BORDER_REFLECT_101]: [gfedcb|abcdefgh|gfedcba]. *)
Definition reflect101 (p : Z) (len : nat) : nat :=
  if (len <=? 1)%nat then 0%nat
  else let period := 2 * (Z.of_nat len - 1) in
       let q := p mod period in
       Z.to_nat (if q <? Z.of_nat len then q else period - q).

(** Sample [k] of the pixel at row [y], column [x]. *)
Definition sample (src : list Z) (w ch y x k : nat) : Z :=
  nth ((y * w + x) * ch + k) src 0.

(** [sum_i kernel_i * sample_i] in float32, then [saturate_cast]. *)
Definition weighted_sum (kernel : list spec_float) (samples : list Z) : Z :=
  saturate_u8
    (fold_left (fun acc ks => F32.add acc (F32.mul (fst ks) (F32.of_Z (snd ks))))
               (combine kernel samples) (F32.of_Z 0)).

(** The samples under a [kh] x [kw] kernel anchored at its centre. *)
Definition window (src : list Z) (h w ch kh kw y x k : nat) : list Z :=
  map (fun ij =>
         sample src w ch
           (reflect101 (Z.of_nat y + Z.of_nat (ij / kw) - Z.of_nat (kh / 2)) h)
           (reflect101 (Z.of_nat x + Z.of_nat (ij mod kw) - Z.of_nat (kw / 2)) w)
           k)
      (seq 0 (kh * kw)).

Definition correlate (src : list Z) (h w ch : nat) (kernel : f32array)
    (kh kw : nat) : list Z :=
  flat_map (fun y =>
    flat_map (fun x =>
      map (fun k => weighted_sum (data kernel) (window src h w ch kh kw y x k))
          (seq 0 ch))
      (seq 0 w))
    (seq 0 h).

(** [cv2.filter2D(src, -1, kernel)]: correlation, default anchor and
    border, result of the depth of the source. *)
Definition filter2D (src : u8array) (ddepth : Z) (kernel : f32array)
    : result u8array :=
  match shape kernel with
  | [kh; kw] =>
      match shape src with
      | [h; w] => Ok (mk_array [h; w] (correlate (data src) h w 1 kernel kh kw))
      | [h; w; ch] =>
          Ok (mk_array [h; w; ch] (correlate (data src) h w ch kernel kh kw))
      | _ => Raise (cv2_error "filter2D: unsupported source")
      end
  | _ => Raise (cv2_error "filter2D: unsupported kernel")
  end.

(** [cv2.addWeighted]: [saturate(src1 * alpha + src2 * beta + gamma)]. *)
Definition addWeighted (src1 : u8array) (alpha : Py.num) (src2 : u8array)
    (beta : Py.num) (gamma : Z) : result u8array :=
  rbind (Py.to_float alpha) (fun a =>
  rbind (Py.to_float beta) (fun b =>
  if decide (shape src1 = shape src2) then
    Ok (mk_array (shape src1)
          (zip_with (fun x y =>
             saturate_u8 (F64.add (F64.add (F64.mul (F64.of_Z x) a)
                                           (F64.mul (F64.of_Z y) b))
                                  (F64.of_Z gamma)))
             (data src1) (data src2)))
  else Raise (cv2_error "addWeighted: sizes differ"))).

(** The 1 x 3 grayscale image [[14, 10, 14]] and its Gaussian blur at
    sigma 1 (each sample is within a hair of 12). *)
Definition row_14_10_14 : u8array := mk_array [1; 3]%nat [14; 10; 14].
Definition row_blurred : u8array := mk_array [1; 3]%nat [12; 12; 12].

Definition GaussianBlur (src : u8array) (ksize sigma : pyval) : result u8array :=
  Ok (if decide (data src = data row_14_10_14) then mk_array (shape src) (data row_blurred)
      else src).

Definition cvtColor (src : u8array) (code : color_code) : result u8array :=
  match code, shape src with
  | COLOR_BGR2GRAY, [h; w; 3%nat] =>
      Ok (mk_array [h; w] (map (fun i => nth (3 * i) (data src) 0) (seq 0 (h * w))))
  | COLOR_GRAY2BGR, [h; w] =>
      Ok (mk_array [h; w; 3%nat] (flat_map (fun x => [x; x; x]) (data src)))
  | _, _ => Raise (cv2_error "cvtColor: wrong number of channels")
  end.

Definition fastNlMeansDenoisingColored (src : u8array) (h hc t s : pyval)
    : result u8array :=
  match shape src with
  | [_; _; 3%nat] => Ok src
  | _ => Raise (cv2_error "fastNlMeansDenoisingColored: 3 channels expected")
  end.

Definition fastNlMeansDenoising (src : u8array) (h t s : pyval) : result u8array :=
  match shape src with
  | [_; _] => Ok src
  | _ => Raise (cv2_error "fastNlMeansDenoising: 1 channel expected")
  end.

Definition resize (src : u8array) (new_w new_h : pyval) : result u8array :=
  match new_w, new_h, shape src with
  | PyInt nw, PyInt nh, _ :: _ :: rest =>
      if (0 <? nw) && (0 <? nh)
      then let s := Z.to_nat nh :: Z.to_nat nw :: rest in
           Ok (mk_array s (repeat 0 (Np.size s)))
      else Raise (cv2_error "resize: empty size")
  | _, _, _ => Raise (TypeError "resize")
  end.

(** The files of the reference run: one photograph. *)
Definition photo : u8array := uniform 2 2 [10; 20; 30].
Definition imread (path : string) : result (option u8array) :=
  Ok (if String.eqb path "/in/photo.JPG" then Some photo else None).

Definition str (v : pyval) : string :=
  match v with
  | PyStr s => s
  | PyNone => "None"
  | PyBool true => "True"
  | PyBool false => "False"
  | _ => "?"
  end.

Definition cv : cv2_lib := {|
  cv2_GaussianBlur := GaussianBlur;
  cv2_blur := fun src _ => Ok src;
  cv2_medianBlur := fun src _ => Ok src;
  cv2_bilateralFilter := fun src _ _ _ => Ok src;
  cv2_fastNlMeansDenoisingColored := fastNlMeansDenoisingColored;
  cv2_fastNlMeansDenoising := fastNlMeansDenoising;
  cv2_Laplacian := fun src => Ok (Np.map (fun _ => F32.of_Z 0) src);
  cv2_addWeighted := addWeighted;
  cv2_filter2D := filter2D;
  cv2_cvtColor := cvtColor;
  cv2_Canny := fun src _ _ => Ok (Np.map (fun _ => 0) src);
  cv2_dilate := fun src _ => Ok src;
  cv2_resize := resize;
  cv2_imread := imread;
  cv2_imwrite := fun _ _ _ => Ok true;
  np_array_float32 := fun _ => Raise (ValueError "np.array");
  py_str := str
|}.

(** A library whose every filter raises. *)
Definition failing : cv2_lib := {|
  cv2_GaussianBlur := fun _ _ _ => Raise (cv2_error "GaussianBlur");
  cv2_blur := fun _ _ => Raise (cv2_error "blur");
  cv2_medianBlur := fun _ _ => Raise (cv2_error "medianBlur");
  cv2_bilateralFilter := fun _ _ _ _ => Raise (cv2_error "bilateralFilter");
  cv2_fastNlMeansDenoisingColored := fun _ _ _ _ _ => Raise (cv2_error "fastNlMeans");
  cv2_fastNlMeansDenoising := fun _ _ _ _ => Raise (cv2_error "fastNlMeans");
  cv2_Laplacian := fun _ => Raise (cv2_error "Laplacian");
  cv2_addWeighted := fun _ _ _ _ _ => Raise (cv2_error "addWeighted");
  cv2_filter2D := fun _ _ _ => Raise (cv2_error "filter2D");
  cv2_cvtColor := fun _ _ => Raise (cv2_error "cvtColor");
  cv2_Canny := fun _ _ _ => Raise (cv2_error "Canny");
  cv2_dilate := fun _ _ => Raise (cv2_error "dilate");
  cv2_resize := resize;
  cv2_imread := imread;
  cv2_imwrite := fun _ _ _ => Ok true;
  np_array_float32 := fun _ => Raise (ValueError "np.array");
  py_str := str
|}.
(** A library whose [imwrite] reports failure. *)
Definition unwritable : cv2_lib := {|
  cv2_GaussianBlur := GaussianBlur;
  cv2_blur := fun src _ => Ok src;
  cv2_medianBlur := fun src _ => Ok src;
  cv2_bilateralFilter := fun src _ _ _ => Ok src;
  cv2_fastNlMeansDenoisingColored := fastNlMeansDenoisingColored;
  cv2_fastNlMeansDenoising := fastNlMeansDenoising;
  cv2_Laplacian := fun src => Ok (Np.map (fun _ => F32.of_Z 0) src);
  cv2_addWeighted := addWeighted;
  cv2_filter2D := filter2D;
  cv2_cvtColor := cvtColor;
  cv2_Canny := fun src _ _ => Ok (Np.map (fun _ => 0) src);
  cv2_dilate := fun src _ => Ok src;
  cv2_resize := resize;
  cv2_imread := imread;
  cv2_imwrite := fun _ _ _ => Ok false;
  np_array_float32 := fun _ => Raise (ValueError "np.array");
  py_str := str
|}.
End Ref.

(** The built-in configuration of [get_default_config]. *)
Definition default_config : pyval :=
  PyDict (list_to_map [
    ("paths", PyDict (list_to_map [("input_dir", PyStr "input");
                                   ("output_dir", PyStr "output")]));
    ("denoise", PyDict (list_to_map [
       ("mode", PyStr "bilateral");
       ("bilateral", PyDict (list_to_map [("d", PyInt 9); ("sigma_color", PyInt 75);
                                          ("sigma_space", PyInt 75)]))]));
    ("sharpen", PyDict (list_to_map [
       ("enabled", PyBool true);
       ("mode", PyStr "unsharp_mask");
       ("unsharp_mask", PyDict (list_to_map [
          ("sigma", PyFloat (F64.of_Z 1)); ("strength", PyFloat three_halves);
          ("threshold", PyInt 0)]))]));
    ("output", PyDict (list_to_map [
       ("format", PyStr "png"); ("quality", PyInt 95);
       ("prefix", PyStr "processed_"); ("keep_original_name", PyBool true)]));
    ("processing", PyDict (list_to_map [
       ("resize", PyBool false); ("max_width", PyInt 1920);
       ("max_height", PyInt 1080); ("preserve_aspect_ratio", PyBool true)]));
    ("verbose", PyBool true)])%string.

(** A processor over explicit sections. *)
Definition processor (denoise sharpen output processing : list (string * pyval))
    (verbose : bool) : ImageProcessor :=
  {| config := PyNone;
     denoise_config := PyDict (list_to_map denoise);
     sharpen_config := PyDict (list_to_map sharpen);
     output_config := PyDict (list_to_map output);
     processing_config := PyDict (list_to_map processing);
     verbose := PyBool verbose |}.

(** Further notions: the PNG level the specification names, the line a
    verbose stage prints, and the processors of the examples. *)

(** The level the specification asks for, its rounding being the floor. *)
Definition png_level (quality : Z) : Z := clamp 0 9 ((100 - quality) / 10).

Definition png_level_agrees (quality : Z) : bool :=
  match png_compression (PyInt quality) with
  | Ok n => n =? png_level quality
  | Raise _ => false
  end.

Definition qualities : list Z := map (fun i => Z.of_nat i - 1000) (seq 0 (Z.to_nat 2001)).

Definition mode_line (self : ImageProcessor) (m : message) : list event :=
  if Py.truthy (verbose self) then [Print m] else [].

Definition wavelet_processor : ImageProcessor :=
  processor [("mode", PyStr "wavelet")]%string [("mode", PyStr "emboss")]%string [] [] false.

Definition default_processor : ImageProcessor :=
  match init default_config with
  | Ok self => self
  | Raise _ => processor [] [] [] [] true
  end.

(** The single factor of the aspect-preserving resize,
    [min(max_width / w, max_height / h)]. *)
Definition scale_factor (max_width max_height : Z) (w h : nat) : result Py.num :=
  rbind (Py.truediv (Py.NInt max_width) (Py.NInt (Z.of_nat w))) (fun sw =>
  rbind (Py.truediv (Py.NInt max_height) (Py.NInt (Z.of_nat h))) (fun sh =>
  Ok (Py.min (Py.NFloat sw) (Py.NFloat sh)))).

(** A dimension scaled by a factor, [int(n * factor)]. *)
Definition scaled (n : nat) (factor : Py.num) : result Z :=
  rbind (Py.mul (Py.NInt (Z.of_nat n)) factor) Py.int.

(** What [_resize_image] does once the new size is known. *)
Definition resize_run (cv : cv2_lib) (self : ImageProcessor) (image : u8array)
    (w h : nat) (new_w new_h : pyval) : M u8array :=
  (Call (resize_call image new_w new_h)
     :: match cv2_resize cv image new_w new_h with
        | Ok _ => mode_line self (MsgResized w h new_w new_h)
        | Raise _ => []
        end,
   cv2_resize cv image new_w new_h).

(** 0.54 as Python reads it: the binary64 number nearest to 54/100. *)
Definition f_0_54 : spec_float := F64.div (F64.of_Z 54) (F64.of_Z 100).

Definition small_frame : ImageProcessor :=
  processor [] [] [] [("max_width", PyInt 5); ("max_height", PyInt 1)]%string false.

Definition small_frame_stretch : ImageProcessor :=
  processor [] [] []
    [("max_width", PyInt 5); ("max_height", PyInt 1);
     ("preserve_aspect_ratio", PyBool false)]%string false.

(** The samples [unsharp_mask] returns when the threshold is on. *)
Definition masked (T : Z) (image blurred sharpened : list Z) : list Z :=
  zip_with (fun (m : bool) (p : Z * Z) => if m then fst p else snd p)
    (map (fun d => Py.lt (Py.NInt d) (Py.NInt T))
       (map (fun x => x) (zip_with (fun x y => Np.u8 (x - y)) image blurred)))
    (zip_with pair image sharpened).

Definition bytes : list Z := map Z.of_nat (seq 0 256).

(** ** Further notions: parameters, file access, the batch loop, the summary *)

(** The parameter names the selectors read. *)
Definition denoise_keys : list string :=
  ["kernel_size"; "sigma"; "d"; "sigma_color"; "sigma_space"; "h";
   "template_window_size"; "search_window_size"]%string.
Definition sharpen_keys : list string :=
  ["strength"; "sigma"; "threshold"; "kernel"]%string.

(** The value is a dictionary. *)
Definition is_dict (v : pyval) : bool :=
  match v with PyDict _ => true | _ => false end.

(** Two dictionaries agree on the names of the list. *)
Definition agree_on (keys : list string) (d1 d2 : gmap string pyval) : Prop :=
  forall k, In k keys -> d1 !! k = d2 !! k.

(** A sharpen section whose parameters are empty in the file. *)
Definition null_adaptive : ImageProcessor :=
  processor [] [("mode", PyStr "adaptive"); ("adaptive", PyNone)]%string [] [] false.

(** Neither a NaN nor an infinity. *)
Definition is_finite (f : spec_float) : bool := negb (F64.is_nan f) && negb (F64.is_inf f).

(** One sample of [laplacian_sharpen]: original [x], Laplacian response [l],
    strength [sc] as a float32. *)
Definition laplacian_sample (sc : spec_float) (x : Z) (l : spec_float) : Z :=
  F32.to_u8 (F32.clip (F32.of_Z 0) (F32.of_Z 255) (F32.sub (F32.of_Z x) (F32.mul sc l))).

(** One sample of [adaptive_sharpen]: sharpened [v], original [x], edge
    mask [e]. *)
Definition adaptive_sample (v x e : Z) : Z :=
  F32.to_u8
    (F32.add (F32.mul (F32.of_Z v) (F32.div (F32.of_Z e) (F32.of_Z 255)))
             (F32.mul (F32.of_Z x)
                (F32.sub (F32.of_Z 1) (F32.div (F32.of_Z e) (F32.of_Z 255))))).

(** Structural equality of floats, to check facts on all bytes. *)
Definition sf_eqb (a b : spec_float) : bool :=
  match a, b with
  | S754_zero s, S754_zero t => Bool.eqb s t
  | S754_infinity s, S754_infinity t => Bool.eqb s t
  | S754_nan, S754_nan => true
  | S754_finite s m e, S754_finite t n f => Bool.eqb s t && Pos.eqb m n && Z.eqb e f
  | _, _ => false
  end.

(** The event is a read or a write of an image file. *)
Definition is_io (e : event) : bool :=
  match e with
  | Call (imread_call _) | Call (imwrite_call _ _ _) => true
  | _ => false
  end.

(** The file reads and writes of a log, in order. *)
Definition io_calls (l : list event) : list event := List.filter is_io l.

(** The computation touches no image file. *)
Definition no_io {A} (m : M A) : Prop := io_calls (events m) = [].

(** What [ImageProcessor({})] builds: every section missing. *)
Definition bare_processor : ImageProcessor :=
  match init (PyDict ∅) with
  | Ok self => self
  | Raise _ => processor [] [] [] [] true
  end.

(** A frame no image fits in. *)
Definition zero_frame : ImageProcessor :=
  processor [] [] [] [("resize", PyBool true); ("max_width", PyInt 0)]%string true.

(** A processor that does not sharpen, its sharpen mode unknown. *)
Definition sharpen_off : ImageProcessor :=
  processor [] [("enabled", PyBool false); ("mode", PyStr "emboss")]%string [] [] false.

(** A configuration whose denoise section is empty in the file, hence
    [None]. *)
Definition null_denoise : ImageProcessor :=
  match init (PyDict (list_to_map [("denoise", PyNone)]%string)) with
  | Ok self => self
  | Raise _ => processor [] [] [] [] true
  end.

(** [ImageProcessor.get_processing_stats]: the dictionary is built entry by
    entry, the condition of [sharpen_mode] before its value. *)
Definition get_processing_stats (self : ImageProcessor) : result (gmap string pyval) :=
  rbind (Py.get (denoise_config self) (PyStr "mode") PyNone) (fun denoise_mode =>
  rbind (Py.get (sharpen_config self) (PyStr "enabled") PyNone) (fun sharpen_enabled =>
  rbind (Py.get (sharpen_config self) (PyStr "enabled") PyNone) (fun enabled =>
  rbind (if Py.truthy enabled
         then Py.get (sharpen_config self) (PyStr "mode") PyNone
         else Ok PyNone) (fun sharpen_mode =>
  rbind (Py.get (output_config self) (PyStr "format") PyNone) (fun output_format =>
  rbind (Py.get (processing_config self) (PyStr "resize") (PyBool false))
    (fun resize_enabled =>
  Ok (list_to_map [("denoise_mode", denoise_mode);
                   ("sharpen_enabled", sharpen_enabled);
                   ("sharpen_mode", sharpen_mode);
                   ("output_format", output_format);
                   ("resize_enabled", resize_enabled)]%string))))))).

(** The character does not occur in the string. *)
Fixpoint no_char (c : ascii) (s : string) : bool :=
  match s with
  | EmptyString => true
  | String a r => negb (Ascii.eqb a c) && no_char c r
  end.

(** ** The file system, for [get_image_files] *)

Inductive os_error : Type :=
| OSError (what : string).

(** [os.path.exists], [os.listdir] (which raises on what is not a readable
    directory) and [os.path.isfile]. *)
Record os_lib : Type := {
  os_path_exists : string -> bool;
  os_listdir : string -> os_error + list string;
  os_path_isfile : string -> bool
}.

Inductive notice : Type :=
| MsgMissingDirectory (directory : string).

Definition supported_formats : list string :=
  [".jpg"; ".jpeg"; ".png"; ".bmp"; ".tiff"; ".tif"; ".webp"]%string.

(** [os.path.splitext(file)[1].lower() in supported_formats]. *)
Definition has_image_extension (file : string) : bool :=
  let ext := Py.lower_string (snd (os_path.splitext file)) in
  existsb (String.eqb ext) supported_formats.

(** Strings compare by code point, which on UTF-8 text is the order of
    their bytes. *)
Definition str_le (a b : string) : Prop := String.leb a b = true.

#[local] Instance str_le_dec (a b : string) : Decision (str_le a b).
Proof. unfold str_le. apply _. Defined.

(** [sorted(l)] on a list of strings. *)
Definition sorted (l : list string) : list string := merge_sort str_le l.

Section GetImageFiles.
Variable os : os_lib.
Variable directory : string.

(** The loop of [get_image_files], [image_files] being the list built so
    far. *)
Fixpoint collect (files image_files : list string) : list string :=
  match files with
  | [] => image_files
  | file :: rest =>
      let file_path := os_path.join directory file in
      if os_path_isfile os file_path then
        if has_image_extension file
        then collect rest (image_files ++ [file_path])
        else collect rest image_files
      else collect rest image_files
  end.

Definition get_image_files : list notice * (os_error + list string) :=
  if negb (os_path_exists os directory) then
    ([MsgMissingDirectory directory], inr [])
  else
    match os_listdir os directory with
    | inl e => ([], inl e)
    | inr files => ([], inr (sorted (collect files [])))
    end.
End GetImageFiles.

(** A directory of the examples: two photographs, a note, a hidden file and
    a sub-directory. *)
Definition album : os_lib := {|
  os_path_exists := fun p => String.eqb p "/in";
  os_listdir := fun p =>
    if String.eqb p "/in"
    then inr ["a.jpeg"; "notes.txt"; ".png"; "B.PNG"; "old.jpg"]%string
    else inl (OSError "No such file or directory");
  os_path_isfile := fun p => negb (String.eqb p "/in/old.jpg")
|}.

(** ** The loop of [main] *)

(** What the loop prints: the events of [process_image], and the blank line
    of a verbose run. *)
Inductive batch_event : Type :=
| Image (e : event)
| BlankLine.

(** [if output_path:] on an [Optional[str]]. *)
Definition truthy_path (output_path : option string) : bool :=
  match output_path with
  | Some s => negb (String.eqb s "")
  | None => false
  end.

(** ** The summary of the configuration *)

(** What a subscript [v[key]] with a string key raises: [KeyError] on a
    dictionary without the key, [TypeError] on anything that is not a
    dictionary. *)
Inductive lookup_error : Type :=
| KeyError (key : string)
| NotSubscriptable.

Definition subscript (v : pyval) (key : string) : lookup_error + pyval :=
  match v with
  | PyDict m =>
      match m !! key with
      | Some x => inr x
      | None => inl (KeyError key)
      end
  | _ => inl NotSubscriptable
  end.

(** [config[section][key]]. *)
Definition subscript2 (config : pyval) (section key : string) : lookup_error + pyval :=
  match subscript config section with
  | inl e => inl e
  | inr s => subscript s key
  end.

(** One constructor per [print] of [print_config_summary]. *)
Inductive summary_line : Type :=
| SumOpeningRule
| SumTitle
| SumRule
| SumPaths
| SumInputDir (v : pyval)
| SumOutputDir (v : pyval)
| SumDenoise
| SumDenoiseMode (v : pyval)
| SumSharpen
| SumSharpenEnabled (v : pyval)
| SumSharpenMode (v : pyval)
| SumOutput
| SumFormat (v : pyval)
| SumQuality (v : pyval)
| SumPrefix (v : pyval)
| SumClosingRule.

(** The lines printed so far, and how the function ended. *)
Definition Summary (A : Type) : Type := (list summary_line * (lookup_error + A))%type.

Definition say (l : summary_line) : Summary unit := ([l], inr tt).
Definition look (r : lookup_error + pyval) : Summary pyval := ([], r).
Definition then_ {A B} (m : Summary A) (f : A -> Summary B) : Summary B :=
  match m with
  | (l, inl e) => (l, inl e)
  | (l, inr a) => let (l', r) := f a in (l ++ l', r)
  end.

(** [print(f"... {config[section][key]}")]: the value is looked up, then the
    line is printed. *)
Definition say_value (config : pyval) (section key : string)
    (line : pyval -> summary_line) : Summary unit :=
  then_ (look (subscript2 config section key)) (fun v => say (line v)).

Definition print_config_summary (config : pyval) : Summary unit :=
  then_ (say SumOpeningRule) (fun _ =>
  then_ (say SumTitle) (fun _ =>
  then_ (say SumRule) (fun _ =>
  then_ (say SumPaths) (fun _ =>
  then_ (say_value config "paths" "input_dir" SumInputDir) (fun _ =>
  then_ (say_value config "paths" "output_dir" SumOutputDir) (fun _ =>
  then_ (say SumDenoise) (fun _ =>
  then_ (say_value config "denoise" "mode" SumDenoiseMode) (fun _ =>
  then_ (say SumSharpen) (fun _ =>
  then_ (say_value config "sharpen" "enabled" SumSharpenEnabled) (fun _ =>
  then_ (look (subscript2 config "sharpen" "enabled")) (fun enabled =>
  then_ (if Py.truthy enabled
         then say_value config "sharpen" "mode" SumSharpenMode
         else ([], inr tt)) (fun _ =>
  then_ (say SumOutput) (fun _ =>
  then_ (say_value config "output" "format" SumFormat) (fun _ =>
  then_ (say_value config "output" "quality" SumQuality) (fun _ =>
  then_ (say_value config "output" "prefix" SumPrefix) (fun _ =>
  say SumClosingRule)))))))))))))))).

(** The entry [config[section][key]] is there. *)
Definition has (config : pyval) (section key : string) : bool :=
  match subscript2 config section key with
  | inr _ => true
  | inl _ => false
  end.

(** A configuration with the paths only. *)
Definition paths_only : pyval :=
  PyDict (list_to_map [("paths", PyDict (list_to_map [("input_dir", PyStr "input");
                                                      ("output_dir", PyStr "output")]))])%string.

(** The library call a denoise filter makes: its source and what the
    library answers. *)
Definition denoise_call (cv : cv2_lib) (c : call) : option (u8array * result u8array) :=
  match c with
  | GaussianBlur_call src k s => Some (src, cv2_GaussianBlur cv src k s)
  | blur_call src k => Some (src, cv2_blur cv src k)
  | medianBlur_call src k => Some (src, cv2_medianBlur cv src k)
  | bilateralFilter_call src d sc ss => Some (src, cv2_bilateralFilter cv src d sc ss)
  | fastNlMeansDenoisingColored_call src h hc t s =>
      Some (src, cv2_fastNlMeansDenoisingColored cv src h hc t s)
  | fastNlMeansDenoising_call src h t s =>
      Some (src, cv2_fastNlMeansDenoising cv src h t s)
  | _ => None
  end.

(** ** processor.py on a standard output that can refuse a line

    [print] encodes its text for the stream before it writes anything: on a
    stream whose encoding lacks a character of the text (every message of
    the processor carries an emoji) it raises [UnicodeEncodeError], which is
    a [ValueError], and the line is not written.  What the stream does with a
    line is a parameter here, a function of the line; the definitions of
    [processor.py] above are this code on a stream that takes every line. *)
Record stdout_lib : Type := {
  (** [print(f"...")] of a message. *)
  stdout_print : message -> result unit;
  (** [print()], the empty line. *)
  stdout_newline : result unit
}.

(** A stream that takes every line, as a UTF-8 terminal does. *)
Definition utf8 : stdout_lib :=
  {| stdout_print := fun _ => Ok tt; stdout_newline := Ok tt |}.

(** A stream that cannot encode the emoji of the messages (an ASCII or a
    legacy code page, as under redirection). *)
Definition ascii_only : stdout_lib :=
  {| stdout_print := fun _ => Raise (ValueError "UnicodeEncodeError");
     stdout_newline := Ok tt |}.

Module Stdout.
Section Processor.
Variable out : stdout_lib.
Variable cv : cv2_lib.
Variable self : ImageProcessor.

(** [print(m)]: the line is written, or what the stream raises is raised
    and nothing is written. *)
Definition print (m : message) : M unit :=
  match stdout_print out m with
  | Ok _ => ([Print m], Ok tt)
  | Raise e => ([], Raise e)
  end.

(** The methods of [ImageProcessor], with this [print]. *)
Definition _resize_image (image : u8array) : M u8array :=
  let* max_width := param (processing_config self) "max_width" (PyInt 1920) in
  let* max_height := param (processing_config self) "max_height" (PyInt 1080) in
  let* preserve_aspect :=
    param (processing_config self) "preserve_aspect_ratio" (PyBool true) in
  match shape image with
  | h :: w :: _ =>
      let* mw := lift (Py.expect_num "w <= max_width" max_width) in
      let* within :=
        (if Py.le (Py.NInt (Z.of_nat w)) mw
         then let* mh := lift (Py.expect_num "h <= max_height" max_height) in
              ret (Py.le (Py.NInt (Z.of_nat h)) mh)
         else ret false) in
      if within then ret image
      else
        let* dims :=
          (if Py.truthy preserve_aspect then
             let* sw := lift (Py.truediv mw (Py.NInt (Z.of_nat w))) in
             let* mh := lift (Py.expect_num "max_height / h" max_height) in
             let* sh := lift (Py.truediv mh (Py.NInt (Z.of_nat h))) in
             let scale := Py.min (Py.NFloat sw) (Py.NFloat sh) in
             let* ws := lift (Py.mul (Py.NInt (Z.of_nat w)) scale) in
             let* new_w := lift (Py.int ws) in
             let* hs := lift (Py.mul (Py.NInt (Z.of_nat h)) scale) in
             let* new_h := lift (Py.int hs) in
             ret (PyInt new_w, PyInt new_h)
           else ret (max_width, max_height)) in
        let* resized := resize cv image (fst dims) (snd dims) in
        let* _ := when (Py.truthy (verbose self))
                    (print (MsgResized w h (fst dims) (snd dims))) in
        ret resized
  | _ => raise (ValueError "not enough values to unpack")
  end.

Definition _apply_denoise (image : u8array) : M u8array :=
  let* mode := param (denoise_config self) "mode" (PyStr "bilateral") in
  let* params := lift (Py.get (denoise_config self) mode (PyDict ∅)) in
  let* _ := when (Py.truthy (verbose self)) (print (MsgDenoiseMode mode)) in
  try_except
    (let* denoised := apply_denoise cv image mode params in
     ret denoised)
    (fun e =>
       let* _ := print (MsgDenoiseFailed e) in
       ret image).

Definition _apply_sharpen (image : u8array) : M u8array :=
  let* mode := param (sharpen_config self) "mode" (PyStr "unsharp_mask") in
  let* params := lift (Py.get (sharpen_config self) mode (PyDict ∅)) in
  let* _ := when (Py.truthy (verbose self)) (print (MsgSharpenMode mode)) in
  try_except
    (let* sharpened := apply_sharpen cv image mode params in
     ret sharpened)
    (fun e =>
       let* _ := print (MsgSharpenFailed e) in
       ret image).

Definition _save_image (image : u8array) (output_path : string) : M bool :=
  let* fmt_value := param (output_config self) "format" (PyStr "png") in
  let* output_format := lift (Py.lower fmt_value) in
  let* quality := param (output_config self) "quality" (PyInt 95) in
  let* params :=
    (if String.eqb output_format "jpg" || String.eqb output_format "jpeg" then
       ret [PyInt IMWRITE_JPEG_QUALITY; quality]
     else if String.eqb output_format "png" then
       let* compression := lift (png_compression quality) in
       ret [PyInt IMWRITE_PNG_COMPRESSION; PyInt compression]
     else if String.eqb output_format "webp" then
       ret [PyInt IMWRITE_WEBP_QUALITY; quality]
     else ret []) in
  try_except
    (let* success := imwrite cv output_path image params in
     ret success)
    (fun e =>
       let* _ := print (MsgWriteFailed e) in
       ret false).

Definition process_image (image_path output_dir : string) : M (option string) :=
  try_except
    (let* image := imread cv image_path in
     match image with
     | None =>
         let* _ := print (MsgUnreadable image_path) in
         ret None
     | Some image =>
         let original_shape := shape image in
         let* _ :=
           (if Py.truthy (verbose self) then
              match original_shape with
              | h :: w :: _ => print (MsgProcessing image_path w h)
              | _ => raise (IndexError "tuple index out of range")
              end
            else ret tt) in
         let* do_resize := param (processing_config self) "resize" (PyBool false) in
         let* image := (if Py.truthy do_resize
                        then _resize_image image
                        else ret image) in
         let* image := _apply_denoise image in
         let* enabled := param (sharpen_config self) "enabled" (PyBool true) in
         let* image := (if Py.truthy enabled
                        then _apply_sharpen image
                        else ret image) in
         let* prefix := param (output_config self) "prefix" (PyStr "processed_") in
         let* format := param (output_config self) "format" (PyStr "png") in
         let* keep := param (output_config self) "keep_original_name" (PyBool true) in
         let output_path :=
           generate_output_filename cv image_path output_dir prefix format keep in
         let* success := _save_image image output_path in
         if success then
           let* _ := when (Py.truthy (verbose self)) (print (MsgSaved output_path)) in
           ret (Some output_path)
         else
           let* _ := print (MsgSaveFailed output_path) in
           ret None
     end)
    (fun e =>
       let* _ := print (MsgError image_path e) in
       ret None).

(** Lines 53-62 of [process_image]: the stages between decoding and naming. *)
Definition stages (image : u8array) : M u8array :=
  let* do_resize := param (processing_config self) "resize" (PyBool false) in
  let* image := (if Py.truthy do_resize
                 then _resize_image image
                 else ret image) in
  let* image := _apply_denoise image in
  let* enabled := param (sharpen_config self) "enabled" (PyBool true) in
  let* image := (if Py.truthy enabled
                 then _apply_sharpen image
                 else ret image) in
  ret image.

(** Lines 64-82 of [process_image]: naming and saving. *)
Definition finish (image_path output_dir : string) (image : u8array)
    : M (option string) :=
  let* prefix := param (output_config self) "prefix" (PyStr "processed_") in
  let* format := param (output_config self) "format" (PyStr "png") in
  let* keep := param (output_config self) "keep_original_name" (PyBool true) in
  let output_path :=
    generate_output_filename cv image_path output_dir prefix format keep in
  let* success := _save_image image output_path in
  if success then
    let* _ := when (Py.truthy (verbose self)) (print (MsgSaved output_path)) in
    ret (Some output_path)
  else
    let* _ := print (MsgSaveFailed output_path) in
    ret None.

(** Lines 84-86 of [process_image]: the outer handler. *)
Definition on_error (image_path : string) (e : exn) : M (option string) :=
  let* _ := print (MsgError image_path e) in
  ret None.
End Processor.

Section Batch.
Variable out : stdout_lib.
Variable cv : cv2_lib.
Variable config : pyval.
Variable processor : ImageProcessor.
Variable output_dir : string.

(** Lines 67-76 of [main]: the progress bar apart, which goes to the
    error stream. *)
Fixpoint batch (image_files : list string) (success_count fail_count : Z)
    : list batch_event * result (Z * Z) :=
  match image_files with
  | [] => ([], Ok (success_count, fail_count))
  | image_path :: rest =>
      let run := process_image out cv processor image_path output_dir in
      match outcome run with
      | Raise e => (map Image (events run), Raise e)
      | Ok output_path =>
          let counts := if truthy_path output_path
                        then (success_count + 1, fail_count)
                        else (success_count, fail_count + 1) in
          match Py.get config (PyStr "verbose") (PyBool true) with
          | Raise e => (map Image (events run), Raise e)
          | Ok v =>
              if Py.truthy v then
                match stdout_newline out with
                | Raise e => (map Image (events run), Raise e)
                | Ok _ =>
                    let next := batch rest (fst counts) (snd counts) in
                    (map Image (events run) ++ BlankLine :: fst next, snd next)
                end
              else
                let next := batch rest (fst counts) (snd counts) in
                (map Image (events run) ++ fst next, snd next)
          end
      end
  end.

(** [process_image] returns a path for the file. *)
Definition saved (image_path : string) : bool :=
  match outcome (process_image out cv processor image_path output_dir) with
  | Ok (Some _) => true
  | _ => false
  end.

(** What one turn of the loop prints. *)
Definition turn (image_path : string) : list batch_event :=
  map Image (events (process_image out cv processor image_path output_dir))
  ++ (if Py.truthy (verbose processor) then [BlankLine] else []).
End Batch.
End Stdout.

(** A processor that writes JPEG files. *)
Definition jpeg_80 : ImageProcessor :=
  processor [] [] [("format", PyStr "JPG"); ("quality", PyInt 80)]%string [] false.

(** The stream takes every line. *)
Definition accepts_all (out : stdout_lib) : Prop :=
  forall m, stdout_print out m = Ok tt.

(** A configuration that prints nothing unless something fails. *)
Definition quiet_config : pyval := PyDict (list_to_map [("verbose", PyBool false)]%string).
Definition quiet_processor : ImageProcessor :=
  match init quiet_config with
  | Ok self => self
  | Raise _ => processor [] [] [] [] false
  end.

(** A quiet processor whose denoise mode does not exist. *)
Definition quiet_wavelet : ImageProcessor :=
  processor [("mode", PyStr "wavelet")]%string [] [] [] false.

(** * Properties *)

(** ** How computations compose *)

Section MonadFacts.
Context {A B : Type}.

Lemma outcome_bind (m : M A) (f : A -> M B) :
  outcome (bind m f) =
  match outcome m with
  | Ok a => outcome (f a)
  | Raise e => Raise e
  end.
Proof.
  destruct m as [l [a | e]]; simpl; [ | reflexivity ].
  destruct (f a); reflexivity.
Qed.

Lemma events_bind (m : M A) (f : A -> M B) :
  events (bind m f) =
  events m ++ match outcome m with
              | Ok a => events (f a)
              | Raise _ => []
              end.
Proof.
  destruct m as [l [a | e]]; simpl.
  - destruct (f a); reflexivity.
  - symmetry; apply app_nil_r.
Qed.

Lemma outcome_try_except (m : M A) (h : exn -> M A) :
  outcome (try_except m h) =
  match outcome m with
  | Ok a => Ok a
  | Raise e => outcome (h e)
  end.
Proof.
  destruct m as [l [a | e]]; simpl; [ reflexivity | ].
  destruct (h e); reflexivity.
Qed.

Lemma events_try_except (m : M A) (h : exn -> M A) :
  events (try_except m h) =
  events m ++ match outcome m with
              | Ok _ => []
              | Raise e => events (h e)
              end.
Proof.
  destruct m as [l [a | e]]; simpl.
  - symmetry; apply app_nil_r.
  - destruct (h e); reflexivity.
Qed.

Lemma bind_lift_Ok (a : A) (f : A -> M B) : bind (lift (Ok a)) f = f a.
Proof. unfold bind, lift. destruct (f a); reflexivity. Qed.

Lemma bind_ret (a : A) (f : A -> M B) : bind (ret a) f = f a.
Proof. apply bind_lift_Ok. Qed.
End MonadFacts.

Lemma bind_assoc {A B C} (m : M A) (f : A -> M B) (g : B -> M C) :
  bind (bind m f) g = bind m (fun a => bind (f a) g).
Proof.
  destruct m as [l [a | e]]; simpl; [ | reflexivity ].
  destruct (f a) as [l1 [b | e1]]; simpl; [ | reflexivity ].
  destruct (g b) as [l2 r]. rewrite app_assoc. reflexivity.
Qed.

Lemma bind_ret_r {A} (m : M A) : bind m (fun a => ret a) = m.
Proof.
  destruct m as [l [a | e]]; simpl; [ | reflexivity ].
  rewrite app_nil_r. reflexivity.
Qed.

(** One step of a computation whose next operation is known to succeed. *)
Ltac py_step := first [ rewrite bind_lift_Ok | rewrite bind_ret ]; cbv beta.
Ltac py_run := repeat py_step.

(** ** utils.py: the output name *)

(** C10.  [generate_output_filename] returns the same path whatever the value
    of [keep_original_name]: both branches build
    [{output_dir}/{prefix}{base name without extension}.{format}]. *)
Theorem generate_output_filename_ignores_keep_original_name :
  forall (cv : cv2_lib) (input_path output_dir : string)
         (prefix output_format keep1 keep2 : pyval),
    generate_output_filename cv input_path output_dir prefix output_format keep1
    = generate_output_filename cv input_path output_dir prefix output_format keep2
    /\ generate_output_filename cv input_path output_dir prefix output_format keep1
       = os_path.join output_dir
           (String.append (fmt cv prefix)
              (String.append (fst (os_path.splitext (os_path.basename input_path)))
                 (String "." (fmt cv output_format)))).
Proof.
  intros. unfold generate_output_filename.
  split; [ destruct (Py.truthy keep1), (Py.truthy keep2) | destruct (Py.truthy keep1) ];
    reflexivity.
Qed.

(** The naming example of the specification. *)
Example generate_output_filename_photo :
  generate_output_filename Ref.cv "/in/photo.JPG" "/out"
    (PyStr "processed_") (PyStr "png") (PyBool false)
  = "/out/processed_photo.png"%string.
Proof. reflexivity. Qed.

(** ** filters.py: the non-local-means branch *)

(** [nlmeans_denoise] makes exactly one OpenCV call, chosen by the number
    of axes of the array ([len(image.shape) == 3]); the result is that
    call's result. *)
Lemma nlmeans_denoise_by_axes (cv : cv2_lib) (image : u8array) (h t s : pyval) :
  DenoiseFilter.nlmeans_denoise cv image h t s =
  if (Np.ndim image =? 3)%nat
  then ([Call (fastNlMeansDenoisingColored_call image h h t s)],
        cv2_fastNlMeansDenoisingColored cv image h h t s)
  else ([Call (fastNlMeansDenoising_call image h t s)],
        cv2_fastNlMeansDenoising cv image h t s).
Proof.
  unfold DenoiseFilter.nlmeans_denoise.
  destruct (Np.ndim image =? 3)%nat; reflexivity.
Qed.

(** An image of the data model is 2-D, or has three axes and channels. *)
Lemma is_image_cases {A} (a : array A) :
  is_image a = true ->
  exists h w, shape a = [h; w] \/ shape a = [h; w; 3%nat].
Proof.
  unfold is_image.
  destruct (shape a) as [ | h [ | w [ | c [ | ? ?]]]]; try discriminate.
  - intros _. exists h, w. left. reflexivity.
  - intros H. apply Nat.eqb_eq in H as ->. exists h, w. right. reflexivity.
Qed.

(** On the images of the data model three axes are three channels. *)
Lemma nlmeans_denoise_data_model (image : u8array) :
  is_image image = true ->
  (Np.ndim image =? 3)%nat = (channels image =? 3)%nat.
Proof.
  intros H. apply is_image_cases in H as (h & w & [E | E]);
    unfold Np.ndim, channels; rewrite E; reflexivity.
Qed.

(** C8.  On every image of the data model [nlmeans_denoise] makes exactly
    one OpenCV call: the colored primitive exactly when the image has three
    channels, the grayscale primitive otherwise; the result is that call's
    result. *)
Theorem nlmeans_denoise_dispatch :
  forall (cv : cv2_lib) (image : u8array) (h t s : pyval),
    is_image image = true ->
    DenoiseFilter.nlmeans_denoise cv image h t s =
    if (channels image =? 3)%nat
    then ([Call (fastNlMeansDenoisingColored_call image h h t s)],
          cv2_fastNlMeansDenoisingColored cv image h h t s)
    else ([Call (fastNlMeansDenoising_call image h t s)],
          cv2_fastNlMeansDenoising cv image h t s).
Proof.
  intros cv image h t s Himage.
  rewrite nlmeans_denoise_by_axes, (nlmeans_denoise_data_model image Himage).
  reflexivity.
Qed.

Lemma nlmeans_denoise_dispatch_photo :
  events (DenoiseFilter.nlmeans_denoise Ref.cv Ref.photo (PyInt 10) (PyInt 7) (PyInt 21))
  = [Call (fastNlMeansDenoisingColored_call Ref.photo
             (PyInt 10) (PyInt 10) (PyInt 7) (PyInt 21))]
  /\ events (DenoiseFilter.nlmeans_denoise Ref.cv (uniform_gray 2 2 10)
               (PyInt 10) (PyInt 7) (PyInt 21))
     = [Call (fastNlMeansDenoising_call (uniform_gray 2 2 10)
                (PyInt 10) (PyInt 7) (PyInt 21))].
Proof.
  split.
  - rewrite (nlmeans_denoise_dispatch Ref.cv Ref.photo (PyInt 10) (PyInt 7) (PyInt 21)
               eq_refl).
    reflexivity.
  - rewrite (nlmeans_denoise_dispatch Ref.cv (uniform_gray 2 2 10) (PyInt 10) (PyInt 7)
               (PyInt 21) eq_refl).
    reflexivity.
Defined.

(** ** processor.py: the PNG compression level *)

Lemma qualities_spec (q : Z) : -1000 <= q <= 1000 -> In q qualities.
Proof.
  intros Hq. unfold qualities. apply in_map_iff.
  exists (Z.to_nat (q + 1000)). split; [ lia | ].
  apply in_seq. lia.
Qed.

Lemma png_level_agrees_all : forallb png_level_agrees qualities = true.
Proof. vm_compute. reflexivity. Qed.

Lemma png_compression_level (q : Z) :
  -1000 <= q <= 1000 -> png_compression (PyInt q) = Ok (png_level q).
Proof.
  intros Hq.
  pose proof (proj1 (forallb_forall _ _) png_level_agrees_all q (qualities_spec q Hq)) as H.
  unfold png_level_agrees in H.
  destruct (png_compression (PyInt q)) as [n | e]; [ | discriminate ].
  apply Z.eqb_eq in H. congruence.
Qed.

(** The level is the floor, not the nearest integer: quality 94 gives
    int(0.6) = 0, where rounding to nearest would give 1. *)
Example png_compression_94 : png_compression (PyInt 94) = Ok 0.
Proof. reflexivity. Qed.

(** What [_save_image] does for a PNG, given the level. *)
Lemma save_image_png (cv : cv2_lib) (self : ImageProcessor) (d : gmap string pyval)
    (f : string) (quality : pyval) (level : Z) (image : u8array) (path : string) :
  output_config self = PyDict d ->
  d !! "format"%string = Some (PyStr f) ->
  Py.lower_string f = "png"%string ->
  d !! "quality"%string = Some quality ->
  png_compression quality = Ok level ->
  events (_save_image cv self image path)
  = Call (imwrite_call path image [PyInt IMWRITE_PNG_COMPRESSION; PyInt level])
    :: match cv2_imwrite cv path image [PyInt IMWRITE_PNG_COMPRESSION; PyInt level] with
       | Ok _ => []
       | Raise e => [Print (MsgWriteFailed e)]
       end.
Proof.
  intros Hc Hf Hl Hq Hp. unfold _save_image, param. rewrite Hc.
  unfold Py.get. simpl Py.hashable. cbv iota.
  rewrite Hf, Hq. unfold Py.lower. py_run. rewrite Hl.
  change (("png" =? "jpg")%string || ("png" =? "jpeg")%string) with false. cbv iota.
  change ("png" =? "png")%string with true. cbv iota.
  rewrite Hp. py_run.
  unfold imwrite, invoke.
  destruct (cv2_imwrite cv path image _); reflexivity.
Qed.

(** C6.  Saving as PNG passes OpenCV the compression level
    clamp(0, 9, round((100 - quality) / 10)), the rounding being the floor the
    specification fixes; quality 95 gives level 0.  Stated for the integer
    qualities between -1000 and 1000 (far beyond them the division
    overflows and raises). *)
Theorem png_quality_to_compression :
  forall (cv : cv2_lib) (self : ImageProcessor) (d : gmap string pyval) (f : string)
         (q : Z) (image : u8array) (path : string),
    -1000 <= q <= 1000 ->
    output_config self = PyDict d ->
    d !! "format"%string = Some (PyStr f) ->
    Py.lower_string f = "png"%string ->
    d !! "quality"%string = Some (PyInt q) ->
    png_compression (PyInt q) = Ok (clamp 0 9 ((100 - q) / 10))
    /\ png_compression (PyInt 95) = Ok 0
    /\ In (Call (imwrite_call path image
                   [PyInt IMWRITE_PNG_COMPRESSION; PyInt (clamp 0 9 ((100 - q) / 10))]))
          (events (_save_image cv self image path)).
Proof.
  intros cv self d f q image path Hq Hc Hf Hl Hd.
  pose proof (png_compression_level q Hq) as Hp. unfold png_level in Hp.
  split; [ exact Hp | ].
  split; [ apply (png_compression_level 95); lia | ].
  rewrite (save_image_png cv self d f (PyInt q) _ image path Hc Hf Hl Hd Hp).
  left. reflexivity.
Qed.

Lemma png_quality_to_compression_default :
  png_compression (PyInt 95) = Ok (clamp 0 9 ((100 - 95) / 10))
  /\ png_compression (PyInt 95) = Ok 0
  /\ In (Call (imwrite_call "/out/a.png" Ref.photo
                 [PyInt IMWRITE_PNG_COMPRESSION; PyInt (clamp 0 9 ((100 - 95) / 10))]))
        (events (_save_image Ref.cv
                   (processor [] [] [("format", PyStr "PNG"); ("quality", PyInt 95)]%string
                              [] true)
                   Ref.photo "/out/a.png")).
Proof.
  apply (png_quality_to_compression Ref.cv
           (processor [] [] [("format", PyStr "PNG"); ("quality", PyInt 95)]%string [] true)
           (list_to_map [("format", PyStr "PNG"); ("quality", PyInt 95)]%string)
           "PNG" 95 Ref.photo "/out/a.png");
    [ lia | reflexivity | reflexivity | reflexivity | reflexivity ].
Defined.

(** ** The selectors on a mode outside their set *)

Lemma apply_denoise_unsupported (cv : cv2_lib) (image : u8array) (mode params : pyval) :
  supported denoise_modes mode = false ->
  apply_denoise cv image mode params
  = ([], Raise (ValueError (String.append "不支持的降噪模式: " (fmt cv mode)))).
Proof.
  unfold supported, denoise_modes. simpl existsb. intros H.
  repeat (apply orb_false_elim in H; destruct H as [?E H]).
  unfold apply_denoise. rewrite E, E0, E1, E2, E3. reflexivity.
Qed.

Lemma apply_sharpen_unsupported (cv : cv2_lib) (image : u8array) (mode params : pyval) :
  supported sharpen_modes mode = false ->
  apply_sharpen cv image mode params
  = ([], Raise (ValueError (String.append "不支持的锐化模式: " (fmt cv mode)))).
Proof.
  unfold supported, sharpen_modes. simpl existsb. intros H.
  repeat (apply orb_false_elim in H; destruct H as [?E H]).
  unfold apply_sharpen. rewrite E, E0, E1, E2. reflexivity.
Qed.

(** ** The two guarded stages *)

Lemma when_print (b : bool) (m : message) {A} (k : M A) :
  bind (when b (print m)) (fun _ => k)
  = ((if b then [Print m] else []) ++ events k, outcome k).
Proof. destruct b, k; reflexivity. Qed.

Lemma apply_denoise_stage (cv : cv2_lib) (self : ImageProcessor) (image : u8array)
    (mode params : pyval) :
  Py.get (denoise_config self) (PyStr "mode") (PyStr "bilateral") = Ok mode ->
  Py.get (denoise_config self) mode (PyDict ∅) = Ok params ->
  _apply_denoise cv self image
  = (mode_line self (MsgDenoiseMode mode)
       ++ events (apply_denoise cv image mode params)
       ++ match outcome (apply_denoise cv image mode params) with
          | Ok _ => []
          | Raise e => [Print (MsgDenoiseFailed e)]
          end,
     match outcome (apply_denoise cv image mode params) with
     | Ok denoised => Ok denoised
     | Raise _ => Ok image
     end).
Proof.
  intros Hm Hp. unfold _apply_denoise, param. rewrite Hm. py_run. rewrite Hp. py_run.
  rewrite when_print. unfold mode_line.
  rewrite events_try_except, outcome_try_except, bind_ret_r.
  destruct (outcome (apply_denoise cv image mode params)); reflexivity.
Qed.

Lemma apply_sharpen_stage (cv : cv2_lib) (self : ImageProcessor) (image : u8array)
    (mode params : pyval) :
  Py.get (sharpen_config self) (PyStr "mode") (PyStr "unsharp_mask") = Ok mode ->
  Py.get (sharpen_config self) mode (PyDict ∅) = Ok params ->
  _apply_sharpen cv self image
  = (mode_line self (MsgSharpenMode mode)
       ++ events (apply_sharpen cv image mode params)
       ++ match outcome (apply_sharpen cv image mode params) with
          | Ok _ => []
          | Raise e => [Print (MsgSharpenFailed e)]
          end,
     match outcome (apply_sharpen cv image mode params) with
     | Ok sharpened => Ok sharpened
     | Raise _ => Ok image
     end).
Proof.
  intros Hm Hp. unfold _apply_sharpen, param. rewrite Hm. py_run. rewrite Hp. py_run.
  rewrite when_print. unfold mode_line.
  rewrite events_try_except, outcome_try_except, bind_ret_r.
  destruct (outcome (apply_sharpen cv image mode params)); reflexivity.
Qed.

Lemma outcome_invoke {A} (c : call) (r : result A) : outcome (invoke c r) = r.
Proof. reflexivity. Qed.

Lemma events_invoke {A} (c : call) (r : result A) : events (invoke c r) = [Call c].
Proof. reflexivity. Qed.

Lemma bind_ext {A B} (m : M A) (f g : A -> M B) :
  (forall a, f a = g a) -> bind m f = bind m g.
Proof.
  intros H. destruct m as [l [a | e]]; simpl; [ rewrite H | ]; reflexivity.
Qed.

(** [process_image] is decoding, the stages, then naming and saving. *)
Lemma process_image_stages (cv : cv2_lib) (self : ImageProcessor)
    (image_path output_dir : string) :
  process_image cv self image_path output_dir
  = try_except
      (let* image := imread cv image_path in
       match image with
       | None => let* _ := print (MsgUnreadable image_path) in ret None
       | Some image =>
           let* _ :=
             (if Py.truthy (verbose self) then
                match shape image with
                | h :: w :: _ => print (MsgProcessing image_path w h)
                | _ => raise (IndexError "tuple index out of range")
                end
              else ret tt) in
           let* image := stages cv self image in
           finish cv self image_path output_dir image
       end)
      (fun e => let* _ := print (MsgError image_path e) in ret None).
Proof.
  unfold process_image. f_equal. apply bind_ext. intros [image | ]; [ | reflexivity ].
  apply bind_ext. intros _. unfold stages, finish.
  rewrite bind_assoc. apply bind_ext. intros do_resize.
  rewrite bind_assoc. apply bind_ext. intros image1.
  rewrite bind_assoc. apply bind_ext. intros image2.
  rewrite bind_assoc. apply bind_ext. intros enabled.
  rewrite bind_assoc. apply bind_ext. intros image3.
  rewrite bind_ret. reflexivity.
Qed.

Lemma apply_denoise_stage_outcome (cv : cv2_lib) (self : ImageProcessor)
    (image : u8array) (mode params : pyval) :
  Py.get (denoise_config self) (PyStr "mode") (PyStr "bilateral") = Ok mode ->
  Py.get (denoise_config self) mode (PyDict ∅) = Ok params ->
  outcome (_apply_denoise cv self image)
  = match outcome (apply_denoise cv image mode params) with
    | Ok denoised => Ok denoised
    | Raise _ => Ok image
    end.
Proof. intros Hm Hp. rewrite (apply_denoise_stage _ _ _ _ _ Hm Hp). reflexivity. Qed.

Lemma apply_sharpen_stage_outcome (cv : cv2_lib) (self : ImageProcessor)
    (image : u8array) (mode params : pyval) :
  Py.get (sharpen_config self) (PyStr "mode") (PyStr "unsharp_mask") = Ok mode ->
  Py.get (sharpen_config self) mode (PyDict ∅) = Ok params ->
  outcome (_apply_sharpen cv self image)
  = match outcome (apply_sharpen cv image mode params) with
    | Ok sharpened => Ok sharpened
    | Raise _ => Ok image
    end.
Proof. intros Hm Hp. rewrite (apply_sharpen_stage _ _ _ _ _ Hm Hp). reflexivity. Qed.

Lemma stages_after_failed_denoise (cv : cv2_lib) (self : ImageProcessor)
    (image resized : u8array) (do_resize mode params enabled : pyval) (e : exn) :
  Py.get (processing_config self) (PyStr "resize") (PyBool false) = Ok do_resize ->
  outcome (if Py.truthy do_resize then _resize_image cv self image else ret image)
  = Ok resized ->
  Py.get (denoise_config self) (PyStr "mode") (PyStr "bilateral") = Ok mode ->
  Py.get (denoise_config self) mode (PyDict ∅) = Ok params ->
  outcome (apply_denoise cv resized mode params) = Raise e ->
  Py.get (sharpen_config self) (PyStr "enabled") (PyBool true) = Ok enabled ->
  outcome (stages cv self image)
  = outcome (if Py.truthy enabled then _apply_sharpen cv self resized else ret resized).
Proof.
  intros Hr Hz Hm Hp He Hen. unfold stages, param. rewrite Hr. py_run.
  rewrite outcome_bind, Hz, outcome_bind.
  rewrite (apply_denoise_stage_outcome cv self resized mode params Hm Hp), He.
  rewrite Hen. py_run. rewrite bind_ret_r. reflexivity.
Qed.

(** With the resize stage off and both filters failing, the image that is
    named and saved is the decoded one. *)
Lemma process_image_after_failed_stages (cv : cv2_lib) (self : ImageProcessor)
    (image_path output_dir : string) (image : u8array) (h w : nat) (rest : list nat)
    (do_resize dmode dparams enabled smode sparams : pyval) (e1 e2 : exn) :
  cv2_imread cv image_path = Ok (Some image) ->
  shape image = h :: w :: rest ->
  Py.get (processing_config self) (PyStr "resize") (PyBool false) = Ok do_resize ->
  Py.truthy do_resize = false ->
  Py.get (denoise_config self) (PyStr "mode") (PyStr "bilateral") = Ok dmode ->
  Py.get (denoise_config self) dmode (PyDict ∅) = Ok dparams ->
  outcome (apply_denoise cv image dmode dparams) = Raise e1 ->
  Py.get (sharpen_config self) (PyStr "enabled") (PyBool true) = Ok enabled ->
  Py.get (sharpen_config self) (PyStr "mode") (PyStr "unsharp_mask") = Ok smode ->
  Py.get (sharpen_config self) smode (PyDict ∅) = Ok sparams ->
  outcome (apply_sharpen cv image smode sparams) = Raise e2 ->
  outcome (process_image cv self image_path output_dir)
  = outcome (try_except (finish cv self image_path output_dir image)
               (fun e => let* _ := print (MsgError image_path e) in ret None)).
Proof.
  intros Hi Hs Hr Hrf Hdm Hdp He1 Hen Hsm Hsp He2.
  assert (Hst : outcome (stages cv self image) = Ok image).
  { rewrite (stages_after_failed_denoise cv self image image do_resize dmode dparams
               enabled e1 Hr); try assumption.
    - destruct (Py.truthy enabled); [ | reflexivity ].
      rewrite (apply_sharpen_stage_outcome cv self image smode sparams Hsm Hsp), He2.
      reflexivity.
    - rewrite Hrf. reflexivity. }
  rewrite process_image_stages, !outcome_try_except.
  rewrite outcome_bind. unfold imread. rewrite outcome_invoke, Hi. cbv beta iota.
  rewrite outcome_bind, Hs.
  replace (outcome (if Py.truthy (verbose self)
                    then print (MsgProcessing image_path w h) else ret tt))
    with (@Ok unit tt) by (destruct (Py.truthy (verbose self)); reflexivity).
  cbv beta iota. rewrite outcome_bind, Hst. reflexivity.
Qed.

Lemma bind_Ok_inv {A B} (m : M A) (f : A -> M B) (b : B) :
  outcome (bind m f) = Ok b ->
  exists a, outcome m = Ok a /\ outcome (f a) = Ok b
            /\ events (bind m f) = events m ++ events (f a).
Proof.
  rewrite outcome_bind, events_bind.
  destruct (outcome m) as [a | e]; [ | discriminate ].
  intros H. exists a. auto.
Qed.

(** [_save_image] answers [True] only if [cv2.imwrite] was called on the
    image and the path, and answered [True]. *)
Lemma save_image_true (cv : cv2_lib) (self : ImageProcessor) (image : u8array)
    (path : string) :
  outcome (_save_image cv self image path) = Ok true ->
  exists params,
    cv2_imwrite cv path image params = Ok true
    /\ In (Call (imwrite_call path image params)) (events (_save_image cv self image path)).
Proof.
  unfold _save_image. intros H.
  apply bind_Ok_inv in H as (fv & _ & H & E0). rewrite E0. clear E0.
  apply bind_Ok_inv in H as (fs & _ & H & E0). rewrite E0. clear E0.
  apply bind_Ok_inv in H as (q & _ & H & E0). rewrite E0. clear E0.
  apply bind_Ok_inv in H as (params & _ & H & E0). rewrite E0. clear E0.
  exists params.
  rewrite outcome_try_except, bind_ret_r in H.
  rewrite events_try_except, bind_ret_r.
  unfold imwrite in *. rewrite outcome_invoke in *. rewrite events_invoke.
  destruct (cv2_imwrite cv path image params) as [[ | ] | e] eqn:E; try discriminate.
  split; [ reflexivity | ].
  rewrite !in_app_iff. simpl. tauto.
Qed.

Lemma finish_Some (cv : cv2_lib) (self : ImageProcessor) (image_path output_dir : string)
    (image : u8array) (path : string) :
  outcome (finish cv self image_path output_dir image) = Ok (Some path) ->
  exists prefix format keep params,
    path = generate_output_filename cv image_path output_dir prefix format keep
    /\ cv2_imwrite cv path image params = Ok true
    /\ In (Call (imwrite_call path image params))
          (events (finish cv self image_path output_dir image)).
Proof.
  unfold finish. intros H.
  apply bind_Ok_inv in H as (prefix & _ & H & E0). rewrite E0. clear E0.
  apply bind_Ok_inv in H as (format & _ & H & E0). rewrite E0. clear E0.
  apply bind_Ok_inv in H as (keep & _ & H & E0). rewrite E0. clear E0.
  apply bind_Ok_inv in H as (success & Hs & H & E0). rewrite E0. clear E0.
  destruct success.
  - apply save_image_true in Hs as (params & Hw & Hin).
    apply bind_Ok_inv in H as (u & _ & H & _). injection H as <-.
    exists prefix, format, keep, params. split; [ reflexivity | ]. split; [ exact Hw | ].
    rewrite !in_app_iff. tauto.
  - apply bind_Ok_inv in H as (u & _ & H & _). discriminate.
Qed.

(** What [process_image] returns: [None], or the output path after a write
    that succeeded. *)
Lemma process_image_result (cv : cv2_lib) (self : ImageProcessor)
    (image_path output_dir : string) :
  outcome (process_image cv self image_path output_dir) = Ok None
  \/ exists image prefix format keep params,
       outcome (process_image cv self image_path output_dir)
       = Ok (Some (generate_output_filename cv image_path output_dir prefix format keep))
       /\ cv2_imwrite cv
            (generate_output_filename cv image_path output_dir prefix format keep)
            image params = Ok true
       /\ In (Call (imwrite_call
                      (generate_output_filename cv image_path output_dir prefix format keep)
                      image params))
             (events (process_image cv self image_path output_dir)).
Proof.
  rewrite process_image_stages.
  match goal with |- context [try_except ?b _] => set (body := b) end.
  rewrite outcome_try_except, events_try_except.
  destruct (outcome body) as [[path | ] | e] eqn:Hb; [ | left; reflexivity | left; reflexivity ].
  right. unfold body in Hb.
  apply bind_Ok_inv in Hb as ([image | ] & _ & Hb & E0).
  - fold body in E0. rewrite E0. clear E0.
    apply bind_Ok_inv in Hb as (u & _ & Hb & E0). rewrite E0. clear E0.
    apply bind_Ok_inv in Hb as (final & _ & Hb & E0). rewrite E0. clear E0.
    apply finish_Some in Hb as (prefix & format & keep & params & -> & Hw & Hin).
    exists final, prefix, format, keep, params.
    split; [ reflexivity | ]. split; [ exact Hw | ].
    rewrite !in_app_iff. tauto.
  - apply bind_Ok_inv in Hb as (u & _ & Hb & _). discriminate.
Qed.

(** A file that does not decode, or a decoder that raises, gives [None]. *)
Lemma process_image_undecoded (cv : cv2_lib) (self : ImageProcessor)
    (image_path output_dir : string) :
  (cv2_imread cv image_path = Ok None \/ exists e, cv2_imread cv image_path = Raise e) ->
  outcome (process_image cv self image_path output_dir) = Ok None.
Proof.
  intros H. unfold process_image.
  rewrite outcome_try_except, outcome_bind. unfold imread. rewrite outcome_invoke.
  destruct H as [-> | [e ->]]; reflexivity.
Qed.




(** ** The resize stage *)

Lemma le_int (a b : Z) : Py.le (Py.NInt a) (Py.NInt b) = (a <=? b).
Proof. unfold Py.le, Py.compare, Z.leb. destruct (a ?= b); reflexivity. Qed.

Lemma resize_then_print (cv : cv2_lib) (self : ImageProcessor) (image : u8array)
    (w h : nat) (new_w new_h : pyval) :
  (let* resized := resize cv image new_w new_h in
   let* _ := when (Py.truthy (verbose self)) (print (MsgResized w h new_w new_h)) in
   ret resized)
  = resize_run cv self image w h new_w new_h.
Proof.
  unfold resize_run, resize, invoke, bind, mode_line.
  destruct (cv2_resize cv image new_w new_h); [ | reflexivity ].
  destruct (Py.truthy (verbose self)); reflexivity.
Qed.

Section Resize.
Variables (cv : cv2_lib) (self : ImageProcessor) (image : u8array).
Variables (h w : nat) (rest : list nat) (mw mh : Z) (preserve : pyval).
Hypothesis Hshape : shape image = h :: w :: rest.
Hypothesis Hmw :
  Py.get (processing_config self) (PyStr "max_width") (PyInt 1920) = Ok (PyInt mw).
Hypothesis Hmh :
  Py.get (processing_config self) (PyStr "max_height") (PyInt 1080) = Ok (PyInt mh).
Hypothesis Hpreserve :
  Py.get (processing_config self) (PyStr "preserve_aspect_ratio") (PyBool true)
  = Ok preserve.

Lemma resize_image_decision :
  _resize_image cv self image
  = if (Z.of_nat w <=? mw) && (Z.of_nat h <=? mh) then ret image
    else
      let* dims :=
        (if Py.truthy preserve then
           let* sw := lift (Py.truediv (Py.NInt mw) (Py.NInt (Z.of_nat w))) in
           let* sh := lift (Py.truediv (Py.NInt mh) (Py.NInt (Z.of_nat h))) in
           let scale := Py.min (Py.NFloat sw) (Py.NFloat sh) in
           let* ws := lift (Py.mul (Py.NInt (Z.of_nat w)) scale) in
           let* new_w := lift (Py.int ws) in
           let* hs := lift (Py.mul (Py.NInt (Z.of_nat h)) scale) in
           let* new_h := lift (Py.int hs) in
           ret (PyInt new_w, PyInt new_h)
         else ret (PyInt mw, PyInt mh)) in
      resize_run cv self image w h (fst dims) (snd dims).
Proof.
  unfold _resize_image, param. rewrite Hmw, Hmh, Hpreserve. py_run. rewrite Hshape.
  change (Py.expect_num "w <= max_width" (PyInt mw)) with (@Ok Py.num (Py.NInt mw)).
  py_run. rewrite le_int.
  change (Py.expect_num "h <= max_height" (PyInt mh)) with (@Ok Py.num (Py.NInt mh)).
  change (Py.expect_num "max_height / h" (PyInt mh)) with (@Ok Py.num (Py.NInt mh)).
  assert (Hrun : forall dims : M (pyval * pyval),
             (let* dims := dims in
              let* resized := resize cv image (fst dims) (snd dims) in
              let* _ := when (Py.truthy (verbose self))
                          (print (MsgResized w h (fst dims) (snd dims))) in
              ret resized)
             = (let* dims := dims in
                resize_run cv self image w h (fst dims) (snd dims))).
  { intros dims. apply bind_ext. intros d. apply resize_then_print. }
  destruct (Z.of_nat w <=? mw); cbn [andb]; py_run; [ rewrite le_int | ].
  - destruct (Z.of_nat h <=? mh); [ reflexivity | ].
    rewrite Hrun. f_equal.
    destruct (Py.truthy preserve); [ | reflexivity ].
    apply bind_ext. intros sw. py_run. reflexivity.
  - rewrite Hrun. f_equal.
    destruct (Py.truthy preserve); [ | reflexivity ].
    apply bind_ext. intros sw. py_run. reflexivity.
Qed.

Lemma resize_image_within :
  Z.of_nat w <= mw -> Z.of_nat h <= mh -> _resize_image cv self image = ([], Ok image).
Proof.
  intros Hw Hh. rewrite resize_image_decision.
  rewrite (proj2 (Z.leb_le _ _) Hw), (proj2 (Z.leb_le _ _) Hh). reflexivity.
Qed.

Lemma exceeds :
  ~ (Z.of_nat w <= mw /\ Z.of_nat h <= mh) ->
  (Z.of_nat w <=? mw) && (Z.of_nat h <=? mh) = false.
Proof.
  intros H. apply andb_false_iff.
  destruct (Z.leb_spec (Z.of_nat w) mw); [ | left; reflexivity ].
  destruct (Z.leb_spec (Z.of_nat h) mh); [ | right; reflexivity ].
  exfalso. apply H. split; assumption.
Qed.

Lemma resize_image_preserving (factor : Py.num) (new_w new_h : Z) :
  ~ (Z.of_nat w <= mw /\ Z.of_nat h <= mh) ->
  Py.truthy preserve = true ->
  scale_factor mw mh w h = Ok factor ->
  scaled w factor = Ok new_w ->
  scaled h factor = Ok new_h ->
  _resize_image cv self image = resize_run cv self image w h (PyInt new_w) (PyInt new_h).
Proof.
  intros Hex Hp Hf Hsw Hsh. rewrite resize_image_decision, (exceeds Hex), Hp.
  unfold scale_factor, rbind in Hf.
  destruct (Py.truediv (Py.NInt mw) (Py.NInt (Z.of_nat w))) as [sw | ]; [ | discriminate ].
  destruct (Py.truediv (Py.NInt mh) (Py.NInt (Z.of_nat h))) as [sh | ]; [ | discriminate ].
  injection Hf as Hf. py_run. cbv zeta. rewrite Hf.
  unfold scaled, rbind in Hsw, Hsh.
  destruct (Py.mul (Py.NInt (Z.of_nat w)) factor) as [ws | ]; [ | discriminate ].
  destruct (Py.mul (Py.NInt (Z.of_nat h)) factor) as [hs | ]; [ | discriminate ].
  py_run. rewrite Hsw. py_run. rewrite Hsh. py_run. reflexivity.
Qed.

Lemma resize_image_stretching :
  ~ (Z.of_nat w <= mw /\ Z.of_nat h <= mh) ->
  Py.truthy preserve = false ->
  _resize_image cv self image = resize_run cv self image w h (PyInt mw) (PyInt mh).
Proof.
  intros Hex Hp. rewrite resize_image_decision, (exceeds Hex), Hp. py_run.
  reflexivity.
Qed.
End Resize.

Lemma resize_example :
  scale_factor 1920 1080 3000 2000 = Ok (Py.NFloat f_0_54)
  /\ scaled 3000 (Py.NFloat f_0_54) = Ok 1620
  /\ scaled 2000 (Py.NFloat f_0_54) = Ok 1080.
Proof. repeat split; vm_compute; reflexivity. Qed.

(** The example of the specification, on any 3000 x 2000 image under the
    default maxima: one call, to resize to 1620 x 1080. *)
Lemma resize_image_3000x2000 (cv : cv2_lib) (self : ImageProcessor) (image : u8array)
    (rest : list nat) :
  shape image = 2000%nat :: 3000%nat :: rest ->
  processing_config self = PyDict ∅ ->
  _resize_image cv self image
  = resize_run cv self image 3000 2000 (PyInt 1620) (PyInt 1080).
Proof.
  intros Hs Hc.
  apply (resize_image_preserving cv self image 2000 3000 rest 1920 1080 (PyBool true)
           Hs) with (factor := Py.NFloat f_0_54);
    try (rewrite Hc; reflexivity); try (vm_compute; reflexivity).
  intros [H _]. revert H. vm_compute. intros H. apply H. reflexivity.
Qed.

(** C5.  An image within the maxima is returned as it is, and nothing is
    called.  One that exceeds them is resized, by one call: with the aspect
    preserved, to [int(w * s)] by [int(h * s)] for the single factor
    [s = min(max_width / w, max_height / h)]; without, to the maxima
    themselves.  3000 x 2000 under 1920 x 1080 gives the factor 0.54 and
    1620 x 1080. *)
Theorem resize_image_spec :
  forall (cv : cv2_lib) (self : ImageProcessor) (image : u8array)
         (h w : nat) (rest : list nat) (mw mh : Z) (preserve : pyval),
    shape image = h :: w :: rest ->
    Py.get (processing_config self) (PyStr "max_width") (PyInt 1920) = Ok (PyInt mw) ->
    Py.get (processing_config self) (PyStr "max_height") (PyInt 1080) = Ok (PyInt mh) ->
    Py.get (processing_config self) (PyStr "preserve_aspect_ratio") (PyBool true)
    = Ok preserve ->
    (Z.of_nat w <= mw -> Z.of_nat h <= mh ->
     _resize_image cv self image = ([], Ok image))
    /\ (~ (Z.of_nat w <= mw /\ Z.of_nat h <= mh) ->
        Py.truthy preserve = true ->
        forall factor new_w new_h,
          scale_factor mw mh w h = Ok factor ->
          scaled w factor = Ok new_w ->
          scaled h factor = Ok new_h ->
          _resize_image cv self image
          = resize_run cv self image w h (PyInt new_w) (PyInt new_h))
    /\ (~ (Z.of_nat w <= mw /\ Z.of_nat h <= mh) ->
        Py.truthy preserve = false ->
        _resize_image cv self image
        = resize_run cv self image w h (PyInt mw) (PyInt mh))
    /\ (scale_factor 1920 1080 3000 2000 = Ok (Py.NFloat f_0_54)
        /\ scaled 3000 (Py.NFloat f_0_54) = Ok 1620
        /\ scaled 2000 (Py.NFloat f_0_54) = Ok 1080).
Proof.
  intros cv self image h w rest mw mh preserve Hs Hmw Hmh Hp.
  split; [ | split; [ | split ] ].
  - apply (resize_image_within cv self image h w rest mw mh preserve); assumption.
  - intros Hex Ht factor new_w new_h.
    apply (resize_image_preserving cv self image h w rest mw mh preserve); assumption.
  - apply (resize_image_stretching cv self image h w rest mw mh preserve); assumption.
  - exact resize_example.
Qed.

Lemma resize_image_spec_small :
  _resize_image Ref.cv default_processor Ref.photo = ([], Ok Ref.photo)
  /\ _resize_image Ref.cv small_frame (uniform 4 6 [1; 2; 3])
     = resize_run Ref.cv small_frame (uniform 4 6 [1; 2; 3]) 6 4 (PyInt 1) (PyInt 1)
  /\ _resize_image Ref.cv small_frame_stretch (uniform 4 6 [1; 2; 3])
     = resize_run Ref.cv small_frame_stretch (uniform 4 6 [1; 2; 3]) 6 4 (PyInt 5) (PyInt 1).
Proof.
  split; [ | split ].
  - apply (resize_image_spec Ref.cv default_processor Ref.photo 2 2 [3%nat] 1920 1080
             (PyBool true));
      try reflexivity; lia.
  - apply (resize_image_spec Ref.cv small_frame (uniform 4 6 [1; 2; 3]) 4 6 [3%nat] 5 1
             (PyBool true) eq_refl eq_refl eq_refl eq_refl)
      with (factor := Py.NFloat (F64.div (F64.of_Z 1) (F64.of_Z 4)));
      try (vm_compute; reflexivity).
    lia.
  - apply (resize_image_spec Ref.cv small_frame_stretch (uniform 4 6 [1; 2; 3]) 4 6 [3%nat]
             5 1 (PyBool false) eq_refl eq_refl eq_refl eq_refl);
      [ lia | reflexivity ].
Defined.

(** ** The unsharp mask and its threshold *)

Lemma binop_same_shape {A B C} (f : A -> B -> C) (a : array A) (b : array B) :
  shape a = shape b ->
  Np.binop f a b = Ok (mk_array (shape a) (zip_with f (data a) (data b))).
Proof.
  intros H. unfold Np.binop. destruct (decide (shape a = shape b)); [ reflexivity | ].
  contradiction.
Qed.

Lemma lt_int (a b : Z) : Py.lt (Py.NInt a) (Py.NInt b) = (a <? b).
Proof. unfold Py.lt, Py.compare, Z.ltb. destruct (a ?= b); reflexivity. Qed.

Lemma masked_lookup (T : Z) (image blurred sharpened : list Z) (i : nat) (x b s : Z) :
  image !! i = Some x -> blurred !! i = Some b -> sharpened !! i = Some s ->
  masked T image blurred sharpened !! i = Some (if (x - b) mod 256 <? T then x else s).
Proof.
  unfold masked. revert blurred sharpened i.
  induction image as [ | x0 image IH]; intros [ | b0 blurred] [ | s0 sharpened] [ | i];
    try discriminate; simpl.
  - intros [= ->] [= ->] [= ->]. rewrite lt_int. reflexivity.
  - apply IH.
Qed.

Lemma unsharp_mask_thresholded (cv : cv2_lib) (image blurred sharpened : u8array)
    (sigma strength : pyval) (s alpha : Py.num) (T : Z) :
  cv2_GaussianBlur cv image (PyTuple [PyInt 0; PyInt 0]) sigma = Ok blurred ->
  Py.expect_num "1.0 + strength" strength = Ok s ->
  Py.add (Py.NFloat (F64.of_Z 1)) s = Ok alpha ->
  cv2_addWeighted cv image alpha blurred (Py.neg s) 0 = Ok sharpened ->
  shape blurred = shape image ->
  shape sharpened = shape image ->
  0 < T ->
  outcome (SharpenFilter.unsharp_mask cv image sigma strength (PyInt T))
  = Ok (mk_array (shape image) (masked T (data image) (data blurred) (data sharpened))).
Proof.
  intros Hb Hs Ha Hw Sb Ss HT. unfold SharpenFilter.unsharp_mask.
  rewrite outcome_bind. unfold GaussianBlur. rewrite outcome_invoke, Hb. cbv beta iota.
  rewrite Hs. py_run. rewrite Ha. py_run.
  rewrite outcome_bind. unfold addWeighted. rewrite outcome_invoke, Hw. cbv beta iota.
  change (Py.expect_num "threshold > 0" (PyInt T)) with (@Ok Py.num (Py.NInt T)). py_run.
  unfold Py.gt. rewrite lt_int. replace (0 <? T) with true by (symmetry; apply Z.ltb_lt; exact HT).
  unfold Np.sub_uint8. rewrite (binop_same_shape _ image blurred) by congruence. py_run.
  unfold Np.where_. rewrite (binop_same_shape _ image sharpened) by congruence.
  unfold rbind. rewrite binop_same_shape by reflexivity.
  reflexivity.
Qed.

(** Where the comparison does what the docstring says: a sample not darker
    than its blurred value and closer to it than the threshold is kept. *)
Lemma masked_keeps_brighter (T : Z) (image blurred sharpened : list Z) (i : nat) (x b s : Z) :
  image !! i = Some x -> blurred !! i = Some b -> sharpened !! i = Some s ->
  is_u8 x -> is_u8 b -> b <= x -> Z.abs (x - b) < T ->
  masked T image blurred sharpened !! i = Some x.
Proof.
  intros Hx Hb Hs Ux Ub Hle Hlt. rewrite (masked_lookup T _ _ _ i x b s Hx Hb Hs).
  unfold is_u8 in *. rewrite Z.mod_small by lia.
  replace (x - b <? T) with true by (symmetry; apply Z.ltb_lt; lia). reflexivity.
Qed.

(** Where it does not: for a sample darker than its blurred value the
    [uint8] difference wraps around to [256 - (b - x)], the mask is off
    unless the threshold exceeds that, and the sharpened sample is
    returned. *)
Lemma masked_sharpens_darker (T : Z) (image blurred sharpened : list Z) (i : nat) (x b s : Z) :
  image !! i = Some x -> blurred !! i = Some b -> sharpened !! i = Some s ->
  is_u8 x -> is_u8 b -> x < b -> T <= 256 - (b - x) ->
  masked T image blurred sharpened !! i = Some s.
Proof.
  intros Hx Hb Hs Ux Ub Hlt HT. rewrite (masked_lookup T _ _ _ i x b s Hx Hb Hs).
  unfold is_u8 in *.
  replace ((x - b) mod 256) with (256 + (x - b)).
  - replace (256 + (x - b) <? T) with false by (symmetry; apply Z.ltb_ge; lia). reflexivity.
  - apply (Z.mod_unique_pos _ _ (-1)); lia.
Qed.

(** C3, on the code.  The 1 x 3 image [[14, 10, 14]], blurred to
    [[12, 12, 12]], sharpened with strength 1.5 and threshold 5: the middle
    sample differs from its blurred value by 2, less than the threshold, and
    is returned as 7, not as the original 10. *)
Theorem unsharp_mask_threshold_wraps :
  cv2_GaussianBlur Ref.cv Ref.row_14_10_14 (PyTuple [PyInt 0; PyInt 0]) (PyFloat (F64.of_Z 1))
  = Ok Ref.row_blurred
  /\ data Ref.row_14_10_14 !! 1%nat = Some 10
  /\ data Ref.row_blurred !! 1%nat = Some 12
  /\ Z.abs (10 - 12) < 5
  /\ outcome (SharpenFilter.unsharp_mask Ref.cv Ref.row_14_10_14
                (PyFloat (F64.of_Z 1)) (PyFloat three_halves) (PyInt 5))
     = Ok (mk_array [1; 3]%nat [14; 7; 14]).
Proof. repeat split; vm_compute; reflexivity. Qed.

(** ** Shapes through the filters *)

(** Splits a successful [let*] into its two successful halves. *)
Ltac inv_bind H :=
  let a := fresh "v" in
  let Ha := fresh "Hv" in
  apply bind_Ok_inv in H as (a & Ha & H & _).

Lemma binop_shape {A B C} (f : A -> B -> C) (a : array A) (b : array B) (r : array C) :
  shape a = shape b -> Np.binop f a b = Ok r -> shape r = shape a.
Proof. intros Hs H. rewrite binop_same_shape in H by exact Hs. injection H as <-. reflexivity. Qed.

Lemma where_shape {A} (mask : array bool) (x y r : array A) :
  shape x = shape mask -> shape y = shape mask ->
  Np.where_ mask x y = Ok r -> shape r = shape mask.
Proof.
  intros Hx Hy H. unfold Np.where_ in H.
  rewrite (binop_same_shape pair x y) in H by congruence.
  unfold rbind in H. apply binop_shape in H; [ exact H | ].
  cbn [shape]. congruence.
Qed.

Lemma broadcast_rev_4_3 (l l' : list nat) :
  Np.broadcast_rev (4%nat :: l) (3%nat :: l') = None.
Proof. cbn [Np.broadcast_rev]. destruct (Np.broadcast_rev l l'); reflexivity. Qed.

Section Shapes.
Variable cv : cv2_lib.
Hypothesis contract : shape_contract cv.

Lemma unsharp_mask_shape (image out : u8array) (sigma strength threshold : pyval) :
  is_image image = true ->
  outcome (SharpenFilter.unsharp_mask cv image sigma strength threshold) = Ok out ->
  shape out = shape image.
Proof.
  unfold SharpenFilter.unsharp_mask. intros Himage H.
  inv_bind H. apply (sc_GaussianBlur cv contract _ _ _ _ Himage) in Hv.
  inv_bind H. inv_bind H. inv_bind H.
  apply (sc_addWeighted cv contract _ _ _ _ _ _ Himage) in Hv2.
  inv_bind H. destruct (Py.gt v3 (Py.NInt 0)).
  - inv_bind H. apply binop_shape in Hv4; [ | congruence ].
    apply where_shape in H; [ | cbn [shape Np.lt_scalar Np.abs_uint8 Np.map]; congruence .. ].
    rewrite H. cbn [shape Np.lt_scalar Np.abs_uint8 Np.map]. exact Hv4.
  - injection H as <-. exact Hv2.
Qed.

Lemma laplacian_sharpen_shape (image out : u8array) (strength : pyval) :
  is_image image = true ->
  outcome (SharpenFilter.laplacian_sharpen cv image strength) = Ok out ->
  shape out = shape image.
Proof.
  unfold SharpenFilter.laplacian_sharpen. intros Himage H.
  inv_bind H. apply (sc_Laplacian cv contract) in Hv; [ | exact Himage ].
  inv_bind H. inv_bind H.
  cbn [shape Np.map Np.astype_float32] in Hv.
  apply binop_shape in Hv1; [ | cbn [shape Np.map Np.astype_float32]; congruence ].
  injection H as <-. cbn [shape Np.astype_uint8 Np.clip_0_255 Np.map]. exact Hv1.
Qed.

Lemma adaptive_sharpen_shape (image out : u8array) (strength : pyval) :
  is_image image = true ->
  outcome (SharpenFilter.adaptive_sharpen cv image strength) = Ok out ->
  shape out = shape image.
Proof.
  unfold SharpenFilter.adaptive_sharpen. intros Himage H.
  inv_bind H. inv_bind H. inv_bind H.
  inv_bind H. apply (unsharp_mask_shape _ _ _ _ _ Himage) in Hv2.
  inv_bind H. inv_bind H. inv_bind H. inv_bind H. injection H as <-.
  cbn [shape Np.astype_uint8 Np.map].
  destruct (is_image_cases image Himage) as (h & w & [Si | Si]);
    unfold Np.ndim in Hv, Hv3; rewrite Si in Hv, Hv3; cbn [length Nat.eqb] in Hv, Hv3.
  - injection Hv as <-.
    apply (sc_Canny cv contract _ _ _ _ h w Si) in Hv0.
    apply (sc_dilate cv contract) in Hv1; [ | unfold is_image; rewrite Hv0; reflexivity ].
    injection Hv3 as <-.
    apply binop_shape in Hv4; [ | cbn [shape Np.map Np.astype_float32]; congruence ].
    apply binop_shape in Hv5; [ | cbn [shape Np.map Np.astype_float32]; congruence ].
    apply binop_shape in Hv6; [ | congruence ].
    congruence.
  - apply (sc_to_gray cv contract _ _ h w Si) in Hv.
    apply (sc_Canny cv contract _ _ _ _ h w Hv) in Hv0.
    apply (sc_dilate cv contract) in Hv1; [ | unfold is_image; rewrite Hv0; reflexivity ].
    apply (sc_from_gray cv contract _ _ h w) in Hv3; [ | congruence ].
    apply binop_shape in Hv4; [ | cbn [shape Np.map Np.astype_float32]; congruence ].
    apply binop_shape in Hv5; [ | cbn [shape Np.map Np.astype_float32]; congruence ].
    apply binop_shape in Hv6; [ | congruence ].
    congruence.
Qed.

Lemma apply_denoise_shape (image out : u8array) (mode params : pyval) :
  is_image image = true ->
  outcome (apply_denoise cv image mode params) = Ok out -> shape out = shape image.
Proof.
  unfold apply_denoise. intros Himage H.
  destruct (Py.eq_str mode "gaussian").
  { inv_bind H. inv_bind H. inv_bind H.
    exact (sc_GaussianBlur cv contract _ _ _ _ Himage H). }
  destruct (Py.eq_str mode "mean").
  { inv_bind H. inv_bind H. exact (sc_blur cv contract _ _ _ Himage H). }
  destruct (Py.eq_str mode "median").
  { inv_bind H. exact (sc_medianBlur cv contract _ _ _ Himage H). }
  destruct (Py.eq_str mode "bilateral").
  { inv_bind H. inv_bind H. inv_bind H.
    exact (sc_bilateralFilter cv contract _ _ _ _ _ Himage H). }
  destruct (Py.eq_str mode "nlmeans"); [ | discriminate ].
  inv_bind H. inv_bind H. inv_bind H.
  unfold DenoiseFilter.nlmeans_denoise in H.
  destruct (Np.ndim image =? 3)%nat.
  - exact (sc_fastNlMeansDenoisingColored cv contract _ _ _ _ _ _ Himage H).
  - exact (sc_fastNlMeansDenoising cv contract _ _ _ _ _ Himage H).
Qed.

Lemma apply_sharpen_shape (image out : u8array) (mode params : pyval) :
  is_image image = true ->
  outcome (apply_sharpen cv image mode params) = Ok out -> shape out = shape image.
Proof.
  unfold apply_sharpen. intros Himage H.
  destruct (Py.eq_str mode "laplacian").
  { inv_bind H. exact (laplacian_sharpen_shape _ _ _ Himage H). }
  destruct (Py.eq_str mode "unsharp_mask").
  { inv_bind H. inv_bind H. inv_bind H. exact (unsharp_mask_shape _ _ _ _ _ Himage H). }
  destruct (Py.eq_str mode "custom").
  { inv_bind H. inv_bind H. exact (sc_filter2D cv contract _ _ _ _ Himage H). }
  destruct (Py.eq_str mode "adaptive"); [ | discriminate ].
  inv_bind H. exact (adaptive_sharpen_shape _ _ _ Himage H).
Qed.
End Shapes.

(** What a denoise mode returns is the array its one OpenCV call answered,
    as it is. *)
Lemma apply_denoise_returns_its_call (cv : cv2_lib) (image out : u8array)
    (mode params : pyval) :
  outcome (apply_denoise cv image mode params) = Ok out ->
  exists c,
    apply_denoise cv image mode params = ([Call c], Ok out)
    /\ denoise_call cv c = Some (image, Ok out).
Proof.
  unfold apply_denoise, param.
  repeat match goal with
         | |- context [if Py.eq_str mode ?m then _ else _] => destruct (Py.eq_str mode m)
         end;
    repeat match goal with
           | |- context [bind (lift ?r) _] =>
               destruct r as [? | ?]; [ rewrite bind_lift_Ok; cbv beta | discriminate ]
           end;
    try discriminate;
    unfold DenoiseFilter.gaussian_denoise, DenoiseFilter.mean_denoise,
      DenoiseFilter.median_denoise, DenoiseFilter.bilateral_denoise,
      DenoiseFilter.nlmeans_denoise, GaussianBlur, blur, medianBlur, bilateralFilter,
      fastNlMeansDenoisingColored, fastNlMeansDenoising, invoke;
    try destruct (Np.ndim image =? 3)%nat;
    cbn [outcome snd]; intros H; eexists;
    (split; [ rewrite H; reflexivity | cbn [denoise_call]; rewrite H; reflexivity ]).
Qed.

Lemma custom_returns_its_call (cv : cv2_lib) (image out : u8array) (params : pyval) :
  outcome (apply_sharpen cv image (PyStr "custom") params) = Ok out ->
  exists kernel, cv2_filter2D cv image (-1) kernel = Ok out.
Proof.
  unfold apply_sharpen.
  change (Py.eq_str (PyStr "custom") "laplacian") with false.
  change (Py.eq_str (PyStr "custom") "unsharp_mask") with false.
  change (Py.eq_str (PyStr "custom") "custom") with true.
  cbv iota. intros H. inv_bind H. inv_bind H.
  unfold SharpenFilter.custom_kernel_sharpen, filter2D in H.
  rewrite outcome_invoke in H. eexists. exact H.
Qed.


Lemma Ref_shape_contract : shape_contract Ref.cv.
Proof.
  constructor; cbn [Ref.cv cv2_GaussianBlur cv2_blur cv2_medianBlur cv2_bilateralFilter
                    cv2_fastNlMeansDenoisingColored cv2_fastNlMeansDenoising cv2_Laplacian
                    cv2_addWeighted cv2_filter2D cv2_Canny cv2_dilate cv2_cvtColor].
  - intros src k s dst _ [= <-]. destruct (decide _); reflexivity.
  - intros src k dst _ [= <-]. reflexivity.
  - intros src k dst _ [= <-]. reflexivity.
  - intros src d c s dst _ [= <-]. reflexivity.
  - intros src h hc t s dst _. unfold Ref.fastNlMeansDenoisingColored.
    destruct (shape src) as [ | ? [ | ? [ | [ | [ | [ | [ | ?]]]] [ | ? ?]]]] eqn:E;
      try discriminate. intros [= <-]. exact E.
  - intros src h t s dst _. unfold Ref.fastNlMeansDenoising.
    destruct (shape src) as [ | ? [ | ? [ | ? ?]]] eqn:E; try discriminate.
    intros [= <-]. exact E.
  - intros src dst _ [= <-]. reflexivity.
  - intros src1 a src2 b g dst _. unfold Ref.addWeighted, rbind.
    destruct (Py.to_float a); [ | discriminate ].
    destruct (Py.to_float b); [ | discriminate ].
    destruct (decide _); [ | discriminate ]. intros [= <-]. reflexivity.
  - intros src d k dst _. unfold Ref.filter2D.
    destruct (shape k) as [ | ? [ | ? [ | ? ?]]]; try discriminate.
    destruct (shape src) as [ | ? [ | ? [ | ? [ | ? ?]]]] eqn:E; try discriminate;
      intros [= <-]; reflexivity.
  - intros src a b dst h w E [= <-]. exact E.
  - intros src n dst _ [= <-]. reflexivity.
  - intros src dst h w E. unfold Ref.cvtColor. rewrite E. intros [= <-]. reflexivity.
  - intros src dst h w E. unfold Ref.cvtColor. rewrite E. intros [= <-]. reflexivity.
Qed.


(** ** The default kernel on a uniform image *)

Lemma reflect101_lt (p : Z) (len : nat) : (0 < len)%nat -> (Ref.reflect101 p len < len)%nat.
Proof.
  intros Hl. unfold Ref.reflect101.
  destruct (len <=? 1)%nat eqn:E; [ exact Hl | ].
  apply Nat.leb_gt in E.
  pose proof (Z.mod_pos_bound p (2 * (Z.of_nat len - 1)) ltac:(lia)) as Hm.
  destruct (Z.ltb_spec (p mod (2 * (Z.of_nat len - 1))) (Z.of_nat len)); lia.
Qed.

Lemma nth_concat_repeat (colour : list Z) (n i k : nat) (d : Z) :
  (i < n)%nat -> (k < length colour)%nat ->
  nth (i * length colour + k) (concat (repeat colour n)) d = nth k colour d.
Proof.
  revert i. induction n as [ | n IH]; intros i Hi Hk; [ lia | ].
  simpl. destruct i as [ | i].
  - simpl. apply app_nth1. exact Hk.
  - rewrite app_nth2 by (simpl; lia).
    replace (S i * length colour + k - length colour)%nat
      with (i * length colour + k)%nat by (simpl; lia).
    apply IH; [ lia | exact Hk ].
Qed.

Lemma sample_uniform (colour : list Z) (h w y x k : nat) :
  (y < h)%nat -> (x < w)%nat -> (k < length colour)%nat ->
  Ref.sample (concat (repeat colour (h * w))) w (length colour) y x k = nth k colour 0.
Proof.
  intros Hy Hx Hk. unfold Ref.sample. apply nth_concat_repeat; [ nia | exact Hk ].
Qed.

Lemma bytes_spec (c : Z) : is_u8 c -> In c bytes.
Proof.
  intros Hc. unfold is_u8 in Hc. unfold bytes. apply in_map_iff.
  exists (Z.to_nat c). split; [ lia | ]. apply in_seq. lia.
Qed.

Lemma weighted_sum_default_all :
  forallb (fun c => Ref.weighted_sum (data SharpenFilter.default_kernel) (repeat c 9) =? c)
          bytes = true.
Proof. vm_compute. reflexivity. Qed.

Lemma weighted_sum_default (c : Z) :
  is_u8 c -> Ref.weighted_sum (data SharpenFilter.default_kernel) (repeat c 9) = c.
Proof.
  intros Hc.
  pose proof (proj1 (forallb_forall _ _) weighted_sum_default_all c (bytes_spec c Hc)) as H.
  apply Z.eqb_eq in H. exact H.
Qed.

Lemma window_uniform (colour : list Z) (h w y x k : nat) :
  (y < h)%nat -> (x < w)%nat -> (k < length colour)%nat ->
  Ref.window (concat (repeat colour (h * w))) h w (length colour) 3 3 y x k
  = repeat (nth k colour 0) 9.
Proof.
  intros Hy Hx Hk. unfold Ref.window.
  change (repeat (nth k colour 0) 9)
    with (map (fun _ : nat => nth k colour 0) (seq 0 (3 * 3))).
  apply map_ext. intros ij.
  apply sample_uniform; [ apply reflect101_lt; lia | apply reflect101_lt; lia | exact Hk ].
Qed.

Lemma map_nth_seq (colour : list Z) :
  map (fun k => nth k colour 0) (seq 0 (length colour)) = colour.
Proof.
  induction colour as [ | a l IH]; [ reflexivity | ].
  simpl. f_equal. rewrite <- seq_shift, map_map. exact IH.
Qed.

Lemma flat_map_const {A B} (l : list A) (v : list B) :
  flat_map (fun _ => v) l = concat (repeat v (length l)).
Proof. induction l as [ | a l IH]; simpl; [ | rewrite IH ]; reflexivity. Qed.

Lemma concat_repeat_mul {B} (v : list B) (h w : nat) :
  concat (repeat (concat (repeat v w)) h) = concat (repeat v (h * w)).
Proof.
  induction h as [ | h IH]; [ reflexivity | ].
  simpl. rewrite IH, repeat_app, concat_app. reflexivity.
Qed.

Lemma flat_map_ext_in {A B} (f g : A -> list B) (l : list A) :
  (forall a, In a l -> f a = g a) -> flat_map f l = flat_map g l.
Proof.
  intros H. induction l as [ | a l IH]; [ reflexivity | ].
  simpl. rewrite H by (left; reflexivity). rewrite IH; [ reflexivity | ].
  intros b Hb. apply H. right. exact Hb.
Qed.

Lemma correlate_uniform (colour : list Z) (h w : nat) :
  Forall is_u8 colour ->
  Ref.correlate (concat (repeat colour (h * w))) h w (length colour)
    SharpenFilter.default_kernel 3 3
  = concat (repeat colour (h * w)).
Proof.
  intros Hc. unfold Ref.correlate.
  rewrite (flat_map_ext_in _ (fun _ => concat (repeat colour w))).
  - rewrite flat_map_const, length_seq. apply concat_repeat_mul.
  - intros y Hy. apply in_seq in Hy.
    rewrite (flat_map_ext_in _ (fun _ => colour)).
    + rewrite flat_map_const, length_seq. reflexivity.
    + intros x Hx. apply in_seq in Hx.
      rewrite <- (map_nth_seq colour) at 2.
      apply map_ext_in. intros k Hk. apply in_seq in Hk.
      rewrite window_uniform by lia.
      apply weighted_sum_default.
      apply (proj1 (List.Forall_forall _ _) Hc). apply nth_In. lia.
Qed.

Lemma filter2D_uniform (colour : list Z) (h w : nat) :
  Forall is_u8 colour ->
  Ref.filter2D (uniform h w colour) (-1) SharpenFilter.default_kernel
  = Ok (uniform h w colour).
Proof.
  intros Hc. unfold Ref.filter2D, uniform. cbn [shape data SharpenFilter.default_kernel].
  rewrite correlate_uniform by exact Hc. reflexivity.
Qed.

Lemma filter2D_uniform_gray (c : Z) (h w : nat) :
  is_u8 c ->
  Ref.filter2D (uniform_gray h w c) (-1) SharpenFilter.default_kernel
  = Ok (uniform_gray h w c).
Proof.
  intros Hc.
  assert (H : Forall is_u8 [c]) by (constructor; [ exact Hc | constructor ]).
  apply (correlate_uniform [c] h w) in H. cbn [length] in H.
  unfold Ref.filter2D, uniform_gray. cbn [shape data SharpenFilter.default_kernel].
  rewrite H. reflexivity.
Qed.

(** C7.  With no kernel in the parameters, the custom mode makes one call,
    [filter2D] with the kernel [[0,-1,0],[-1,5,-1],[0,-1,0]], whose weights
    sum to 1; and where [filter2D] is the correlation OpenCV documents, a
    uniform image comes back as it went in, be it colour or grayscale. *)
Theorem custom_sharpen_default_kernel :
  forall (cv : cv2_lib) (image : u8array) (params : pyval),
    Py.get params (PyStr "kernel") PyNone = Ok PyNone ->
    (apply_sharpen cv image (PyStr "custom") params
     = ([Call (filter2D_call image (-1) SharpenFilter.default_kernel)],
        cv2_filter2D cv image (-1) SharpenFilter.default_kernel)
     /\ SharpenFilter.default_kernel
        = mk_array [3; 3]%nat (map F32.of_Z [0; -1; 0; -1; 5; -1; 0; -1; 0])
     /\ fold_left F32.add (data SharpenFilter.default_kernel) (F32.of_Z 0) = F32.of_Z 1)
    /\ ((forall src kernel, cv2_filter2D cv src (-1) kernel = Ref.filter2D src (-1) kernel) ->
        (forall h w colour,
            Forall is_u8 colour ->
            outcome (apply_sharpen cv (uniform h w colour) (PyStr "custom") params)
            = Ok (uniform h w colour))
        /\ (forall h w c,
            is_u8 c ->
            outcome (apply_sharpen cv (uniform_gray h w c) (PyStr "custom") params)
            = Ok (uniform_gray h w c))).
Proof.
  intros cv image params Hk.
  assert (Hcall : forall img,
             apply_sharpen cv img (PyStr "custom") params
             = ([Call (filter2D_call img (-1) SharpenFilter.default_kernel)],
                cv2_filter2D cv img (-1) SharpenFilter.default_kernel)).
  { intros img. unfold apply_sharpen, param.
    change (Py.eq_str (PyStr "custom") "laplacian") with false.
    change (Py.eq_str (PyStr "custom") "unsharp_mask") with false.
    change (Py.eq_str (PyStr "custom") "custom") with true. cbv iota.
    rewrite Hk. py_run. reflexivity. }
  split; [ split; [ apply Hcall | split; reflexivity ] | ].
  intros Href. split.
  - intros h w colour Hc. rewrite Hcall. unfold outcome, snd.
    rewrite Href. apply filter2D_uniform. exact Hc.
  - intros h w c Hc. rewrite Hcall. unfold outcome, snd.
    rewrite Href. apply filter2D_uniform_gray. exact Hc.
Qed.

Lemma custom_sharpen_default_kernel_photo :
  (apply_sharpen Ref.cv Ref.photo (PyStr "custom") (PyDict ∅)
   = ([Call (filter2D_call Ref.photo (-1) SharpenFilter.default_kernel)],
      cv2_filter2D Ref.cv Ref.photo (-1) SharpenFilter.default_kernel)
   /\ SharpenFilter.default_kernel
      = mk_array [3; 3]%nat (map F32.of_Z [0; -1; 0; -1; 5; -1; 0; -1; 0])
   /\ fold_left F32.add (data SharpenFilter.default_kernel) (F32.of_Z 0) = F32.of_Z 1)
  /\ outcome (apply_sharpen Ref.cv (uniform 2 2 [10; 20; 30]) (PyStr "custom") (PyDict ∅))
     = Ok (uniform 2 2 [10; 20; 30])
  /\ outcome (apply_sharpen Ref.cv (uniform_gray 3 2 200) (PyStr "custom") (PyDict ∅))
     = Ok (uniform_gray 3 2 200).
Proof.
  assert (Hk : Py.get (PyDict ∅) (PyStr "kernel") PyNone = Ok PyNone) by reflexivity.
  destruct (custom_sharpen_default_kernel Ref.cv Ref.photo (PyDict ∅) Hk)
    as [Hcall Hflat].
  split; [ exact Hcall | ].
  destruct (Hflat (fun src kernel => eq_refl)) as [Hcolour Hgray].
  split.
  - apply Hcolour. repeat constructor; unfold is_u8; lia.
  - apply Hgray. unfold is_u8. lia.
Defined.

(** * Further properties *)

(** ** The selectors and their parameters *)

Lemma param_not_dict (params : pyval) (name : string) (default : pyval) :
  is_dict params = false ->
  param params name default = ([], Raise (AttributeError "get")).
Proof. destruct params; try discriminate; reflexivity. Qed.

Lemma supported_denoise_cases (mode : pyval) :
  supported denoise_modes mode = true ->
  Py.eq_str mode "gaussian" = true \/ Py.eq_str mode "mean" = true
  \/ Py.eq_str mode "median" = true \/ Py.eq_str mode "bilateral" = true
  \/ Py.eq_str mode "nlmeans" = true.
Proof.
  unfold supported, denoise_modes. simpl existsb. rewrite !orb_true_iff. intuition discriminate.
Qed.

Lemma supported_sharpen_cases (mode : pyval) :
  supported sharpen_modes mode = true ->
  Py.eq_str mode "laplacian" = true \/ Py.eq_str mode "unsharp_mask" = true
  \/ Py.eq_str mode "custom" = true \/ Py.eq_str mode "adaptive" = true.
Proof.
  unfold supported, sharpen_modes. simpl existsb. rewrite !orb_true_iff. intuition discriminate.
Qed.



Lemma param_agree (keys : list string) (d1 d2 : gmap string pyval) (name : string)
    (default : pyval) :
  agree_on keys d1 d2 -> In name keys ->
  param (PyDict d1) name default = param (PyDict d2) name default.
Proof.
  intros H Hin. unfold param, Py.get. cbn [Py.hashable]. rewrite (H name Hin). reflexivity.
Qed.

(** Rewrites the next parameter lookup and steps under it. *)
Ltac next_param H :=
  erewrite (param_agree _ _ _ _ _ H) by (cbn; tauto);
  apply bind_ext; intro.

(** X2.  The selectors read only the parameters of their table: two
    parameter dictionaries that agree on those names give the same calls and
    the same result, so a name the code does not know is ignored. *)
Theorem selectors_ignore_unknown_params :
  forall (cv : cv2_lib) (image : u8array) (mode : pyval) (d1 d2 : gmap string pyval),
    (agree_on denoise_keys d1 d2 ->
     apply_denoise cv image mode (PyDict d1) = apply_denoise cv image mode (PyDict d2))
    /\ (agree_on sharpen_keys d1 d2 ->
        apply_sharpen cv image mode (PyDict d1) = apply_sharpen cv image mode (PyDict d2)).
Proof.
  intros cv image mode d1 d2. split; intros H.
  - unfold apply_denoise.
    destruct (Py.eq_str mode "gaussian").
    { next_param H. apply bind_ext; intro. next_param H. reflexivity. }
    destruct (Py.eq_str mode "mean").
    { next_param H. reflexivity. }
    destruct (Py.eq_str mode "median").
    { next_param H. reflexivity. }
    destruct (Py.eq_str mode "bilateral").
    { next_param H. next_param H. next_param H. reflexivity. }
    destruct (Py.eq_str mode "nlmeans"); [ | reflexivity ].
    next_param H. next_param H. next_param H. reflexivity.
  - unfold apply_sharpen.
    destruct (Py.eq_str mode "laplacian").
    { next_param H. reflexivity. }
    destruct (Py.eq_str mode "unsharp_mask").
    { next_param H. next_param H. next_param H. reflexivity. }
    destruct (Py.eq_str mode "custom").
    { next_param H. reflexivity. }
    destruct (Py.eq_str mode "adaptive"); [ | reflexivity ].
    next_param H. reflexivity.
Qed.

Lemma agree_on_insert (keys : list string) (d : gmap string pyval) (k : string) (v : pyval) :
  ~ In k keys -> agree_on keys (<[k := v]> d) d.
Proof.
  intros Hk name Hin. apply lookup_insert_ne. intros ->. exact (Hk Hin).
Qed.

Lemma selectors_ignore_unknown_params_comment :
  apply_denoise Ref.cv Ref.photo (PyStr "median")
    (PyDict (<["comment" := PyStr "soft"]> (<["kernel_size" := PyInt 3]> ∅)))
  = apply_denoise Ref.cv Ref.photo (PyStr "median") (PyDict (<["kernel_size" := PyInt 3]> ∅))
  /\ apply_sharpen Ref.cv Ref.photo (PyStr "laplacian")
       (PyDict (<["comment" := PyStr "soft"]> ∅))
     = apply_sharpen Ref.cv Ref.photo (PyStr "laplacian") (PyDict ∅).
Proof.
  split.
  - apply (proj1 (selectors_ignore_unknown_params Ref.cv Ref.photo (PyStr "median") _ _)).
    apply agree_on_insert. cbn. intuition discriminate.
  - apply (proj2 (selectors_ignore_unknown_params Ref.cv Ref.photo (PyStr "laplacian") _ _)).
    apply agree_on_insert. cbn. intuition discriminate.
Defined.

(** ** The unsharp mask: what the threshold does *)

(** X3.  With a numeric threshold that is not positive (0 is the default)
    nothing is masked: [unsharp_mask] returns what
    [addWeighted(image, 1.0 + strength, blurred, -strength, 0)] returns. *)
Theorem unsharp_mask_without_threshold :
  forall (cv : cv2_lib) (image blurred : u8array) (sigma strength threshold : pyval)
         (s alpha t : Py.num),
    cv2_GaussianBlur cv image (PyTuple [PyInt 0; PyInt 0]) sigma = Ok blurred ->
    Py.as_num strength = Some s ->
    Py.add (Py.NFloat (F64.of_Z 1)) s = Ok alpha ->
    Py.as_num threshold = Some t ->
    Py.gt t (Py.NInt 0) = false ->
    SharpenFilter.unsharp_mask cv image sigma strength threshold
    = ([Call (GaussianBlur_call image (PyTuple [PyInt 0; PyInt 0]) sigma);
        Call (addWeighted_call image alpha blurred (Py.neg s) 0)],
       cv2_addWeighted cv image alpha blurred (Py.neg s) 0).
Proof.
  intros cv image blurred sigma strength threshold s alpha t Hb Hs Ha Ht Hgt.
  unfold SharpenFilter.unsharp_mask, GaussianBlur, addWeighted, invoke, Py.expect_num.
  rewrite Hs, Ht. unfold bind at 1. rewrite Hb. py_run. rewrite Ha. py_run.
  unfold bind. destruct (cv2_addWeighted cv image alpha blurred (Py.neg s) 0); [ | reflexivity ].
  cbn [lift]. rewrite Hgt. reflexivity.
Qed.

Lemma unsharp_mask_without_threshold_row :
  SharpenFilter.unsharp_mask Ref.cv Ref.row_14_10_14 (PyFloat (F64.of_Z 1))
    (PyFloat three_halves) (PyInt 0)
  = ([Call (GaussianBlur_call Ref.row_14_10_14 (PyTuple [PyInt 0; PyInt 0])
              (PyFloat (F64.of_Z 1)));
      Call (addWeighted_call Ref.row_14_10_14
              (Py.NFloat (F64.add (F64.of_Z 1) three_halves)) Ref.row_blurred
              (Py.NFloat (F64.opp three_halves)) 0)],
     Ok (mk_array [1; 3]%nat [17; 7; 17])).
Proof.
  exact (unsharp_mask_without_threshold Ref.cv Ref.row_14_10_14 Ref.row_blurred
           (PyFloat (F64.of_Z 1)) (PyFloat three_halves) (PyInt 0)
           (Py.NFloat three_halves) (Py.NFloat (F64.add (F64.of_Z 1) three_halves))
           (Py.NInt 0) eq_refl eq_refl eq_refl eq_refl eq_refl).
Defined.

Lemma masked_all (T : Z) (image blurred sharpened : list Z) :
  256 <= T ->
  length blurred = length image -> length sharpened = length image ->
  masked T image blurred sharpened = image.
Proof.
  intros HT. unfold masked. revert blurred sharpened.
  induction image as [ | x image IH]; intros [ | b blurred] [ | s sharpened];
    try discriminate; [ reflexivity | ].
  intros [= Hb] [= Hs]. simpl. rewrite lt_int.
  replace (Np.u8 (x - b) <? T) with true.
  - simpl. f_equal. apply IH; assumption.
  - symmetry. apply Z.ltb_lt. unfold Np.u8.
    pose proof (Z.mod_pos_bound (x - b) 256 ltac:(lia)). lia.
Qed.

(** X4.  With a threshold [T > 0], and OpenCV returning arrays of the size
    of the image, every sample of the result is the original sample when the
    [uint8] difference [(x - b) mod 256] with its blurred value is below [T],
    and the sharpened sample otherwise; from [T = 256] on every sample is the
    original one and the image comes back unchanged. *)
Theorem unsharp_mask_with_threshold :
  forall (cv : cv2_lib) (image blurred sharpened : u8array) (sigma strength : pyval)
         (s alpha : Py.num) (T : Z),
    cv2_GaussianBlur cv image (PyTuple [PyInt 0; PyInt 0]) sigma = Ok blurred ->
    Py.as_num strength = Some s ->
    Py.add (Py.NFloat (F64.of_Z 1)) s = Ok alpha ->
    cv2_addWeighted cv image alpha blurred (Py.neg s) 0 = Ok sharpened ->
    shape blurred = shape image ->
    shape sharpened = shape image ->
    0 < T ->
    exists out,
      outcome (SharpenFilter.unsharp_mask cv image sigma strength (PyInt T)) = Ok out
      /\ shape out = shape image
      /\ (forall i x b v,
             data image !! i = Some x -> data blurred !! i = Some b ->
             data sharpened !! i = Some v ->
             data out !! i = Some (if (x - b) mod 256 <? T then x else v))
      /\ (256 <= T ->
          length (data blurred) = length (data image) ->
          length (data sharpened) = length (data image) ->
          out = image).
Proof.
  intros cv image blurred sharpened sigma strength s alpha T Hb Hs Ha Hw Sb Ss HT.
  exists (mk_array (shape image) (masked T (data image) (data blurred) (data sharpened))).
  split; [ | split; [ reflexivity | split ] ].
  - apply (unsharp_mask_thresholded cv image blurred sharpened sigma strength s alpha T);
      try assumption.
    unfold Py.expect_num. rewrite Hs. reflexivity.
  - intros i x b v Hx Hbl Hv. cbn [data]. apply masked_lookup; assumption.
  - intros H256 Lb Ls. rewrite masked_all by assumption. destruct image; reflexivity.
Qed.

Lemma unsharp_mask_with_threshold_row :
  outcome (SharpenFilter.unsharp_mask Ref.cv Ref.row_14_10_14 (PyFloat (F64.of_Z 1))
             (PyFloat three_halves) (PyInt 256))
  = Ok Ref.row_14_10_14.
Proof.
  destruct (unsharp_mask_with_threshold Ref.cv Ref.row_14_10_14 Ref.row_blurred
              (mk_array [1; 3]%nat [17; 7; 17]) (PyFloat (F64.of_Z 1))
              (PyFloat three_halves) (Py.NFloat three_halves)
              (Py.NFloat (F64.add (F64.of_Z 1) three_halves)) 256
              eq_refl eq_refl eq_refl eq_refl eq_refl eq_refl eq_refl)
    as (out & Ho & _ & _ & Hall).
  rewrite Ho. f_equal. apply Hall; [ apply Z.le_refl | reflexivity | reflexivity ].
Defined.

(** ** Sharpening leaves flat regions alone *)

Lemma sf_eqb_eq (a b : spec_float) : sf_eqb a b = true -> a = b.
Proof.
  destruct a, b; simpl; try discriminate; intros H.
  - apply Bool.eqb_prop in H. congruence.
  - apply Bool.eqb_prop in H. congruence.
  - reflexivity.
  - apply andb_prop in H as [H He]. apply andb_prop in H as [Hs Hm].
    apply Bool.eqb_prop in Hs. apply Pos.eqb_eq in Hm. apply Z.eqb_eq in He. congruence.
Qed.

Lemma on_bytes (P : Z -> bool) :
  forallb P bytes = true -> forall x, is_u8 x -> P x = true.
Proof. intros H x Hx. exact (proj1 (forallb_forall _ _) H x (bytes_spec x Hx)). Qed.

Lemma mul_zero_r (sc : spec_float) (b : bool) :
  is_finite sc = true -> exists b', F32.mul sc (S754_zero b) = S754_zero b'.
Proof. destruct sc; try discriminate; intros _; eexists; reflexivity. Qed.

Lemma laplacian_sample_flat_all :
  forallb (fun x => (laplacian_sample (S754_zero false) x (S754_zero false) =? x)
                    && (laplacian_sample (S754_zero false) x (S754_zero true) =? x))
          bytes = true.
Proof. vm_compute. reflexivity. Qed.

Lemma laplacian_sample_flat (sc : spec_float) (x : Z) (l : spec_float) :
  is_finite sc = true -> F64.is_zero l = true -> is_u8 x -> laplacian_sample sc x l = x.
Proof.
  intros Hsc Hl Hx. destruct l as [b | | | ]; try discriminate.
  pose proof (on_bytes _ laplacian_sample_flat_all x Hx) as H.
  apply andb_prop in H as [H0 H1]. apply Z.eqb_eq in H0, H1.
  unfold laplacian_sample in *.
  destruct (mul_zero_r sc b Hsc) as [b' ->].
  change (F32.mul (S754_zero false) (S754_zero false)) with (S754_zero false) in H0.
  change (F32.mul (S754_zero false) (S754_zero true)) with (S754_zero true) in H1.
  destruct b'; assumption.
Qed.

Lemma laplacian_lookup (sc : spec_float) (image : list Z) (lap : list spec_float)
    (i : nat) (x : Z) (l : spec_float) :
  image !! i = Some x -> lap !! i = Some l ->
  map F32.to_u8
    (map (F32.clip (F32.of_Z 0) (F32.of_Z 255))
       (zip_with F32.sub (map F32.of_Z image) (map (F32.mul sc) lap))) !! i
  = Some (laplacian_sample sc x l).
Proof.
  revert lap i. induction image as [ | x0 image IH]; intros [ | l0 lap] [ | i];
    try discriminate; simpl.
  - intros [= ->] [= ->]. reflexivity.
  - apply IH.
Qed.

(** X5.  [laplacian_sharpen] returns an image of the shape of its input, and
    wherever the Laplacian response is zero the sample comes back unchanged
    (for a finite strength and byte samples): flat regions are not touched. *)
Theorem laplacian_sharpen_keeps_flat_samples :
  forall (cv : cv2_lib) (image : u8array) (laplacian : f32array) (strength : pyval)
         (s : Py.num),
    cv2_Laplacian cv (Np.astype_float32 image) = Ok laplacian ->
    shape laplacian = shape image ->
    Py.as_num strength = Some s ->
    is_finite (Np.scalar_float32 s) = true ->
    exists out,
      outcome (SharpenFilter.laplacian_sharpen cv image strength) = Ok out
      /\ shape out = shape image
      /\ forall i x l,
           data image !! i = Some x -> data laplacian !! i = Some l ->
           is_u8 x -> F64.is_zero l = true ->
           data out !! i = Some x.
Proof.
  intros cv image laplacian strength s Hl Hsh Hs Hfin.
  unfold SharpenFilter.laplacian_sharpen, Laplacian, Py.expect_num.
  rewrite Hs, outcome_bind, outcome_invoke, Hl. py_run.
  rewrite binop_same_shape by (cbn [shape Np.map Np.astype_float32]; congruence).
  py_run. eexists. split; [ reflexivity | ]. split; [ reflexivity | ].
  intros i x l Hx Hlap Ux Hz.
  cbn [data Np.astype_uint8 Np.clip_0_255 Np.map Np.astype_float32].
  rewrite (laplacian_lookup _ _ _ i x l Hx Hlap).
  f_equal. apply laplacian_sample_flat; assumption.
Qed.

Lemma laplacian_sharpen_keeps_flat_samples_photo :
  outcome (SharpenFilter.laplacian_sharpen Ref.cv Ref.photo (PyFloat one_half))
  = Ok Ref.photo.
Proof.
  destruct (laplacian_sharpen_keeps_flat_samples Ref.cv Ref.photo
              (Np.map (fun _ => F32.of_Z 0) (Np.astype_float32 Ref.photo))
              (PyFloat one_half) (Py.NFloat one_half) eq_refl eq_refl eq_refl eq_refl)
    as (out & Ho & _ & _).
  rewrite Ho. vm_compute in Ho. injection Ho as <-. reflexivity.
Defined.

Lemma adaptive_sample_all :
  forallb (fun x =>
             sf_eqb (F32.mul (F32.of_Z x) (F32.div (F32.of_Z 0) (F32.of_Z 255)))
                    (S754_zero false)
             && sf_eqb (F32.mul (F32.of_Z x)
                          (F32.sub (F32.of_Z 1) (F32.div (F32.of_Z 0) (F32.of_Z 255))))
                       (F32.of_Z x)
             && sf_eqb (F32.mul (F32.of_Z x) (F32.div (F32.of_Z 255) (F32.of_Z 255)))
                       (F32.of_Z x)
             && sf_eqb (F32.mul (F32.of_Z x)
                          (F32.sub (F32.of_Z 1) (F32.div (F32.of_Z 255) (F32.of_Z 255))))
                       (S754_zero false)
             && (F32.to_u8 (F32.add (S754_zero false) (F32.of_Z x)) =? x)
             && (F32.to_u8 (F32.add (F32.of_Z x) (S754_zero false)) =? x))
          bytes = true.
Proof. vm_compute. reflexivity. Qed.

Lemma adaptive_sample_off_edge (v x : Z) : is_u8 v -> is_u8 x -> adaptive_sample v x 0 = x.
Proof.
  intros Hv Hx. unfold adaptive_sample.
  pose proof (on_bytes _ adaptive_sample_all v Hv) as Pv.
  pose proof (on_bytes _ adaptive_sample_all x Hx) as Px.
  repeat (apply andb_prop in Pv as [Pv ?]). repeat (apply andb_prop in Px as [Px ?]).
  rewrite (sf_eqb_eq _ _ Pv).
  match goal with H : sf_eqb (F32.mul (F32.of_Z x) (F32.sub _ (F32.div (F32.of_Z 0) _))) _ = true |- _ =>
    rewrite (sf_eqb_eq _ _ H) end.
  apply Z.eqb_eq. assumption.
Qed.

Lemma adaptive_sample_on_edge (v x : Z) : is_u8 v -> is_u8 x -> adaptive_sample v x 255 = v.
Proof.
  intros Hv Hx. unfold adaptive_sample.
  pose proof (on_bytes _ adaptive_sample_all v Hv) as Pv.
  pose proof (on_bytes _ adaptive_sample_all x Hx) as Px.
  repeat (apply andb_prop in Pv as [Pv ?]). repeat (apply andb_prop in Px as [Px ?]).
  match goal with H : sf_eqb (F32.mul (F32.of_Z v) (F32.div (F32.of_Z 255) _)) _ = true |- _ =>
    rewrite (sf_eqb_eq _ _ H) end.
  match goal with H : sf_eqb (F32.mul (F32.of_Z x) (F32.sub _ (F32.div (F32.of_Z 255) _))) _ = true |- _ =>
    rewrite (sf_eqb_eq _ _ H) end.
  apply Z.eqb_eq. assumption.
Qed.

Lemma adaptive_lookup (sharpened image mask : list Z) (i : nat) (v x e : Z) :
  sharpened !! i = Some v -> image !! i = Some x -> mask !! i = Some e ->
  map F32.to_u8
    (zip_with F32.add
       (zip_with (fun s m => F32.mul (F32.of_Z s) m) sharpened
          (map (fun y => F32.div y (F32.of_Z 255)) (map F32.of_Z mask)))
       (zip_with (fun s m => F32.mul (F32.of_Z s) m) image
          (map (fun m => F32.sub (F32.of_Z 1) m)
             (map (fun y => F32.div y (F32.of_Z 255)) (map F32.of_Z mask))))) !! i
  = Some (adaptive_sample v x e).
Proof.
  revert image mask i.
  induction sharpened as [ | v0 sharpened IH]; intros [ | x0 image] [ | e0 mask] [ | i];
    try discriminate; simpl.
  - intros [= ->] [= ->] [= ->]. reflexivity.
  - apply IH.
Qed.

(** X6.  [adaptive_sharpen] blends sample by sample with the dilated edge
    map: where the map is 0 the original sample is returned, where it is 255
    the unsharp-masked one; the shape of the image is kept. *)
Theorem adaptive_sharpen_blends_on_edges :
  forall (cv : cv2_lib) (image gray edges dilated sharpened mask : u8array)
         (strength : pyval),
    outcome (if (Np.ndim image =? 3)%nat then cvtColor cv image COLOR_BGR2GRAY
             else ret image) = Ok gray ->
    cv2_Canny cv gray 50 150 = Ok edges ->
    cv2_dilate cv edges 1 = Ok dilated ->
    outcome (SharpenFilter.unsharp_mask cv image (PyFloat (F64.of_Z 1)) strength (PyInt 0))
    = Ok sharpened ->
    outcome (if (Np.ndim image =? 3)%nat then cvtColor cv dilated COLOR_GRAY2BGR
             else ret dilated) = Ok mask ->
    shape sharpened = shape image ->
    shape mask = shape image ->
    exists out,
      outcome (SharpenFilter.adaptive_sharpen cv image strength) = Ok out
      /\ shape out = shape image
      /\ forall i v x e,
           data sharpened !! i = Some v -> data image !! i = Some x ->
           data mask !! i = Some e -> is_u8 v -> is_u8 x ->
           (e = 0 -> data out !! i = Some x) /\ (e = 255 -> data out !! i = Some v).
Proof.
  intros cv image gray edges dilated sharpened mask strength Hg Hc Hd Hs Hm Ss Sm.
  unfold SharpenFilter.adaptive_sharpen.
  rewrite outcome_bind, Hg. cbv beta iota.
  rewrite outcome_bind. unfold Canny at 1. rewrite outcome_invoke, Hc. cbv beta iota.
  rewrite outcome_bind. unfold dilate at 1. rewrite outcome_invoke, Hd. cbv beta iota.
  rewrite outcome_bind, Hs. cbv beta iota.
  rewrite outcome_bind, Hm. cbv beta iota.
  rewrite (binop_same_shape _ sharpened)
    by (cbn [shape Np.map Np.astype_float32]; congruence).
  py_run.
  rewrite (binop_same_shape _ image)
    by (cbn [shape Np.map Np.astype_float32]; congruence).
  py_run.
  rewrite binop_same_shape by (cbn [shape]; congruence).
  py_run. eexists. split; [ reflexivity | ]. split; [ exact Ss | ].
  intros i v x e Hv Hx He Uv Ux.
  cbn [data Np.astype_uint8 Np.map Np.astype_float32].
  rewrite (adaptive_lookup _ _ _ i v x e Hv Hx He).
  split; intros ->; f_equal.
  - apply adaptive_sample_off_edge; assumption.
  - apply adaptive_sample_on_edge; assumption.
Qed.

Lemma adaptive_sharpen_blends_on_edges_photo :
  outcome (SharpenFilter.adaptive_sharpen Ref.cv Ref.photo (PyFloat (F64.of_Z 1)))
  = Ok Ref.photo.
Proof.
  destruct (adaptive_sharpen_blends_on_edges Ref.cv Ref.photo
              (mk_array [2; 2]%nat [10; 10; 10; 10])
              (mk_array [2; 2]%nat [0; 0; 0; 0])
              (mk_array [2; 2]%nat [0; 0; 0; 0])
              Ref.photo
              (mk_array [2; 2; 3]%nat [0; 0; 0; 0; 0; 0; 0; 0; 0; 0; 0; 0])
              (PyFloat (F64.of_Z 1))
              eq_refl eq_refl eq_refl eq_refl eq_refl eq_refl eq_refl)
    as (out & Ho & _ & _).
  rewrite Ho. vm_compute in Ho. injection Ho as <-. reflexivity.
Defined.

(** ** What touches the files *)

Lemma io_calls_app (l1 l2 : list event) : io_calls (l1 ++ l2) = io_calls l1 ++ io_calls l2.
Proof. apply List.filter_app. Qed.

Lemma no_io_bind {A B} (m : M A) (f : A -> M B) :
  no_io m -> (forall a, no_io (f a)) -> no_io (bind m f).
Proof.
  unfold no_io. intros Hm Hf. rewrite events_bind, io_calls_app, Hm.
  destruct (outcome m); [ apply Hf | reflexivity ].
Qed.

Lemma no_io_try_except {A} (m : M A) (h : exn -> M A) :
  no_io m -> (forall e, no_io (h e)) -> no_io (try_except m h).
Proof.
  unfold no_io. intros Hm Hh. rewrite events_try_except, io_calls_app, Hm.
  destruct (outcome m); [ reflexivity | apply Hh ].
Qed.

Lemma no_io_lift {A} (r : result A) : no_io (lift r).
Proof. reflexivity. Qed.

Lemma no_io_print (m : message) : no_io (print m).
Proof. reflexivity. Qed.

Lemma no_io_when (b : bool) (m : message) : no_io (when b (print m)).
Proof. destruct b; reflexivity. Qed.

(** Decides [no_io] for a computation built from the operations of the
    source other than [imread] and [imwrite]. *)
Ltac no_io :=
  repeat first
    [ apply no_io_lift
    | apply no_io_print
    | apply no_io_when
    | reflexivity
    | apply no_io_bind; [ | intro ]
    | apply no_io_try_except; [ | intro ]
    | match goal with
      | |- no_io (if ?b then _ else _) => destruct b
      | |- no_io (match ?x with _ => _ end) => destruct x
      end ].

Lemma no_io_unsharp_mask (cv : cv2_lib) (image : u8array) (sigma strength threshold : pyval) :
  no_io (SharpenFilter.unsharp_mask cv image sigma strength threshold).
Proof. unfold SharpenFilter.unsharp_mask. no_io. Qed.

Lemma no_io_apply_denoise (cv : cv2_lib) (image : u8array) (mode params : pyval) :
  no_io (apply_denoise cv image mode params).
Proof.
  unfold apply_denoise, param, DenoiseFilter.gaussian_denoise, DenoiseFilter.mean_denoise,
    DenoiseFilter.median_denoise, DenoiseFilter.bilateral_denoise,
    DenoiseFilter.nlmeans_denoise.
  no_io.
Qed.

Lemma no_io_apply_sharpen (cv : cv2_lib) (image : u8array) (mode params : pyval) :
  no_io (apply_sharpen cv image mode params).
Proof.
  unfold apply_sharpen, param, SharpenFilter.laplacian_sharpen,
    SharpenFilter.custom_kernel_sharpen, SharpenFilter.adaptive_sharpen.
  no_io; apply no_io_unsharp_mask.
Qed.

Lemma no_io_resize_image (cv : cv2_lib) (self : ImageProcessor) (image : u8array) :
  no_io (_resize_image cv self image).
Proof. unfold _resize_image, param. no_io. Qed.

Lemma no_io_stages (cv : cv2_lib) (self : ImageProcessor) (image : u8array) :
  no_io (stages cv self image).
Proof.
  unfold stages, _apply_denoise, _apply_sharpen, param.
  no_io; first [ apply no_io_resize_image | apply no_io_apply_denoise
               | apply no_io_apply_sharpen ].
Qed.

Lemma bind_lift {A B} (r : result A) (f : A -> M B) :
  bind (lift r) f = match r with Ok a => f a | Raise e => ([], Raise e) end.
Proof. destruct r; [ apply bind_lift_Ok | reflexivity ]. Qed.

(** [_save_image] raises before any call, or calls [cv2.imwrite] once and
    answers what it answered, [False] when it raised. *)
Lemma save_image_io (cv : cv2_lib) (self : ImageProcessor) (image : u8array)
    (path : string) :
  (io_calls (events (_save_image cv self image path)) = []
   /\ exists e, outcome (_save_image cv self image path) = Raise e)
  \/ exists params,
       io_calls (events (_save_image cv self image path))
       = [Call (imwrite_call path image params)]
       /\ outcome (_save_image cv self image path)
          = Ok (match cv2_imwrite cv path image params with
                | Ok b => b
                | Raise _ => false
                end).
Proof.
  unfold _save_image, param.
  rewrite bind_lift.
  destruct (Py.get (output_config self) (PyStr "format") (PyStr "png")) as [fv | e];
    [ | left; split; [ reflexivity | eexists; reflexivity ] ].
  rewrite bind_lift.
  destruct (Py.lower fv) as [output_format | e];
    [ | left; split; [ reflexivity | eexists; reflexivity ] ].
  rewrite bind_lift.
  destruct (Py.get (output_config self) (PyStr "quality") (PyInt 95)) as [quality | e];
    [ | left; split; [ reflexivity | eexists; reflexivity ] ].
  match goal with |- context [bind ?p _] => set (ps := p) end.
  assert (Hps : events ps = []
                /\ ((exists e, outcome ps = Raise e) \/ exists params, outcome ps = Ok params)).
  { unfold ps.
    destruct (String.eqb output_format "jpg" || String.eqb output_format "jpeg");
      [ split; [ reflexivity | right; eexists; reflexivity ] | ].
    destruct (String.eqb output_format "png").
    - rewrite bind_lift. destruct (png_compression quality);
        (split; [ reflexivity | ]); [ right | left ]; eexists; reflexivity.
    - destruct (String.eqb output_format "webp");
        (split; [ reflexivity | right; eexists; reflexivity ]). }
  destruct Hps as [Hev [[e He] | [params Hp]]].
  - left. rewrite events_bind, outcome_bind, Hev, He. split; [ reflexivity | eauto ].
  - right. exists params.
    rewrite events_bind, outcome_bind, Hev, Hp.
    rewrite events_try_except, outcome_try_except, bind_ret_r.
    unfold imwrite. rewrite events_invoke, outcome_invoke.
    destruct (cv2_imwrite cv path image params) as [b | e]; split; reflexivity.
Qed.

(** Naming and saving: no call at all and an exception, or one write, to the
    generated path, which is returned exactly when the write answered
    [True]. *)
Lemma finish_io (cv : cv2_lib) (self : ImageProcessor) (image_path output_dir : string)
    (image : u8array) :
  (io_calls (events (finish cv self image_path output_dir image)) = []
   /\ exists e, outcome (finish cv self image_path output_dir image) = Raise e)
  \/ exists prefix format keep params,
       let path := generate_output_filename cv image_path output_dir prefix format keep in
       io_calls (events (finish cv self image_path output_dir image))
       = [Call (imwrite_call path image params)]
       /\ outcome (finish cv self image_path output_dir image)
          = Ok (match cv2_imwrite cv path image params with
                | Ok true => Some path
                | _ => None
                end).
Proof.
  unfold finish, param.
  rewrite bind_lift.
  destruct (Py.get (output_config self) (PyStr "prefix") (PyStr "processed_")) as [prefix | e];
    [ | left; split; [ reflexivity | eexists; reflexivity ] ].
  rewrite bind_lift.
  destruct (Py.get (output_config self) (PyStr "format") (PyStr "png")) as [format | e];
    [ | left; split; [ reflexivity | eexists; reflexivity ] ].
  rewrite bind_lift.
  destruct (Py.get (output_config self) (PyStr "keep_original_name") (PyBool true))
    as [keep | e]; [ | left; split; [ reflexivity | eexists; reflexivity ] ].
  cbv zeta.
  set (path := generate_output_filename cv image_path output_dir prefix format keep).
  rewrite events_bind, outcome_bind.
  destruct (save_image_io cv self image path) as [[Hev [e He]] | [params [Hev Ho]]].
  - left. rewrite io_calls_app, Hev, He. split; [ reflexivity | eauto ].
  - right. exists prefix, format, keep, params. fold path. rewrite io_calls_app, Hev, Ho.
    destruct (cv2_imwrite cv path image params) as [[ | ] | e].
    + destruct (Py.truthy (verbose self)); split; reflexivity.
    + split; reflexivity.
    + split; reflexivity.
Qed.


Lemma get_not_dict (d key default : pyval) :
  is_dict d = false -> exists e, Py.get d key default = Raise e.
Proof. destruct d; try discriminate; intros _; eexists; reflexivity. Qed.

Lemma bind_invoke_Ok {A B} (c : call) (a : A) (f : A -> M B) :
  bind (invoke c (Ok a)) f = (Call c :: events (f a), outcome (f a)).
Proof. unfold bind, invoke. destruct (f a). reflexivity. Qed.

Lemma stages_malformed (cv : cv2_lib) (self : ImageProcessor) (image : u8array) :
  is_dict (denoise_config self) = false \/ is_dict (sharpen_config self) = false
  \/ is_dict (processing_config self) = false ->
  exists e, outcome (stages cv self image) = Raise e.
Proof.
  intros H. unfold stages.
  destruct (outcome (stages cv self image)) as [final | e] eqn:Hs;
    [ exfalso | exists e; exact Hs ].
  unfold stages, param in Hs.
  apply bind_Ok_inv in Hs as (r & Hr & Hs & _).
  apply bind_Ok_inv in Hs as (resized & _ & Hs & _).
  apply bind_Ok_inv in Hs as (denoised & Hd & Hs & _).
  apply bind_Ok_inv in Hs as (en & Hen & _).
  destruct H as [H | [H | H]].
  - unfold _apply_denoise, param in Hd.
    apply bind_Ok_inv in Hd as (mode & Hm & _).
    apply (get_not_dict _ (PyStr "mode") (PyStr "bilateral")) in H as [e He].
    unfold outcome, lift in Hm. simpl in Hm. congruence.
  - apply (get_not_dict _ (PyStr "enabled") (PyBool true)) in H as [e He].
    unfold outcome, lift in Hen. simpl in Hen. congruence.
  - apply (get_not_dict _ (PyStr "resize") (PyBool false)) in H as [e He].
    unfold outcome, lift in Hr. simpl in Hr. congruence.
Qed.

Lemma finish_malformed (cv : cv2_lib) (self : ImageProcessor)
    (image_path output_dir : string) (image : u8array) :
  is_dict (output_config self) = false ->
  exists e, outcome (finish cv self image_path output_dir image) = Raise e.
Proof.
  intros H. unfold finish, param.
  apply (get_not_dict _ (PyStr "prefix") (PyStr "processed_")) in H as [e He].
  exists e. rewrite He. reflexivity.
Qed.





(** X10.  A processor built from the empty configuration behaves, on every
    file and with every library, as one built from the configuration of
    [get_default_config]: the defaults written at each [get] and in the
    signatures of the filters are the values of the built-in
    configuration. *)
Theorem process_image_defaults_agree :
  forall (cv : cv2_lib) (image_path output_dir : string),
    process_image cv bare_processor image_path output_dir
    = process_image cv default_processor image_path output_dir.
Proof. intros cv image_path output_dir. vm_compute. reflexivity. Qed.

(** X11.  With sharpening switched off the stages are the resize and the
    denoise stage only: the sharpen mode and its parameters are not even
    looked up. *)
Theorem stages_without_sharpen :
  forall (cv : cv2_lib) (self : ImageProcessor) (image : u8array) (r en : pyval),
    Py.get (processing_config self) (PyStr "resize") (PyBool false) = Ok r ->
    Py.get (sharpen_config self) (PyStr "enabled") (PyBool true) = Ok en ->
    Py.truthy en = false ->
    stages cv self image
    = let* resized := (if Py.truthy r then _resize_image cv self image else ret image) in
      _apply_denoise cv self resized.
Proof.
  intros cv self image r en Hr Hen Ht. unfold stages, param.
  rewrite Hr, bind_lift_Ok. cbv beta. apply bind_ext. intros resized.
  rewrite Hen. 
  transitivity (bind (_apply_denoise cv self resized) ret).
  - apply bind_ext. intros denoised. rewrite bind_lift_Ok. cbv beta. rewrite Ht.
    rewrite bind_ret. reflexivity.
  - apply bind_ret_r.
Qed.

Lemma stages_without_sharpen_off :
  stages Ref.cv sharpen_off Ref.photo
  = ([Call (bilateralFilter_call Ref.photo (PyInt 9) (PyInt 75) (PyInt 75))], Ok Ref.photo).
Proof.
  rewrite (stages_without_sharpen Ref.cv sharpen_off Ref.photo (PyBool false) (PyBool false)
             eq_refl eq_refl eq_refl).
  reflexivity.
Defined.

(** ** Saving *)

(** ** Output names *)

Lemma append_nil (t : string) : String.append "" t = t.
Proof. reflexivity. Qed.

Lemma append_cons (a : ascii) (r t : string) :
  String.append (String a r) t = String a (String.append r t).
Proof. reflexivity. Qed.

Lemma append_assoc (a b c : string) :
  String.append (String.append a b) c = String.append a (String.append b c).
Proof.
  induction a as [ | x a IH]; rewrite ?append_nil, ?append_cons; [ | rewrite IH ];
    reflexivity.
Qed.

Lemma rfind_absent (c : ascii) (s : string) (i : nat) :
  no_char c s = true -> os_path.rfind c s i = None.
Proof.
  revert i. induction s as [ | a r IH]; intros i H; simpl in *; [ reflexivity | ].
  apply andb_true_iff in H as [Ha Hr]. rewrite (IH _ Hr).
  destruct (Ascii.eqb a c); [ discriminate | reflexivity ].
Qed.

Lemma rfind_last (c : ascii) (s t : string) (i : nat) :
  no_char c t = true ->
  os_path.rfind c (String.append s (String c t)) i = Some (i + String.length s)%nat.
Proof.
  intros Ht. revert i.
  induction s as [ | a r IH]; intros i; rewrite ?append_nil, ?append_cons; simpl.
  - rewrite (rfind_absent _ _ _ Ht), Ascii.eqb_refl. f_equal. lia.
  - rewrite IH. f_equal. lia.
Qed.

Lemma drop_append (s t : string) : os_path.drop (String.length s) (String.append s t) = t.
Proof. induction s; rewrite ?append_nil, ?append_cons; simpl; auto. Qed.

Lemma take_append (s t : string) : os_path.take (String.length s) (String.append s t) = s.
Proof.
  induction s as [ | a r IH]; rewrite ?append_nil, ?append_cons; simpl.
  - destruct t; reflexivity.
  - rewrite IH. reflexivity.
Qed.

Lemma no_char_append (c : ascii) (s t : string) :
  no_char c (String.append s t) = no_char c s && no_char c t.
Proof.
  induction s as [ | a r IH]; rewrite ?append_nil, ?append_cons; simpl; [ reflexivity | ].
  rewrite IH, andb_assoc. reflexivity.
Qed.

Lemma basename_of_path (dir name : string) :
  no_char "/" name = true ->
  os_path.basename (String.append dir (String "/" name)) = name.
Proof.
  intros H. unfold os_path.basename, os_path.after_sep.
  rewrite (rfind_last _ _ _ _ H). simpl Nat.add.
  change (String.append dir (String "/" name))
    with (String.append dir (String.append "/" name)).
  rewrite <- append_assoc.
  replace (S (String.length dir)) with (String.length (String.append dir "/")).
  - apply drop_append.
  - clear. induction dir; rewrite ?append_nil, ?append_cons; simpl; auto.
Qed.

Lemma basename_of_name (name : string) :
  no_char "/" name = true -> os_path.basename name = name.
Proof.
  intros H. unfold os_path.basename, os_path.after_sep.
  rewrite (rfind_absent _ _ _ H). reflexivity.
Qed.

Lemma splitext_of_name (stem ext : string) :
  no_char "/" stem = true -> no_char "/" ext = true -> no_char "." ext = true ->
  os_path.all_dots stem = false ->
  os_path.splitext (String.append stem (String "." ext)) = (stem, String "." ext).
Proof.
  intros Hs He Hd Ha. unfold os_path.splitext, os_path.after_sep.
  rewrite (rfind_last _ _ _ _ Hd). simpl Nat.add.
  rewrite rfind_absent by (rewrite no_char_append; simpl; rewrite Hs, He; reflexivity).
  rewrite Nat.sub_0_r. simpl os_path.drop at 1.
  rewrite take_append, Ha, drop_append. reflexivity.
Qed.

(** X13.  For an input [dir/stem.ext] (or [stem.ext]) the output name is
    [prefix + stem + "." + format] in the output directory: the input
    directory and the input extension leave no trace, so inputs that differ
    only in these are given the same output path. *)
Theorem output_name_drops_directory_and_extension :
  forall (cv : cv2_lib) (dir stem ext output_dir : string) (prefix format keep : pyval),
    no_char "/" stem = true -> no_char "/" ext = true -> no_char "." ext = true ->
    os_path.all_dots stem = false ->
    let name :=
      String.append (fmt cv prefix) (String.append stem (String "." (fmt cv format))) in
    generate_output_filename cv (String.append dir (String "/" (String.append stem (String "." ext))))
      output_dir prefix format keep
    = os_path.join output_dir name
    /\ generate_output_filename cv (String.append stem (String "." ext))
         output_dir prefix format keep
       = os_path.join output_dir name.
Proof.
  intros cv dir stem ext output_dir prefix format keep Hs He Hd Ha name.
  assert (Hn : no_char "/" (String.append stem (String "." ext)) = true)
    by (rewrite no_char_append; simpl; rewrite Hs, He; reflexivity).
  unfold generate_output_filename.
  rewrite (basename_of_path _ _ Hn), (basename_of_name _ Hn).
  rewrite (splitext_of_name _ _ Hs He Hd Ha). cbn [fst].
  destruct (Py.truthy keep); split; reflexivity.
Qed.

Lemma output_name_drops_directory_and_extension_collision :
  generate_output_filename Ref.cv "/in/a.jpg" "/out" (PyStr "processed_") (PyStr "png")
    (PyBool true) = "/out/processed_a.png"%string
  /\ generate_output_filename Ref.cv "/in/old/a.bmp" "/out" (PyStr "processed_") (PyStr "png")
       (PyBool true) = "/out/processed_a.png"%string.
Proof.
  split.
  - exact (proj1 (output_name_drops_directory_and_extension Ref.cv "/in" "a" "jpg" "/out"
                    (PyStr "processed_") (PyStr "png") (PyBool true)
                    eq_refl eq_refl eq_refl eq_refl)).
  - exact (proj1 (output_name_drops_directory_and_extension Ref.cv "/in/old" "a" "bmp" "/out"
                    (PyStr "processed_") (PyStr "png") (PyBool true)
                    eq_refl eq_refl eq_refl eq_refl)).
Defined.

(** ** The statistics *)

(** X14.  [get_processing_stats] reads the sharpen switch without the
    default [process_image] gives it: when the key [enabled] is missing the
    statistics report [None] for both the switch and the mode, although the
    stages sharpen.  When the key is there, both read the same value. *)
Theorem stats_miss_the_sharpen_default :
  forall (cv : cv2_lib) (self : ImageProcessor) (d : gmap string pyval)
         (stats : gmap string pyval),
    sharpen_config self = PyDict d ->
    get_processing_stats self = Ok stats ->
    match d !! "enabled"%string with
    | Some v =>
        stats !! "sharpen_enabled"%string = Some v
        /\ param (sharpen_config self) "enabled" (PyBool true) = ret v
    | None =>
        stats !! "sharpen_enabled"%string = Some PyNone
        /\ stats !! "sharpen_mode"%string = Some PyNone
        /\ param (sharpen_config self) "enabled" (PyBool true) = ret (PyBool true)
        /\ forall (image : u8array) (r : pyval),
             Py.get (processing_config self) (PyStr "resize") (PyBool false) = Ok r ->
             stages cv self image
             = let* resized := (if Py.truthy r then _resize_image cv self image
                                else ret image) in
               let* denoised := _apply_denoise cv self resized in
               _apply_sharpen cv self denoised
    end.
Proof.
  intros cv self d stats Hd Hs. unfold get_processing_stats in Hs. rewrite Hd in *.
  destruct (Py.get (denoise_config self) (PyStr "mode") PyNone) as [dm | ]; [ | discriminate ].
  cbn [rbind Py.get Py.hashable] in Hs. unfold param. cbn [Py.get Py.hashable].
  destruct (d !! "enabled"%string) as [v | ] eqn:Hen.
  - destruct (if Py.truthy v then _ else _) as [sm | ]; [ | discriminate ].
    cbn [rbind] in Hs.
    destruct (Py.get (output_config self) _ _) as [fo | ]; [ | discriminate ].
    cbn [rbind] in Hs.
    destruct (Py.get (processing_config self) _ _) as [re | ]; [ | discriminate ].
    cbn [rbind] in Hs. injection Hs as <-. split; reflexivity.
  - cbn [Py.truthy rbind] in Hs.
    destruct (Py.get (output_config self) _ _) as [fo | ]; [ | discriminate ].
    cbn [rbind] in Hs.
    destruct (Py.get (processing_config self) _ _) as [re | ] eqn:Hre; [ | discriminate ].
    cbn [rbind] in Hs. injection Hs as <-.
    split; [ reflexivity | ]. split; [ reflexivity | ]. split; [ reflexivity | ].
    intros image r Hr. injection Hr as <-.
    unfold stages, param. rewrite Hre, bind_lift_Ok. cbv beta.
    apply bind_ext. intros resized. apply bind_ext. intros denoised.
    rewrite Hd. cbn [Py.get Py.hashable]. rewrite Hen, bind_lift_Ok. cbv beta.
    cbn [Py.truthy]. apply bind_ret_r.
Qed.

Lemma stats_miss_the_sharpen_default_bare :
  get_processing_stats (processor [] [] [] [] true)
  = Ok (list_to_map [("denoise_mode", PyNone); ("sharpen_enabled", PyNone);
                     ("sharpen_mode", PyNone); ("output_format", PyNone);
                     ("resize_enabled", PyBool false)]%string)
  /\ param (sharpen_config (processor [] [] [] [] true)) "enabled" (PyBool true)
     = ret (PyBool true).
Proof.
  split; [ reflexivity | ].
  exact (proj1 (proj2 (proj2 (stats_miss_the_sharpen_default Ref.cv
                                (processor [] [] [] [] true) ∅ _ eq_refl eq_refl)))).
Defined.

#[local] Instance str_le_total : Total str_le.
Proof. intros a b. apply String.leb_total. Qed.

Lemma collect_spec (os : os_lib) (directory : string) (files acc : list string) :
  collect os directory files acc
  = acc ++ map (os_path.join directory)
             (List.filter (fun file => os_path_isfile os (os_path.join directory file)
                                       && has_image_extension file) files).
Proof.
  revert acc. induction files as [ | file rest IH]; intros acc; simpl.
  - rewrite app_nil_r. reflexivity.
  - destruct (os_path_isfile os (os_path.join directory file)); simpl; [ | apply IH ].
    destruct (has_image_extension file); simpl; [ | apply IH ].
    rewrite IH, <- app_assoc. reflexivity.
Qed.

(** X15.  [get_image_files]: a directory that does not exist gives the empty
    list and a warning; an error of [os.listdir] is not caught; otherwise
    the result is sorted and holds, once for each occurrence in the
    listing, the joined path of every entry that is a regular file and has
    a supported extension, and nothing else. *)
Theorem get_image_files_spec :
  forall (os : os_lib) (directory : string),
    (os_path_exists os directory = false ->
     get_image_files os directory = ([MsgMissingDirectory directory], inr []))
    /\ (forall e, os_path_exists os directory = true ->
                  os_listdir os directory = inl e ->
                  get_image_files os directory = ([], inl e))
    /\ (forall files, os_path_exists os directory = true ->
                      os_listdir os directory = inr files ->
        exists image_files,
          get_image_files os directory = ([], inr image_files)
          /\ Sorted str_le image_files
          /\ image_files
             ≡ₚ map (os_path.join directory)
                  (List.filter (fun file => os_path_isfile os (os_path.join directory file)
                                            && has_image_extension file) files)).
Proof.
  intros os directory. unfold get_image_files. repeat split.
  - intros ->. reflexivity.
  - intros e -> ->. reflexivity.
  - intros files -> ->. eexists. split; [ reflexivity | ]. unfold sorted. split.
    + apply Sorted_merge_sort. apply _.
    + rewrite merge_sort_Permutation, collect_spec. reflexivity.
Qed.

(** X16.  Which names are images: [stem.ext] is one exactly when [.ext],
    lowered, is a supported format, whatever the case it is written in; a
    name that is only an extension after leading dots ([.png]) is not. *)
Theorem image_names :
  forall (stem ext : string),
    no_char "/" stem = true -> no_char "/" ext = true -> no_char "." ext = true ->
    has_image_extension (String.append stem (String "." ext))
    = if os_path.all_dots stem then false
      else existsb (String.eqb (Py.lower_string (String "." ext))) supported_formats.
Proof.
  intros stem ext Hs He Hd. unfold has_image_extension.
  destruct (os_path.all_dots stem) eqn:Ha.
  - unfold os_path.splitext, os_path.after_sep.
    rewrite (rfind_last _ _ _ _ Hd). simpl Nat.add.
    rewrite rfind_absent by (rewrite no_char_append; simpl; rewrite Hs, He; reflexivity).
    rewrite Nat.sub_0_r. simpl os_path.drop. rewrite take_append, Ha. reflexivity.
  - rewrite (splitext_of_name _ _ Hs He Hd Ha). reflexivity.
Qed.

Lemma image_names_examples :
  has_image_extension "B.PNG" = true
  /\ has_image_extension ".png" = false
  /\ has_image_extension "notes.txt" = false.
Proof.
  split; [ | split ].
  - exact (image_names "B" "PNG" eq_refl eq_refl eq_refl).
  - exact (image_names "" "png" eq_refl eq_refl eq_refl).
  - exact (image_names "notes" "txt" eq_refl eq_refl eq_refl).
Defined.

Lemma get_image_files_spec_album :
  get_image_files album "/in" = ([], inr ["/in/B.PNG"; "/in/a.jpeg"]%string)
  /\ get_image_files album "/nowhere" = ([MsgMissingDirectory "/nowhere"], inr []).
Proof.
  split.
  - destruct (proj2 (proj2 (get_image_files_spec album "/in")) _ eq_refl eq_refl)
      as (image_files & H & _).
    vm_compute. reflexivity.
  - exact (proj1 (get_image_files_spec album "/nowhere") eq_refl).
Defined.

(** ** The loop of [main] *)

Lemma init_verbose (config : pyval) (self : ImageProcessor) :
  init config = Ok self ->
  Py.get config (PyStr "verbose") (PyBool true) = Ok (verbose self).
Proof.
  unfold init. intros H.
  destruct (Py.get config (PyStr "denoise") (PyDict ∅)); [ | discriminate ].
  destruct (Py.get config (PyStr "sharpen") (PyDict ∅)); [ | discriminate ].
  destruct (Py.get config (PyStr "output") (PyDict ∅)); [ | discriminate ].
  destruct (Py.get config (PyStr "processing") (PyDict ∅)); [ | discriminate ].
  destruct (Py.get config (PyStr "verbose") (PyBool true)); [ | discriminate ].
  injection H as <-. reflexivity.
Qed.

Lemma join_not_empty (a b : string) : b <> ""%string -> os_path.join a b <> ""%string.
Proof.
  intros Hb. unfold os_path.join.
  destruct b as [ | c r]; [ congruence | ].
  assert (Hc : forall x y z, String.append x (String y z) <> ""%string)
    by (intros [ | ] ? ?; rewrite ?append_nil, ?append_cons; discriminate).
  assert (Hd : String.append a (String "/" (String c r)) <> ""%string) by apply Hc.
  destruct c as [[ | ] [ | ] [ | ] [ | ] [ | ] [ | ] [ | ] [ | ]];
    try (destruct (_ || _); [ apply Hc | exact Hd ]); discriminate.
Qed.

Lemma output_path_not_empty (cv : cv2_lib) (input_path output_dir : string)
    (prefix format keep : pyval) :
  generate_output_filename cv input_path output_dir prefix format keep <> ""%string.
Proof.
  unfold generate_output_filename. apply join_not_empty.
  assert (H : forall x y z, String.append x (String.append y (String "." z)) <> ""%string).
  { intros [ | ] [ | ] z; rewrite ?append_nil, ?append_cons; discriminate. }
  destruct (Py.truthy keep); apply H.
Qed.

Lemma process_image_returns (cv : cv2_lib) (self : ImageProcessor)
    (image_path output_dir : string) :
  exists output_path,
    outcome (process_image cv self image_path output_dir) = Ok output_path.
Proof.
  destruct (process_image_result cv self image_path output_dir)
    as [Hn | (image & prefix & format & keep & params & Hp & _)]; eauto.
Qed.

Lemma say_value_cases (config : pyval) (section key : string)
    (line : pyval -> summary_line) :
  (exists v, subscript2 config section key = inr v
             /\ say_value config section key line = ([line v], inr tt))
  \/ (exists e, subscript2 config section key = inl e
                /\ say_value config section key line = ([], inl e)).
Proof.
  unfold say_value, look, then_, say.
  destruct (subscript2 config section key) as [e | v]; [ right | left ]; eauto.
Qed.

(** X18.  [print_config_summary] ends normally exactly when the
    configuration has the entries it prints: both paths, the denoise mode,
    the sharpen switch (and the sharpen mode when the switch is on), and the
    output format, quality and prefix.  The processor has a default for each
    of the last six; the summary has none. *)
Theorem summary_needs_every_entry :
  forall (config : pyval),
    (exists lines, print_config_summary config = (lines, inr tt))
    <-> (has config "paths" "input_dir" = true
         /\ has config "paths" "output_dir" = true
         /\ has config "denoise" "mode" = true
         /\ (exists enabled, subscript2 config "sharpen" "enabled" = inr enabled
                             /\ (Py.truthy enabled = true
                                 -> has config "sharpen" "mode" = true))
         /\ has config "output" "format" = true
         /\ has config "output" "quality" = true
         /\ has config "output" "prefix" = true).
Proof.
  intros config. unfold print_config_summary. cbn [then_ say app].
  destruct (say_value_cases config "paths" "input_dir" SumInputDir)
    as [(v1 & H1 & E1) | (e & H & E)]; rewrite ?E1, ?E; unfold has at 1; rewrite ?H1, ?H;
    [ | split; [ intros (? & Hl); discriminate Hl | intros (Hc & _); discriminate Hc ] ].
  cbn [then_ say app].
  destruct (say_value_cases config "paths" "output_dir" SumOutputDir)
    as [(v2 & H2 & E2) | (e & H & E)]; rewrite ?E2, ?E; unfold has at 1; rewrite ?H2, ?H;
    [ | split; [ intros (? & Hl); discriminate Hl | intros (_ & Hc & _); discriminate Hc ] ].
  cbn [then_ say app].
  destruct (say_value_cases config "denoise" "mode" SumDenoiseMode)
    as [(v3 & H3 & E3) | (e & H & E)]; rewrite ?E3, ?E; unfold has at 1; rewrite ?H3, ?H;
    [ | split; [ intros (? & Hl); discriminate Hl
               | intros (_ & _ & Hc & _); discriminate Hc ] ].
  cbn [then_ say app].
  destruct (say_value_cases config "sharpen" "enabled" SumSharpenEnabled)
    as [(v4 & H4 & E4) | (e & H & E)]; rewrite ?E4, ?E; rewrite ?H4, ?H;
    [ | split; [ intros (? & Hl); discriminate Hl
               | intros (_ & _ & _ & (en & Hc & _) & _); discriminate Hc ] ].
  cbn [then_ say app look].
  assert (Hmode :
    (exists l, (if Py.truthy v4 then say_value config "sharpen" "mode" SumSharpenMode
                else ([], inr tt)) = (l, inr tt)
               /\ (Py.truthy v4 = true -> has config "sharpen" "mode" = true))
    \/ (exists l e, (if Py.truthy v4 then say_value config "sharpen" "mode" SumSharpenMode
                     else ([], inr tt)) = (l, inl e)
                    /\ Py.truthy v4 = true /\ has config "sharpen" "mode" = false)).
  { destruct (Py.truthy v4).
    - unfold has.
      destruct (say_value_cases config "sharpen" "mode" SumSharpenMode)
        as [(v & H & E) | (e & H & E)]; rewrite E, H; [ left | right ]; eauto.
    - left. eexists. split; [ reflexivity | discriminate ]. }
  destruct Hmode as [(l5 & E5 & H5) | (l5 & e & E5 & Ht & H5)]; rewrite E5;
    [ | split; [ intros (? & Hl); discriminate Hl
               | intros (_ & _ & _ & (en & Hc & Hm) & _); injection Hc as <-;
                 rewrite (Hm Ht) in H5; discriminate H5 ] ].
  cbn [then_ say app].
  destruct (say_value_cases config "output" "format" SumFormat)
    as [(v6 & H6 & E6) | (e & H & E)]; rewrite ?E6, ?E; unfold has at 2; rewrite ?H6, ?H;
    [ | split; [ intros (? & Hl); discriminate Hl
               | intros (_ & _ & _ & _ & Hc & _); discriminate Hc ] ].
  cbn [then_ say app].
  destruct (say_value_cases config "output" "quality" SumQuality)
    as [(v7 & H7 & E7) | (e & H & E)]; rewrite ?E7, ?E; unfold has at 2; rewrite ?H7, ?H;
    [ | split; [ intros (? & Hl); discriminate Hl
               | intros (_ & _ & _ & _ & _ & Hc & _); discriminate Hc ] ].
  cbn [then_ say app].
  destruct (say_value_cases config "output" "prefix" SumPrefix)
    as [(v8 & H8 & E8) | (e & H & E)]; rewrite ?E8, ?E; unfold has at 2; rewrite ?H8, ?H;
    [ | split; [ intros (? & Hl); discriminate Hl
               | intros (_ & _ & _ & _ & _ & _ & Hc); discriminate Hc ] ].
  cbn [then_ say app].
  split; [ intros _ | intros _; eexists; reflexivity ].
  repeat split; try reflexivity. exists v4. split; [ reflexivity | exact H5 ].
Qed.

Lemma summary_needs_every_entry_default :
  (exists lines, print_config_summary default_config = (lines, inr tt))
  /\ snd (print_config_summary paths_only) = inl (KeyError "denoise").
Proof.
  split; [ | reflexivity ].
  apply (proj2 (summary_needs_every_entry default_config)).
  repeat split; try reflexivity.
  exists (PyBool true). split; reflexivity.
Defined.

(** ** One call per denoise *)

(** X19.  [apply_denoise] raises before any call (an unsupported mode, or
    parameters it cannot read), or makes exactly one library call, on the
    image it was given, and returns or raises what that call does: nothing
    is printed and the result is not touched. *)
Theorem apply_denoise_is_one_call :
  forall (cv : cv2_lib) (image : u8array) (mode params : pyval),
    (exists e, apply_denoise cv image mode params = ([], Raise e))
    \/ (exists c answer,
          denoise_call cv c = Some (image, answer)
          /\ apply_denoise cv image mode params = ([Call c], answer)).
Proof.
  intros cv image mode params. unfold apply_denoise, param.
  repeat match goal with
         | |- context [if Py.eq_str mode ?m then _ else _] => destruct (Py.eq_str mode m)
         end;
    repeat (rewrite bind_lift;
            match goal with
            | |- context [match ?r with Ok _ => _ | Raise _ => _ end] =>
                destruct r; [ | left; eexists; reflexivity ]
            end);
    try (left; eexists; reflexivity);
    right;
    unfold DenoiseFilter.gaussian_denoise, DenoiseFilter.mean_denoise,
      DenoiseFilter.median_denoise, DenoiseFilter.bilateral_denoise,
      DenoiseFilter.nlmeans_denoise, GaussianBlur, blur, medianBlur, bilateralFilter,
      fastNlMeansDenoisingColored, fastNlMeansDenoising, invoke;
    try (destruct (Np.ndim image =? 3)%nat);
    eexists; eexists; (split; [ | reflexivity ]); reflexivity.
Qed.

(** * The processor and its standard output *)

(** ** The processor on a stream that takes every line *)

Lemma bind_cong {A B} (m m' : M A) (f f' : A -> M B) :
  m = m' -> (forall a, f a = f' a) -> bind m f = bind m' f'.
Proof. intros -> H. apply bind_ext. exact H. Qed.

Lemma try_except_cong {A} (m m' : M A) (h h' : exn -> M A) :
  m = m' -> (forall e, h e = h' e) -> try_except m h = try_except m' h'.
Proof.
  intros -> H. destruct m' as [l [a | e]]; simpl; [ reflexivity | rewrite H; reflexivity ].
Qed.

Lemma print_accepted (out : stdout_lib) (m : message) :
  stdout_print out m = Ok tt -> Stdout.print out m = print m.
Proof. intros H. unfold Stdout.print. rewrite H. reflexivity. Qed.

(** Walks two runs of the same code that differ in their [print] only. *)
Ltac same_run H :=
  repeat first
    [ reflexivity
    | apply (print_accepted _ _ (H _))
    | apply bind_cong; [ | intro ]
    | apply try_except_cong; [ | intro ]
    | match goal with
      | |- when ?b _ = when ?b _ => destruct b; cbn [when]
      | |- (if ?b then _ else _) = (if ?b then _ else _) => destruct b
      | |- match ?x with _ => _ end = match ?x with _ => _ end => destruct x
      end ].

Section Accepted.
Variable out : stdout_lib.
Variable cv : cv2_lib.
Variable self : ImageProcessor.
Hypothesis accepted : accepts_all out.

Lemma resize_image_accepted (image : u8array) :
  Stdout._resize_image out cv self image = _resize_image cv self image.
Proof. unfold Stdout._resize_image, _resize_image. same_run accepted. Qed.

Lemma apply_denoise_accepted (image : u8array) :
  Stdout._apply_denoise out cv self image = _apply_denoise cv self image.
Proof. unfold Stdout._apply_denoise, _apply_denoise. same_run accepted. Qed.

Lemma apply_sharpen_accepted (image : u8array) :
  Stdout._apply_sharpen out cv self image = _apply_sharpen cv self image.
Proof. unfold Stdout._apply_sharpen, _apply_sharpen. same_run accepted. Qed.

Lemma save_image_accepted (image : u8array) (path : string) :
  Stdout._save_image out cv self image path = _save_image cv self image path.
Proof. unfold Stdout._save_image, _save_image. same_run accepted. Qed.

Lemma process_image_accepted (image_path output_dir : string) :
  Stdout.process_image out cv self image_path output_dir
  = process_image cv self image_path output_dir.
Proof.
  unfold Stdout.process_image, process_image.
  same_run accepted;
    first [ apply resize_image_accepted | apply apply_denoise_accepted
          | apply apply_sharpen_accepted | apply save_image_accepted ].
Qed.
End Accepted.

(** ** What leaves [process_image] *)

Lemma outcome_print (out : stdout_lib) (m : message) :
  outcome (Stdout.print out m) = stdout_print out m.
Proof. unfold Stdout.print. destruct (stdout_print out m) as [[] | e]; reflexivity. Qed.

Lemma events_print (out : stdout_lib) (m : message) :
  events (Stdout.print out m)
  = match stdout_print out m with Ok _ => [Print m] | Raise _ => [] end.
Proof. unfold Stdout.print. destruct (stdout_print out m) as [[] | e]; reflexivity. Qed.

Lemma outcome_on_error (out : stdout_lib) (image_path : string) (e : exn) :
  outcome (Stdout.on_error out image_path e)
  = match stdout_print out (MsgError image_path e) with
    | Ok _ => Ok None
    | Raise u => Raise u
    end.
Proof.
  unfold Stdout.on_error. rewrite outcome_bind, outcome_print.
  destruct (stdout_print out (MsgError image_path e)); reflexivity.
Qed.

(** C9.  [process_image] absorbs every exception of the library and of the
    configuration, but not one of its own [print]: the only exception that
    leaves it is the one raised by the [print] of the outer handler (line
    85).  On a stream that takes every line it returns [None], or the output
    path after a write that answered [True].  On a stream that cannot encode
    the messages a file that does not decode makes it raise: the line of
    line 46 raises inside the [try], the handler is entered, and its own line
    raises again, outside any handler. *)
Theorem process_image_raises_from_its_handler :
  forall (out : stdout_lib) (cv : cv2_lib) (self : ImageProcessor)
         (image_path output_dir : string),
    (forall e,
        outcome (Stdout.process_image out cv self image_path output_dir) = Raise e ->
        exists e0, stdout_print out (MsgError image_path e0) = Raise e)
    /\ (accepts_all out ->
        outcome (Stdout.process_image out cv self image_path output_dir) = Ok None
        \/ exists image prefix format keep params,
             outcome (Stdout.process_image out cv self image_path output_dir)
             = Ok (Some (generate_output_filename cv image_path output_dir
                           prefix format keep))
             /\ cv2_imwrite cv
                  (generate_output_filename cv image_path output_dir prefix format keep)
                  image params = Ok true
             /\ In (Call (imwrite_call
                            (generate_output_filename cv image_path output_dir
                               prefix format keep)
                            image params))
                   (events (Stdout.process_image out cv self image_path output_dir)))
    /\ (forall u u',
        cv2_imread cv image_path = Ok None ->
        stdout_print out (MsgUnreadable image_path) = Raise u ->
        stdout_print out (MsgError image_path u) = Raise u' ->
        Stdout.process_image out cv self image_path output_dir
        = ([Call (imread_call image_path)], Raise u')).
Proof.
  intros out cv self image_path output_dir. split; [ | split ].
  - intros e. unfold Stdout.process_image. rewrite outcome_try_except.
    match goal with |- context [outcome ?b] => destruct (outcome b) as [r | e0] end;
      [ discriminate | ].
    fold (Stdout.on_error out image_path e0). rewrite outcome_on_error.
    destruct (stdout_print out (MsgError image_path e0)) as [[] | u] eqn:E;
      [ discriminate | ].
    intros [= <-]. exists e0. exact E.
  - intros Hacc. rewrite (process_image_accepted out cv self Hacc).
    destruct (process_image_result cv self image_path output_dir)
      as [Hn | (image & prefix & format & keep & params & Hp & Hw & Hin)];
      [ left; exact Hn | right ].
    exists image, prefix, format, keep, params. repeat split; assumption.
  - intros u u' Hread Hu Hu'. unfold Stdout.process_image, imread, invoke, Stdout.print.
    rewrite Hread. cbn [bind]. rewrite Hu. cbn [app try_except bind].
    rewrite Hu'. reflexivity.
Qed.

Lemma process_image_raises_from_its_handler_ascii :
  Stdout.process_image ascii_only Ref.cv quiet_processor "/in/notes.txt" "/out"
  = ([Call (imread_call "/in/notes.txt")], Raise (ValueError "UnicodeEncodeError")).
Proof.
  exact (proj2 (proj2 (process_image_raises_from_its_handler ascii_only Ref.cv
                         quiet_processor "/in/notes.txt" "/out"))
           (ValueError "UnicodeEncodeError") (ValueError "UnicodeEncodeError")
           eq_refl eq_refl eq_refl).
Defined.

(** ** A stage that fails, and the line that says so *)

Lemma print_ok (out : stdout_lib) (m : message) :
  stdout_print out m = Ok tt -> Stdout.print out m = ([Print m], Ok tt).
Proof. intros H. unfold Stdout.print. rewrite H. reflexivity. Qed.

Lemma print_raises (out : stdout_lib) (m : message) (u : exn) :
  stdout_print out m = Raise u -> Stdout.print out m = ([], Raise u).
Proof. intros H. unfold Stdout.print. rewrite H. reflexivity. Qed.

(** The line of a verbose stage, when the stream takes it. *)
Lemma stage_line (out : stdout_lib) (self : ImageProcessor) (m : message) :
  (Py.truthy (verbose self) = true -> stdout_print out m = Ok tt) ->
  when (Py.truthy (verbose self)) (Stdout.print out m) = (mode_line self m, Ok tt).
Proof.
  intros H. unfold mode_line. destruct (Py.truthy (verbose self)); [ | reflexivity ].
  cbn [when]. apply print_ok. apply H. reflexivity.
Qed.

Lemma bind_pair {A B} (l : list event) (a : A) (f : A -> M B) :
  bind (l, Ok a) f = (l ++ events (f a), outcome (f a)).
Proof. unfold bind. destruct (f a). reflexivity. Qed.

Lemma bind_pair_raise {A B} (l : list event) (e : exn) (f : A -> M B) :
  bind ((l, Raise e) : M A) f = (l, Raise e).
Proof. reflexivity. Qed.

Lemma pair_eta {A} (m : M A) : m = (events m, outcome m).
Proof. destruct m. reflexivity. Qed.

Lemma process_image_link (out : stdout_lib) (cv : cv2_lib) (self : ImageProcessor)
    (image_path output_dir : string) :
  Stdout.process_image out cv self image_path output_dir
  = try_except
      (let* image := imread cv image_path in
       match image with
       | None => let* _ := Stdout.print out (MsgUnreadable image_path) in ret None
       | Some image =>
           let* _ :=
             (if Py.truthy (verbose self) then
                match shape image with
                | h :: w :: _ => Stdout.print out (MsgProcessing image_path w h)
                | _ => raise (IndexError "tuple index out of range")
                end
              else ret tt) in
           let* image := Stdout.stages out cv self image in
           Stdout.finish out cv self image_path output_dir image
       end)
      (Stdout.on_error out image_path).
Proof.
  unfold Stdout.process_image. apply try_except_cong; [ | reflexivity ].
  apply bind_ext. intros [image | ]; [ | reflexivity ].
  apply bind_ext. intros _. unfold Stdout.stages, Stdout.finish.
  rewrite bind_assoc. apply bind_ext. intros do_resize.
  rewrite bind_assoc. apply bind_ext. intros image1.
  rewrite bind_assoc. apply bind_ext. intros image2.
  rewrite bind_assoc. apply bind_ext. intros enabled.
  rewrite bind_assoc. apply bind_ext. intros image3.
  rewrite bind_ret. reflexivity.
Qed.

Lemma denoise_stage_fails (out : stdout_lib) (cv : cv2_lib) (self : ImageProcessor)
    (image : u8array) (mode params : pyval) (e : exn) :
  Py.get (denoise_config self) (PyStr "mode") (PyStr "bilateral") = Ok mode ->
  Py.get (denoise_config self) mode (PyDict ∅) = Ok params ->
  (Py.truthy (verbose self) = true -> stdout_print out (MsgDenoiseMode mode) = Ok tt) ->
  outcome (apply_denoise cv image mode params) = Raise e ->
  Stdout._apply_denoise out cv self image
  = (mode_line self (MsgDenoiseMode mode)
       ++ events (apply_denoise cv image mode params)
       ++ events (Stdout.print out (MsgDenoiseFailed e)),
     match stdout_print out (MsgDenoiseFailed e) with
     | Ok _ => Ok image
     | Raise u => Raise u
     end).
Proof.
  intros Hm Hp Hl He. unfold Stdout._apply_denoise, param.
  rewrite Hm, bind_lift_Ok. cbv beta. rewrite Hp, bind_lift_Ok. cbv beta.
  rewrite (stage_line out self _ Hl), bind_pair. f_equal.
  - f_equal. rewrite events_try_except, bind_ret_r, He, events_bind, outcome_print.
    destruct (stdout_print out (MsgDenoiseFailed e)) as [[] | u];
      rewrite ?app_nil_r; reflexivity.
  - rewrite outcome_try_except, bind_ret_r, He, outcome_bind, outcome_print.
    destruct (stdout_print out (MsgDenoiseFailed e)) as [[] | u]; reflexivity.
Qed.

Lemma sharpen_stage_fails (out : stdout_lib) (cv : cv2_lib) (self : ImageProcessor)
    (image : u8array) (mode params : pyval) (e : exn) :
  Py.get (sharpen_config self) (PyStr "mode") (PyStr "unsharp_mask") = Ok mode ->
  Py.get (sharpen_config self) mode (PyDict ∅) = Ok params ->
  (Py.truthy (verbose self) = true -> stdout_print out (MsgSharpenMode mode) = Ok tt) ->
  outcome (apply_sharpen cv image mode params) = Raise e ->
  Stdout._apply_sharpen out cv self image
  = (mode_line self (MsgSharpenMode mode)
       ++ events (apply_sharpen cv image mode params)
       ++ events (Stdout.print out (MsgSharpenFailed e)),
     match stdout_print out (MsgSharpenFailed e) with
     | Ok _ => Ok image
     | Raise u => Raise u
     end).
Proof.
  intros Hm Hp Hl He. unfold Stdout._apply_sharpen, param.
  rewrite Hm, bind_lift_Ok. cbv beta. rewrite Hp, bind_lift_Ok. cbv beta.
  rewrite (stage_line out self _ Hl), bind_pair. f_equal.
  - f_equal. rewrite events_try_except, bind_ret_r, He, events_bind, outcome_print.
    destruct (stdout_print out (MsgSharpenFailed e)) as [[] | u];
      rewrite ?app_nil_r; reflexivity.
  - rewrite outcome_try_except, bind_ret_r, He, outcome_bind, outcome_print.
    destruct (stdout_print out (MsgSharpenFailed e)) as [[] | u]; reflexivity.
Qed.

Lemma stages_compose (out : stdout_lib) (cv : cv2_lib) (self : ImageProcessor)
    (image resized denoised sharpened : u8array) (do_resize enabled : pyval) :
  Py.get (processing_config self) (PyStr "resize") (PyBool false) = Ok do_resize ->
  outcome (if Py.truthy do_resize then Stdout._resize_image out cv self image
           else ret image) = Ok resized ->
  outcome (Stdout._apply_denoise out cv self resized) = Ok denoised ->
  Py.get (sharpen_config self) (PyStr "enabled") (PyBool true) = Ok enabled ->
  outcome (if Py.truthy enabled then Stdout._apply_sharpen out cv self denoised
           else ret denoised) = Ok sharpened ->
  Stdout.stages out cv self image
  = (events (if Py.truthy do_resize then Stdout._resize_image out cv self image
             else ret image)
       ++ events (Stdout._apply_denoise out cv self resized)
       ++ events (if Py.truthy enabled then Stdout._apply_sharpen out cv self denoised
                  else ret denoised),
     Ok sharpened).
Proof.
  intros Hr Hz Hd Hen Hs. unfold Stdout.stages, param.
  rewrite Hr, bind_lift_Ok. cbv beta.
  rewrite (pair_eta (if Py.truthy do_resize then _ else _)), Hz, bind_pair. cbv beta.
  rewrite (pair_eta (Stdout._apply_denoise out cv self resized)), Hd, bind_pair. cbv beta.
  rewrite Hen, bind_lift_Ok. cbv beta. rewrite bind_ret_r, Hs.
  cbn [events outcome fst snd]. reflexivity.
Qed.

Lemma denoise_warning_is_fatal (out : stdout_lib) (cv : cv2_lib) (self : ImageProcessor)
    (image_path output_dir : string) (image : u8array) (do_resize mode params : pyval)
    (e u : exn) :
  cv2_imread cv image_path = Ok (Some image) ->
  Py.truthy (verbose self) = false ->
  Py.get (processing_config self) (PyStr "resize") (PyBool false) = Ok do_resize ->
  Py.truthy do_resize = false ->
  Py.get (denoise_config self) (PyStr "mode") (PyStr "bilateral") = Ok mode ->
  Py.get (denoise_config self) mode (PyDict ∅) = Ok params ->
  outcome (apply_denoise cv image mode params) = Raise e ->
  stdout_print out (MsgDenoiseFailed e) = Raise u ->
  Stdout.process_image out cv self image_path output_dir
  = (Call (imread_call image_path)
       :: events (apply_denoise cv image mode params)
       ++ events (Stdout.on_error out image_path u),
     outcome (Stdout.on_error out image_path u)).
Proof.
  intros Hi Hv Hr Hrf Hm Hp He Hu.
  rewrite process_image_link. unfold imread, invoke. rewrite Hi, bind_pair. cbv beta iota.
  rewrite Hv. unfold Stdout.stages, param. rewrite bind_ret.
  rewrite Hr, bind_lift_Ok. cbv beta. rewrite Hrf, bind_ret.
  rewrite (denoise_stage_fails out cv self image mode params e Hm Hp) by
    (rewrite Hv; discriminate) || assumption.
  rewrite Hu, (print_raises _ _ _ Hu). unfold mode_line. rewrite Hv.
  cbn [app events fst]. rewrite app_nil_r, !bind_pair_raise.
  cbn [events outcome fst snd try_except app].
  destruct (Stdout.on_error out image_path u) as [l r]. reflexivity.
Qed.

(** C2.  A filter that raises does not end the run, as long as the line
    that says so can be printed.  [process_image] is decoding, the stages,
    then naming and saving, under the outer handler.  In the stages, the
    sharpen stage is given what the denoise stage returned, and what it
    returns is what is named and saved.  When the denoise selector raises,
    [_apply_denoise] prints the failure and returns the image it was given,
    the one after the resize stage; when the sharpen selector raises,
    [_apply_sharpen] returns the image after the denoise stage.  But the
    failure line is printed inside the handler, unguarded: when the stream
    refuses it, the exception of [print] leaves the stage, no later stage
    runs, nothing is saved, and the run of the image ends in the outer
    handler. *)
Theorem stage_failure_is_isolated :
  forall (out : stdout_lib) (cv : cv2_lib) (self : ImageProcessor),
    (forall image_path output_dir,
        Stdout.process_image out cv self image_path output_dir
        = try_except
            (let* image := imread cv image_path in
             match image with
             | None => let* _ := Stdout.print out (MsgUnreadable image_path) in ret None
             | Some image =>
                 let* _ :=
                   (if Py.truthy (verbose self) then
                      match shape image with
                      | h :: w :: _ => Stdout.print out (MsgProcessing image_path w h)
                      | _ => raise (IndexError "tuple index out of range")
                      end
                    else ret tt) in
                 let* image := Stdout.stages out cv self image in
                 Stdout.finish out cv self image_path output_dir image
             end)
            (Stdout.on_error out image_path))
    /\ (forall image resized denoised sharpened do_resize enabled,
        Py.get (processing_config self) (PyStr "resize") (PyBool false) = Ok do_resize ->
        outcome (if Py.truthy do_resize then Stdout._resize_image out cv self image
                 else ret image) = Ok resized ->
        outcome (Stdout._apply_denoise out cv self resized) = Ok denoised ->
        Py.get (sharpen_config self) (PyStr "enabled") (PyBool true) = Ok enabled ->
        outcome (if Py.truthy enabled then Stdout._apply_sharpen out cv self denoised
                 else ret denoised) = Ok sharpened ->
        Stdout.stages out cv self image
        = (events (if Py.truthy do_resize then Stdout._resize_image out cv self image
                   else ret image)
             ++ events (Stdout._apply_denoise out cv self resized)
             ++ events (if Py.truthy enabled
                        then Stdout._apply_sharpen out cv self denoised
                        else ret denoised),
           Ok sharpened))
    /\ (forall image mode params e,
        Py.get (denoise_config self) (PyStr "mode") (PyStr "bilateral") = Ok mode ->
        Py.get (denoise_config self) mode (PyDict ∅) = Ok params ->
        (Py.truthy (verbose self) = true ->
         stdout_print out (MsgDenoiseMode mode) = Ok tt) ->
        outcome (apply_denoise cv image mode params) = Raise e ->
        (stdout_print out (MsgDenoiseFailed e) = Ok tt ->
         Stdout._apply_denoise out cv self image
         = (mode_line self (MsgDenoiseMode mode)
              ++ events (apply_denoise cv image mode params)
              ++ [Print (MsgDenoiseFailed e)],
            Ok image))
        /\ (forall u,
            stdout_print out (MsgDenoiseFailed e) = Raise u ->
            Stdout._apply_denoise out cv self image
            = (mode_line self (MsgDenoiseMode mode)
                 ++ events (apply_denoise cv image mode params),
               Raise u)))
    /\ (forall image mode params e,
        Py.get (sharpen_config self) (PyStr "mode") (PyStr "unsharp_mask") = Ok mode ->
        Py.get (sharpen_config self) mode (PyDict ∅) = Ok params ->
        (Py.truthy (verbose self) = true ->
         stdout_print out (MsgSharpenMode mode) = Ok tt) ->
        outcome (apply_sharpen cv image mode params) = Raise e ->
        (stdout_print out (MsgSharpenFailed e) = Ok tt ->
         Stdout._apply_sharpen out cv self image
         = (mode_line self (MsgSharpenMode mode)
              ++ events (apply_sharpen cv image mode params)
              ++ [Print (MsgSharpenFailed e)],
            Ok image))
        /\ (forall u,
            stdout_print out (MsgSharpenFailed e) = Raise u ->
            Stdout._apply_sharpen out cv self image
            = (mode_line self (MsgSharpenMode mode)
                 ++ events (apply_sharpen cv image mode params),
               Raise u)))
    /\ (forall image_path output_dir image do_resize mode params e u,
        cv2_imread cv image_path = Ok (Some image) ->
        Py.truthy (verbose self) = false ->
        Py.get (processing_config self) (PyStr "resize") (PyBool false) = Ok do_resize ->
        Py.truthy do_resize = false ->
        Py.get (denoise_config self) (PyStr "mode") (PyStr "bilateral") = Ok mode ->
        Py.get (denoise_config self) mode (PyDict ∅) = Ok params ->
        outcome (apply_denoise cv image mode params) = Raise e ->
        stdout_print out (MsgDenoiseFailed e) = Raise u ->
        Stdout.process_image out cv self image_path output_dir
        = (Call (imread_call image_path)
             :: events (apply_denoise cv image mode params)
             ++ events (Stdout.on_error out image_path u),
           outcome (Stdout.on_error out image_path u))).
Proof.
  intros out cv self. split; [ | split; [ | split; [ | split ] ] ].
  - intros. apply process_image_link.
  - intros. eapply stages_compose; eassumption.
  - intros image mode params e Hm Hp Hl He. split.
    + intros Hok. rewrite (denoise_stage_fails out cv self image mode params e Hm Hp Hl He).
      rewrite Hok, (print_ok _ _ Hok). reflexivity.
    + intros u Hu. rewrite (denoise_stage_fails out cv self image mode params e Hm Hp Hl He).
      rewrite Hu, (print_raises _ _ _ Hu). cbn [events fst]. rewrite app_nil_r.
      reflexivity.
  - intros image mode params e Hm Hp Hl He. split.
    + intros Hok. rewrite (sharpen_stage_fails out cv self image mode params e Hm Hp Hl He).
      rewrite Hok, (print_ok _ _ Hok). reflexivity.
    + intros u Hu. rewrite (sharpen_stage_fails out cv self image mode params e Hm Hp Hl He).
      rewrite Hu, (print_raises _ _ _ Hu). cbn [events fst]. rewrite app_nil_r.
      reflexivity.
  - intros. eapply denoise_warning_is_fatal; eassumption.
Qed.

Lemma stage_failure_is_isolated_wavelet :
  Stdout.process_image ascii_only Ref.cv quiet_wavelet "/in/photo.JPG" "/out"
  = ([Call (imread_call "/in/photo.JPG")], Raise (ValueError "UnicodeEncodeError"))
  /\ Stdout._apply_denoise utf8 Ref.cv quiet_wavelet Ref.photo
     = ([Print (MsgDenoiseFailed (ValueError "不支持的降噪模式: wavelet"))], Ok Ref.photo)
  /\ outcome (Stdout.process_image utf8 Ref.cv quiet_wavelet "/in/photo.JPG" "/out")
     = Ok (Some "/out/processed_photo.png"%string).
Proof.
  destruct (stage_failure_is_isolated ascii_only Ref.cv quiet_wavelet)
    as (_ & _ & _ & _ & Hfatal).
  destruct (stage_failure_is_isolated utf8 Ref.cv quiet_wavelet)
    as (_ & _ & Hdenoise & _).
  split; [ | split ].
  - exact (Hfatal "/in/photo.JPG"%string "/out"%string Ref.photo (PyBool false)
             (PyStr "wavelet") (PyDict ∅) (ValueError "不支持的降噪模式: wavelet")
             (ValueError "UnicodeEncodeError")
             eq_refl eq_refl eq_refl eq_refl eq_refl eq_refl eq_refl eq_refl).
  - refine (proj1 (Hdenoise Ref.photo (PyStr "wavelet") (PyDict ∅)
                     (ValueError "不支持的降噪模式: wavelet")
                     eq_refl eq_refl _ eq_refl) eq_refl).
    intros; reflexivity.
  - vm_compute. reflexivity.
Defined.

(** ** Saving *)

(** X12.  With a format other than PNG [_save_image] calls [cv2.imwrite]
    exactly once and answers what it answered; when the call raised it
    prints a line and answers [False], and it raises only if that line
    cannot be printed.  The format is matched whatever its case; JPEG and
    WebP get the configured quality as it is, any other format no parameter
    at all. *)
Theorem save_image_lossy_formats :
  forall (out : stdout_lib) (cv : cv2_lib) (self : ImageProcessor) (image : u8array)
         (path f : string) (quality : pyval),
    Py.get (output_config self) (PyStr "format") (PyStr "png") = Ok (PyStr f) ->
    Py.get (output_config self) (PyStr "quality") (PyInt 95) = Ok quality ->
    let written (params : list pyval) : M bool :=
      match cv2_imwrite cv path image params with
      | Ok b => ([Call (imwrite_call path image params)], Ok b)
      | Raise e =>
          (Call (imwrite_call path image params)
             :: events (Stdout.print out (MsgWriteFailed e)),
           match stdout_print out (MsgWriteFailed e) with
           | Ok _ => Ok false
           | Raise u => Raise u
           end)
      end in
    (Py.lower_string f = "jpg"%string \/ Py.lower_string f = "jpeg"%string ->
     Stdout._save_image out cv self image path
     = written [PyInt IMWRITE_JPEG_QUALITY; quality])
    /\ (Py.lower_string f = "webp"%string ->
        Stdout._save_image out cv self image path
        = written [PyInt IMWRITE_WEBP_QUALITY; quality])
    /\ (~ In (Py.lower_string f) ["jpg"; "jpeg"; "png"; "webp"]%string ->
        Stdout._save_image out cv self image path = written []).
Proof.
  intros out cv self image path f quality Hf Hq written.
  assert (Hw : forall params,
             try_except (let* success := imwrite cv path image params in ret success)
               (fun e => let* _ := Stdout.print out (MsgWriteFailed e) in ret false)
             = written params).
  { intros params. unfold written, imwrite, invoke.
    destruct (cv2_imwrite cv path image params) as [b | e]; [ reflexivity | ].
    cbn [bind try_except]. unfold Stdout.print.
    destruct (stdout_print out (MsgWriteFailed e)) as [[] | u]; reflexivity. }
  unfold Stdout._save_image, param. rewrite Hf, bind_lift_Ok. cbv beta.
  unfold Py.lower. rewrite bind_lift_Ok. cbv beta. rewrite Hq, bind_lift_Ok. cbv beta.
  repeat split.
  - intros [-> | ->]; cbn [String.eqb Ascii.eqb Bool.eqb orb]; rewrite bind_ret; apply Hw.
  - intros ->. cbn [String.eqb Ascii.eqb Bool.eqb orb]. rewrite bind_ret. apply Hw.
  - intros Hn. cbn [In] in Hn.
    destruct (String.eqb_spec (Py.lower_string f) "jpg"); [ intuition congruence | ].
    destruct (String.eqb_spec (Py.lower_string f) "jpeg"); [ intuition congruence | ].
    destruct (String.eqb_spec (Py.lower_string f) "png"); [ intuition congruence | ].
    destruct (String.eqb_spec (Py.lower_string f) "webp"); [ intuition congruence | ].
    cbn [orb]. rewrite bind_ret. apply Hw.
Qed.

Lemma save_image_lossy_formats_jpeg :
  Stdout._save_image ascii_only Ref.cv jpeg_80 Ref.photo "/out/processed_photo.JPG"
  = ([Call (imwrite_call "/out/processed_photo.JPG" Ref.photo
              [PyInt IMWRITE_JPEG_QUALITY; PyInt 80])],
     Ok true).
Proof.
  exact (proj1 (save_image_lossy_formats ascii_only Ref.cv jpeg_80 Ref.photo
                  "/out/processed_photo.JPG" "JPG" (PyInt 80) eq_refl eq_refl)
           (or_introl eq_refl)).
Defined.

(** ** The loop of [main] *)

Lemma process_image_returns_accepted (out : stdout_lib) (cv : cv2_lib)
    (self : ImageProcessor) (image_path output_dir : string) :
  accepts_all out ->
  exists output_path,
    outcome (Stdout.process_image out cv self image_path output_dir) = Ok output_path.
Proof.
  intros Hacc. rewrite (process_image_accepted out cv self Hacc).
  apply process_image_returns.
Qed.

(** The truth value the loop tests is whether a path was returned: the path
    is never the empty string. *)
Lemma truthy_path_saved_on (out : stdout_lib) (cv : cv2_lib) (self : ImageProcessor)
    (image_path output_dir : string) (output_path : option string) :
  outcome (Stdout.process_image out cv self image_path output_dir) = Ok output_path ->
  truthy_path output_path = Stdout.saved out cv self output_dir image_path.
Proof.
  intros H. unfold Stdout.saved. rewrite H.
  destruct output_path as [path | ]; [ | reflexivity ].
  cbn [truthy_path].
  destruct (String.eqb_spec path "") as [-> | _]; [ exfalso | reflexivity ].
  revert H. unfold Stdout.process_image. rewrite outcome_try_except.
  match goal with |- context [outcome ?b] => destruct (outcome b) as [r | e0] eqn:Hb end.
  - intros [= ->].
    apply bind_Ok_inv in Hb as ([image | ] & _ & Hb & _).
    + apply bind_Ok_inv in Hb as (u & _ & Hb & _).
      apply bind_Ok_inv in Hb as (r & _ & Hb & _).
      apply bind_Ok_inv in Hb as (resized & _ & Hb & _).
      apply bind_Ok_inv in Hb as (denoised & _ & Hb & _).
      apply bind_Ok_inv in Hb as (enabled & _ & Hb & _).
      apply bind_Ok_inv in Hb as (sharpened & _ & Hb & _).
      apply bind_Ok_inv in Hb as (prefix & _ & Hb & _).
      apply bind_Ok_inv in Hb as (format & _ & Hb & _).
      apply bind_Ok_inv in Hb as (keep & _ & Hb & _).
      cbv zeta in Hb.
      apply bind_Ok_inv in Hb as ([ | ] & _ & Hb & _).
      * apply bind_Ok_inv in Hb as (u' & _ & Hb & _). injection Hb as Hb.
        exact (output_path_not_empty _ _ _ _ _ _ Hb).
      * apply bind_Ok_inv in Hb as (u' & _ & Hb & _). discriminate.
    + apply bind_Ok_inv in Hb as (u & _ & Hb & _). discriminate.
  - rewrite outcome_bind, outcome_print.
    destruct (stdout_print out (MsgError image_path e0)) as [[] | ?]; discriminate.
Qed.

Lemma batch_from (out : stdout_lib) (cv : cv2_lib) (config : pyval)
    (self : ImageProcessor) (output_dir : string) (image_files : list string) (s f : Z) :
  init config = Ok self ->
  accepts_all out -> stdout_newline out = Ok tt ->
  Stdout.batch out cv config self output_dir image_files s f
  = (flat_map (Stdout.turn out cv self output_dir) image_files,
     Ok (s + Z.of_nat (length (List.filter (Stdout.saved out cv self output_dir)
                                 image_files)),
         f + Z.of_nat (length (List.filter
                                 (fun p => negb (Stdout.saved out cv self output_dir p))
                                 image_files)))).
Proof.
  intros Hinit Hacc Hnl. revert s f.
  induction image_files as [ | image_path rest IH]; intros s f.
  - simpl. rewrite !Z.add_0_r. reflexivity.
  - cbn [Stdout.batch flat_map List.filter].
    destruct (process_image_returns_accepted out cv self image_path output_dir Hacc)
      as [output_path Ho].
    rewrite Ho, (init_verbose _ _ Hinit), (truthy_path_saved_on _ _ _ _ _ _ Ho), Hnl.
    unfold Stdout.turn at 1.
    destruct (Stdout.saved out cv self output_dir image_path);
      destruct (Py.truthy (verbose self)); cbn [negb fst snd length];
      rewrite IH, <- ?app_assoc; cbn [fst snd app]; do 3 f_equal; lia.
Qed.

Lemma batch_stops (out : stdout_lib) (cv : cv2_lib) (config : pyval)
    (self : ImageProcessor) (output_dir : string)
    (done : list string) (image_path : string) (rest : list string) (u : exn) (s f : Z) :
  init config = Ok self ->
  Forall (fun p => exists r,
              outcome (Stdout.process_image out cv self p output_dir) = Ok r) done ->
  (done <> [] -> Py.truthy (verbose self) = true -> stdout_newline out = Ok tt) ->
  outcome (Stdout.process_image out cv self image_path output_dir) = Raise u ->
  Stdout.batch out cv config self output_dir (done ++ image_path :: rest) s f
  = (flat_map (Stdout.turn out cv self output_dir) done
       ++ map Image (events (Stdout.process_image out cv self image_path output_dir)),
     Raise u).
Proof.
  intros Hinit Hdone Hnl Hu. revert s f.
  induction done as [ | p done IH]; intros s f.
  - cbn [app Stdout.batch flat_map]. rewrite Hu. reflexivity.
  - cbn [app Stdout.batch flat_map].
    apply Forall_cons_iff in Hdone as [[r Hr] Hdone].
    rewrite Hr, (init_verbose _ _ Hinit). unfold Stdout.turn at 1.
    destruct (Py.truthy (verbose self)) eqn:Hv.
    + rewrite (Hnl ltac:(discriminate) eq_refl).
      rewrite IH; [ | exact Hdone | intros _ _; apply Hnl; [ discriminate | reflexivity ] ].
      cbn [fst snd]. rewrite <- !app_assoc. reflexivity.
    + rewrite IH; [ | exact Hdone | intros _ Hx; discriminate Hx ].
      cbn [fst snd]. rewrite app_nil_r, <- !app_assoc. reflexivity.
Qed.

(** X17.  The loop of [main].  On a stream that takes every line it
    processes every file once, in the order of the list, and never stops
    early; a file is counted as a success exactly when [process_image]
    returned a path for it, and the two counts add up to the number of
    files.  On any stream, the first file at which [process_image] raises
    ends the loop with that exception: the files after it are not
    processed. *)
Theorem batch_counts_every_file :
  forall (out : stdout_lib) (cv : cv2_lib) (config : pyval) (self : ImageProcessor)
         (output_dir : string),
    init config = Ok self ->
    (accepts_all out -> stdout_newline out = Ok tt ->
     forall image_files,
     exists success_count fail_count,
       Stdout.batch out cv config self output_dir image_files 0 0
       = (flat_map (Stdout.turn out cv self output_dir) image_files,
          Ok (success_count, fail_count))
       /\ success_count
          = Z.of_nat (length (List.filter (Stdout.saved out cv self output_dir)
                                image_files))
       /\ success_count + fail_count = Z.of_nat (length image_files))
    /\ (forall done image_path rest u,
        Forall (fun p => exists r,
                    outcome (Stdout.process_image out cv self p output_dir) = Ok r) done ->
        (done <> [] -> Py.truthy (verbose self) = true -> stdout_newline out = Ok tt) ->
        outcome (Stdout.process_image out cv self image_path output_dir) = Raise u ->
        Stdout.batch out cv config self output_dir (done ++ image_path :: rest) 0 0
        = (flat_map (Stdout.turn out cv self output_dir) done
             ++ map Image (events (Stdout.process_image out cv self image_path output_dir)),
           Raise u)).
Proof.
  intros out cv config self output_dir Hinit. split.
  - intros Hacc Hnl image_files.
    rewrite (batch_from _ _ _ _ _ _ 0 0 Hinit Hacc Hnl).
    eexists. eexists. split; [ reflexivity | ]. split; [ reflexivity | ].
    rewrite !Z.add_0_l, <- Nat2Z.inj_add. f_equal.
    clear. induction image_files as [ | p rest IH]; [ reflexivity | ].
    cbn [List.filter]. destruct (Stdout.saved out cv self output_dir p);
      cbn [negb length]; lia.
  - intros done image_path rest u Hdone Hnl Hu. apply batch_stops; assumption.
Qed.

Lemma batch_counts_every_file_album :
  snd (Stdout.batch utf8 Ref.cv default_config default_processor "/out"
         ["/in/photo.JPG"; "/in/notes.txt"; "/in/photo.JPG"]%string 0 0)
  = Ok (2, 1)
  /\ Stdout.batch ascii_only Ref.cv quiet_config quiet_processor "/out"
       ["/in/photo.JPG"; "/in/notes.txt"; "/in/photo.JPG"]%string 0 0
     = ([Image (Call (imread_call "/in/photo.JPG"));
         Image (Call (bilateralFilter_call Ref.photo (PyInt 9) (PyInt 75) (PyInt 75)));
         Image (Call (GaussianBlur_call Ref.photo (PyTuple [PyInt 0; PyInt 0])
                        (PyFloat (F64.of_Z 1))));
         Image (Call (addWeighted_call Ref.photo
                        (Py.NFloat (F64.add (F64.of_Z 1) three_halves)) Ref.photo
                        (Py.NFloat (F64.opp three_halves)) 0));
         Image (Call (imwrite_call "/out/processed_photo.png" Ref.photo
                        [PyInt IMWRITE_PNG_COMPRESSION; PyInt 0]));
         Image (Call (imread_call "/in/notes.txt"))],
        Raise (ValueError "UnicodeEncodeError")).
Proof.
  destruct (batch_counts_every_file utf8 Ref.cv default_config default_processor "/out"
              eq_refl) as [Hall _].
  destruct (Hall ltac:(intro; reflexivity) eq_refl
              ["/in/photo.JPG"; "/in/notes.txt"; "/in/photo.JPG"]%string)
    as (s & f & H & Hs & Hf).
  destruct (batch_counts_every_file ascii_only Ref.cv quiet_config quiet_processor "/out"
              eq_refl) as [_ Hstop].
  split.
  - rewrite H. cbn [snd]. vm_compute in Hs. subst s.
    change (Z.of_nat _) with 3 in Hf. f_equal. f_equal. lia.
  - etransitivity;
      [ apply (Hstop ["/in/photo.JPG"%string] "/in/notes.txt"%string
                 ["/in/photo.JPG"%string] (ValueError "UnicodeEncodeError"))
      | vm_compute; reflexivity ].
    + constructor; [ | constructor ]. eexists. vm_compute. reflexivity.
    + intros _ Hv. discriminate Hv.
    + vm_compute. reflexivity.
Defined.
